(** * The search-over-period workflow of jgclark.SearchExtensions

    A shallow embedding of [searchPeriod]
    (src/jgclark.SearchExtensions/src/saveSearchPeriod.js, lines 61-272)
    and the properties its specification states about it.

    [searchPeriod] is glue code: almost every line is a call into the host
    application or into a helper module.  The embedding keeps the control
    flow of the function as it is written and records every call it makes,
    with its arguments and its answer, in a chronological trace.  The
    collaborators are not part of the function: they are gathered in a
    record [Host] whose fields answer each call as a function of the calls
    made before, so that a theorem quantified over [Host] holds for every
    behaviour of the collaborators, including one that throws.

    Conventions.
    - JavaScript strings are modelled by [string]; the relational operator
      [>] on strings is the lexicographic order on code units, here
      [String.ltb] with its arguments swapped.
    - A thrown value is an Error object: it has a [message].
    - The logging helpers of @helpers/dev ([logDebug], [logInfo],
      [logError], [clo]) write to the plugin console and return.
    - The arguments have the types of the signature: a string or
      [undefined].

    The file has two parts: the definitions (the embedding, a model of the
    note store, concrete hosts, observations of a trace), then the
    theorems. *)

From Stdlib Require Import String Ascii List Bool Arith NArith Lia DecimalString.
Import ListNotations.
Open Scope string_scope.

(* ================================================================== *)
(** * Part I: definitions *)

(* ------------------------------------------------------------------ *)
(** ** JavaScript primitives used by the function *)

Module Js.

(** [a > b] on two strings. *)
Definition gt (a b : string) : bool := String.ltb b a.

(** ['#'.repeat(n)]. *)
Fixpoint repeat (s : string) (n : nat) : string :=
  match n with
  | O => ""
  | S k => s ++ repeat s k
  end.

(** [s.split(',')] for a one-character separator. *)
Fixpoint split (sep : ascii) (s : string) : list string :=
  match s with
  | EmptyString => [EmptyString]
  | String c rest =>
      if Ascii.eqb c sep then EmptyString :: split sep rest
      else match split sep rest with
           | [] => [String c EmptyString]
           | x :: xs => String c x :: xs
           end
  end.

(** [arr.join(sep)]. *)
Definition join (sep : string) (arr : list string) : string :=
  String.concat sep arr.

(** [String(n)] and [`${n}`] for a non-negative integer. *)
Definition ofNat (n : nat) : string :=
  NilZero.string_of_uint (Nat.to_uint n).

(** [String(b)]. *)
Definition ofBool (b : bool) : string := if b then "true" else "false".

(** [x ?? d]; also the default value [d] of a parameter. *)
Definition nullish {A : Type} (x : option A) (d : A) : A :=
  match x with Some v => v | None => d end.

(** The line feed of [join('\n')]. *)
Definition LF : string := String (ascii_of_nat 10) EmptyString.

(** [s.startsWith(p)]. *)
Definition startsWith (s p : string) : bool := String.prefix p s.

End Js.

(* ------------------------------------------------------------------ *)
(** ** Data *)

(** An Error object. *)
Record JsError := mkError { name : string; message : string }.

(** The answer of a collaborator: a value, or a thrown exception (for an
    awaited call: a fulfilled or a rejected promise). *)
Inductive Result (A : Type) : Type :=
| Ok (a : A)
| Err (e : JsError).
Arguments Ok {A} a.
Arguments Err {A} e.

(** A JavaScript [Date], as its time value. *)
Definition JsDate := N.

(** The settings object returned by [getSearchSettings]; the fields are
    the ones [searchPeriod] reads. *)
Record Config := mkConfig {
  headingLevel : nat;
  defaultSearchTerms : list string;
  foldersToExclude : list string;
  autoSave : bool;
  folderToStore : string;
  searchHeading : string
}.

(** Modelled from the spec: the type of a typed search term is declared in
    searchHelpers, which is not part of the sources; section 3 of the
    specification gives its fields. *)
Record SearchTerm := mkTerm {
  text : string;
  mustExist : bool;
  mustBeExcluded : bool
}.

(** The result of [runSearchesV2] ([resultOutputTypeV3]); the fields are
    the ones [searchPeriod] reads. *)
Record ResultSet := mkResultSet {
  resultCount : nat;
  searchTermsRepArr : list string
}.

(** A paragraph of a note, and a note. *)
Inductive ParaType := Title | TextPara.

Record Paragraph := mkPara {
  paraType : ParaType;
  paraLevel : nat;
  content : string
}.

Record TNote := mkNote {
  filename : option string;
  paragraphs : list Paragraph
}.

(** The array returned by [getPeriodStartEndDates]. *)
Record PeriodChoice := mkChoice {
  chosenFromDate : option JsDate;
  chosenToDate : option JsDate;
  chosenPeriodType : string;
  chosenPeriodString : string;
  chosenPeriodAndPartStr : string
}.

(** One entry of the list handed to [chooseOption]. *)
Record ChoiceOption := mkOption { label : string; value : string }.

(** The two [moment] expressions of lines 87 and 97. *)
Inductive MomentChain :=
| NowStartOfDay
| NowStartOfDaySubtractDays (n : nat).

(** The arguments of one invocation; [None] is [undefined]. *)
Record Args := mkArgs {
  searchTermsArg : option string;
  fromDateArg : option string;
  toDateArg : option string;
  paraTypeFilterArg : option string;
  destinationArg : option string
}.

(** The local variables set by lines 77-120. *)
Record PeriodVars := mkPeriod {
  fromDate : option JsDate;
  fromDateStr : string;
  toDate : option JsDate;
  toDateStr : string;
  periodType : string;
  periodString : string;
  periodAndPartStr : string
}.

(* ------------------------------------------------------------------ *)
(** ** Calls made by [searchPeriod] *)

Inductive Event :=
| EvGetSearchSettings (r : Result Config)
| EvMoment (chain : MomentChain) (r : Result JsDate)
| EvGetPeriodStartEndDates (question : string) (excludeToday : bool)
    (r : Result PeriodChoice)
| EvLogError (msg : string)
| EvLogDebug (msg : string)
| EvLogInfo (msg : string)
| EvClo (obj : list string) (preamble : string)
| EvGetInput (question okLabel dialogTitle defaultValue : string)
    (r : Result (string + bool))
| EvValidateAndTypeSearchTerms (termsStr : string) (allowEmptyOrOnlyNegative : bool)
    (r : Result (option (list SearchTerm)))
| EvShowMessage (msg : string) (r : Result unit)
| EvShowLoading (visible : bool) (msg : option string) (r : Result unit)
| EvOnAsyncThread (r : Result unit)
| EvOnMainThread (r : Result unit)
| EvRunSearchesV2 (terms : list SearchTerm) (noteTypes foldersToInclude foldersToExcl : list string)
    (config : Config) (paraTypes : list string) (fromDateStr toDateStr : string)
| EvAwaitResults (r : Result ResultSet)
| EvChooseOption (question : string) (options : list ChoiceOption) (defaultValue : string)
    (r : Result string)
| EvCreateFormattedResultLines (rs : ResultSet) (config : Config) (r : Result (list string))
| EvEditorNote (r : option TNote)
| EvReplaceSection (note : TNote) (headingToRemove newHeading : string) (level : nat)
    (newContent : string) (r : Result unit)
| EvWriteSearchResultsToNote (rs : ResultSet) (requestedTitle titleToMatch : string)
    (config : Config) (xCallbackLink : string) (r : Result string)
| EvNoteOpenInEditor (noteFilename : string) (r : Result bool)
| EvOpenNoteByFilename (noteFilename : string) (newWindow : bool) (selStart selEnd : nat)
    (splitView : bool) (r : Result unit).

Definition Trace := list Event.

(** The collaborators.  The first group are constants and string helpers
    of @helpers/dateTime, @helpers/general and searchHelpers, which are not
    part of the sources: [RE_ISO_DATE s] stands for [s.match(RE_ISO_DATE)]
    being non-null.  Every other field answers one call, given the calls
    made and answered before it. *)
Record Host := mkHost {
  RE_ISO_DATE : string -> bool;
  RE_YYYYMMDD_DATE : string -> bool;
  unhyphenateString : string -> string;
  unhyphenatedDate : JsDate -> string;
  getSearchTermsRep : list SearchTerm -> string;
  createRunPluginCallbackUrl : string -> string -> list string -> string;

  getSearchSettings : Trace -> Result Config;
  moment : Trace -> MomentChain -> Result JsDate;
  getPeriodStartEndDates : Trace -> string -> bool -> Result PeriodChoice;
  getInput : Trace -> string -> string -> string -> string -> Result (string + bool);
  validateAndTypeSearchTerms : Trace -> string -> bool -> Result (option (list SearchTerm));
  showMessage : Trace -> string -> Result unit;
  showLoading : Trace -> bool -> option string -> Result unit;
  onAsyncThread : Trace -> Result unit;
  onMainThread : Trace -> Result unit;
  resultsProm : Trace -> Result ResultSet;
  chooseOption : Trace -> string -> list ChoiceOption -> string -> Result string;
  createFormattedResultLines : Trace -> ResultSet -> Config -> Result (list string);
  Editor_note : Trace -> option TNote;
  replaceSection : Trace -> TNote -> string -> string -> nat -> string -> Result unit;
  writeSearchResultsToNote :
    Trace -> ResultSet -> string -> string -> Config -> string -> Result string;
  noteOpenInEditor : Trace -> string -> Result bool;
  openNoteByFilename : Trace -> string -> bool -> nat -> nat -> bool -> Result unit
}.

(* ------------------------------------------------------------------ *)
(** ** Statements with effects

    A statement runs on the trace so far and completes normally with a
    value, by a [return] of the enclosing function, or by throwing. *)

Inductive Completion (A : Type) : Type :=
| Normal (a : A)
| Returned
| Thrown (e : JsError).
Arguments Normal {A} a.
Arguments Returned {A}.
Arguments Thrown {A} e.

Definition M (A : Type) : Type := Trace -> Completion A * Trace.

Definition ret {A : Type} (a : A) : M A := fun t => (Normal a, t).

Definition bind {A B : Type} (m : M A) (k : A -> M B) : M B :=
  fun t =>
    match m t with
    | (Normal a, t') => k a t'
    | (Returned, t') => (Returned, t')
    | (Thrown e, t') => (Thrown e, t')
    end.

Notation "x <- m ;; k" := (bind m (fun x => k))
  (at level 61, m at next level, right associativity).
Notation "m ;;; k" := (bind m (fun _ => k))
  (at level 61, right associativity).

(** [return] *)
Definition js_return {A : Type} : M A := fun t => (Returned, t).

(** A call that cannot fail. *)
Definition emit (e : Event) : M unit := fun t => (Normal tt, (t ++ [e])%list).

(** A call (awaited or not) that the host answers with a value or an
    exception; the call and its answer are recorded. *)
Definition call {A : Type} (answer : Trace -> Result A) (ev : Result A -> Event) : M A :=
  fun t =>
    match answer t with
    | Ok a => (Normal a, (t ++ [ev (Ok a)])%list)
    | Err e => (Thrown e, (t ++ [ev (Err e)])%list)
    end.

(** Reading a property of a host object, such as [Editor.note]. *)
Definition get {A : Type} (answer : Trace -> A) (ev : A -> Event) : M A :=
  fun t => (Normal (answer t), (t ++ [ev (answer t)])%list).

(** [try { body } catch (err) { handler }] *)
Definition tryCatch {A : Type} (body : M A) (handler : JsError -> M A) : M A :=
  fun t =>
    match body t with
    | (Thrown e, t') => handler e t'
    | r => r
    end.

Definition logError (msg : string) : M unit := emit (EvLogError msg).
Definition logDebug (msg : string) : M unit := emit (EvLogDebug msg).
Definition logInfo (msg : string) : M unit := emit (EvLogInfo msg).
Definition clo (obj : list string) (preamble : string) : M unit := emit (EvClo obj preamble).

(* ------------------------------------------------------------------ *)
(** ** [searchPeriod]

    The function is one long body; it is cut here at its own comment
    banners into the period block (lines 76-120), the search-terms block
    (lines 127-144), the destination block (lines 169-189) and the output
    block (lines 204-268).  Each block returns the local variables that
    the rest of the function reads. *)

(** Line 206: the search terms as shown in headings. *)
Definition searchTermsRepStr (resultSet : ResultSet) : string :=
  "[" ++ Js.join " " (searchTermsRepArr resultSet) ++ "]".

(** Line 218: the heading of the block written to the current note. *)
Definition thisResultHeading (resultSet : ResultSet) (periodAndPartStr : string) : string :=
  searchTermsRepStr resultSet ++ " (" ++ Js.ofNat (resultCount resultSet) ++ " results) for "
  ++ periodAndPartStr.

Section SearchPeriod.

Variable h : Host.

(** Lines 90-94 and 100-104: YYYY-MM-DD or YYYYMMDD to YYYYMMDD. *)
Definition toCompactDate (dateArg : string) : string :=
  if RE_ISO_DATE h dateArg then unhyphenateString h dateArg
  else if RE_YYYYMMDD_DATE h dateArg then dateArg
  else "error".

(** Lines 84-120.  The test of line 96 is on [fromDateArg], as in the
    source. *)
Definition resolvePeriod (searchTermsArg : option string) (fromDateArg toDateArg : string)
  : M PeriodVars :=
  match searchTermsArg with
  | Some _ =>
      from <- (if fromDateArg =? "default" then
                 d <- call (fun t => moment h t (NowStartOfDaySubtractDays 91))
                           (EvMoment (NowStartOfDaySubtractDays 91)) ;;
                 ret (Some d, "")
               else
                 ret (None, toCompactDate fromDateArg)) ;;
      to <- (if fromDateArg =? "default" then
               d <- call (fun t => moment h t NowStartOfDay) (EvMoment NowStartOfDay) ;;
               ret (Some d, "")
             else
               ret (None, toCompactDate toDateArg)) ;;
      let periodString := snd from ++ " - " ++ snd to in
      ret (mkPeriod (fst from) (snd from) (fst to) (snd to) "" periodString periodString)
  | None =>
      c <- call (fun t => getPeriodStartEndDates h t "What period shall I search over?" false)
                (EvGetPeriodStartEndDates "What period shall I search over?" false) ;;
      match chosenFromDate c, chosenToDate c with
      | Some fromDate, Some toDate =>
          ret (mkPeriod (Some fromDate) (unhyphenatedDate h fromDate)
                        (Some toDate) (unhyphenatedDate h toDate)
                        (chosenPeriodType c) (chosenPeriodString c)
                        (if chosenPeriodAndPartStr c =? "" then chosenPeriodString c
                         else chosenPeriodAndPartStr c))
      | _, _ =>
          logError "dates could not be parsed for requested time period" ;;;
          js_return
      end
  end.

(** Lines 127-144: the search terms, from the argument or from the user. *)
Definition getTermsToMatchStr (config : Config) (searchTermsArg : option string) : M string :=
  match searchTermsArg with
  | Some _ =>
      logDebug ("- arg0 -> search term(s) [" ++ Js.nullish searchTermsArg "" ++ "]") ;;;
      ret (Js.nullish searchTermsArg "")
  | None =>
      let defaultTermsToMatchStr := Js.join ", " (defaultSearchTerms config) in
      newTerms <- call
        (fun t => getInput h t
           "Enter search term(s) separated by spaces or commas. (You can use + term, -term and !term as well.)"
           "OK" "Search" defaultTermsToMatchStr)
        (EvGetInput
           "Enter search term(s) separated by spaces or commas. (You can use + term, -term and !term as well.)"
           "OK" "Search" defaultTermsToMatchStr) ;;
      match newTerms with
      | inr _ =>
          logInfo "User has cancelled operation." ;;;
          js_return
      | inl s => ret s
      end
  end.

(** The four options of lines 181-186. *)
Definition destinationOptions (config : Config) (periodString : string) : list ChoiceOption :=
  [ mkOption ("🖊 Create/update note '" ++ periodString ++ "' in folder '"
              ++ folderToStore config ++ "'") "newnote";
    mkOption "🖊 Append/update your current note" "current";
    mkOption "📋 Write to plugin console log" "log";
    mkOption "❌ Cancel" "cancel" ].

(** Lines 171-189: where to save the summary. *)
Definition chooseDestination (config : Config) (calledNonInteractively : bool)
    (periodString : string) : M string :=
  if calledNonInteractively || autoSave config then
    ret "newnote"
  else
    call (fun t => chooseOption h t
                     ("Where should I save the search results for " ++ periodString ++ "?")
                     (destinationOptions config periodString) "newnote")
         (EvChooseOption
            ("Where should I save the search results for " ++ periodString ++ "?")
            (destinationOptions config periodString) "newnote").

(** Lines 206-268: the output. *)
Definition doOutput (config : Config) (headingMarker : string) (p : PeriodVars)
    (termsToMatchStr paraTypeFilterArg : string) (destinationArg : option string)
    (destination : string) (resultSet : ResultSet) : M unit :=
  let searchTermsRepStr := searchTermsRepStr resultSet in
  resultOutputLines <- call (fun t => createFormattedResultLines h t resultSet config)
                            (EvCreateFormattedResultLines resultSet config) ;;
  if destination =? "current" then
    currentNote <- get (Editor_note h) EvEditorNote ;;
    match currentNote with
    | None => logError "No note is open"
    | Some currentNote =>
        logDebug ("Will write update/append to current note ("
                  ++ Js.nullish (filename currentNote) "" ++ ")") ;;;
        let thisResultHeading := thisResultHeading resultSet (periodAndPartStr p) in
        resultOutputLines <- call (fun t => createFormattedResultLines h t resultSet config)
                                  (EvCreateFormattedResultLines resultSet config) ;;
        call (fun t => replaceSection h t currentNote searchTermsRepStr thisResultHeading
                         (headingLevel config) (Js.join Js.LF resultOutputLines))
             (EvReplaceSection currentNote searchTermsRepStr thisResultHeading
                (headingLevel config) (Js.join Js.LF resultOutputLines))
    end
  else if destination =? "newnote" then
    let titleToMatch := termsToMatchStr ++ " " ++ searchHeading config in
    let requestedTitle :=
      termsToMatchStr ++ " " ++ searchHeading config ++ " for " ++ periodAndPartStr p in
    let xCallbackLink :=
      createRunPluginCallbackUrl h "jgclark.SearchExtensions" "searchInPeriod"
        [termsToMatchStr; fromDateStr p; toDateStr p; paraTypeFilterArg;
         Js.nullish destinationArg ""] in
    noteFilename <- call (fun t => writeSearchResultsToNote h t resultSet requestedTitle
                                     titleToMatch config xCallbackLink)
                         (EvWriteSearchResultsToNote resultSet requestedTitle titleToMatch
                            config xCallbackLink) ;;
    logDebug ("- filename to open in split: " ++ noteFilename) ;;;
    isOpen <- call (fun t => noteOpenInEditor h t noteFilename)
                   (EvNoteOpenInEditor noteFilename) ;;
    if (isOpen : bool) then
      logDebug ("- note " ++ noteFilename ++ " already open in an editor window")
    else
      call (fun t => openNoteByFilename h t noteFilename false 0 0 true)
           (EvOpenNoteByFilename noteFilename false 0 0 true)
  else if destination =? "log" then
    resultOutputLines <- call (fun t => createFormattedResultLines h t resultSet config)
                              (EvCreateFormattedResultLines resultSet config) ;;
    logInfo (headingMarker ++ " " ++ searchTermsRepStr ++ " ("
             ++ Js.ofNat (resultCount resultSet) ++ " results) for " ++ periodAndPartStr p) ;;;
    logInfo (Js.join Js.LF resultOutputLines)
  else if destination =? "cancel" then
    logInfo "User cancelled command"
  else
    logError "No valid save location code supplied".

(** Line 156: the paragraph types to include. *)
Definition paraTypesOf (paraTypeFilterArg : string) : list string :=
  if negb (paraTypeFilterArg =? "") then Js.split "," paraTypeFilterArg else [].

(** Lines 69-268: the body of the [try]. *)
Definition searchPeriod_try (a : Args) : M unit :=
  let fromDateArg := Js.nullish (fromDateArg a) "default" in
  let toDateArg := Js.nullish (toDateArg a) "default" in
  let paraTypeFilterArg := Js.nullish (paraTypeFilterArg a) "" in
  config <- call (getSearchSettings h) EvGetSearchSettings ;;
  let headingMarker := Js.repeat "#" (headingLevel config) in
  let calledNonInteractively :=
    match searchTermsArg a with Some _ => true | None => false end in
  p <- resolvePeriod (searchTermsArg a) fromDateArg toDateArg ;;
  if Js.gt (fromDateStr p) (toDateStr p) then
    logError ("Stopping: fromDate " ++ fromDateStr p ++ " is after toDate " ++ toDateStr p) ;;;
    js_return
  else
  logDebug ("- time period for search: " ++ periodString p ++ " / " ++ periodAndPartStr p) ;;;
  termsToMatchStr <- getTermsToMatchStr config (searchTermsArg a) ;;
  logDebug ("- called non-interactively? " ++ Js.ofBool calledNonInteractively) ;;;
  validatedSearchTerms <- call (fun t => validateAndTypeSearchTerms h t termsToMatchStr true)
                               (EvValidateAndTypeSearchTerms termsToMatchStr true) ;;
  match validatedSearchTerms with
  | None | Some [] =>
      call (fun t => showMessage h t
              "These search terms aren't valid. Please see Plugin Console for details.")
           (EvShowMessage
              "These search terms aren't valid. Please see Plugin Console for details.") ;;;
      js_return
  | Some validatedSearchTerms =>
      let paraTypesToInclude := paraTypesOf paraTypeFilterArg in
      clo paraTypesToInclude "arg3 -> para types: " ;;;
      call (fun t => showLoading h t true
                       (Some ("Searching over period " ++ periodString p ++ " ...")))
           (EvShowLoading true (Some ("Searching over period " ++ periodString p ++ " ..."))) ;;;
      call (onAsyncThread h) EvOnAsyncThread ;;;
      emit (EvRunSearchesV2 validatedSearchTerms ["calendar"] [] (foldersToExclude config)
              config paraTypesToInclude (fromDateStr p) (toDateStr p)) ;;;
      call (onMainThread h) EvOnMainThread ;;;
      destination <- chooseDestination config calledNonInteractively (periodString p) ;;
      logDebug ("destination = " ++ destination ++ ", started with destinationArg = "
                ++ Js.nullish (destinationArg a) "undefined") ;;;
      resultSet <- call (resultsProm h) EvAwaitResults ;;
      call (fun t => showLoading h t false None) (EvShowLoading false None) ;;;
      if Nat.eqb (resultCount resultSet) 0 then
        logDebug ("No results found for search " ++ getSearchTermsRep h validatedSearchTerms) ;;;
        call (fun t => showMessage h t
                ("No results found for search " ++ getSearchTermsRep h validatedSearchTerms))
             (EvShowMessage
                ("No results found for search " ++ getSearchTermsRep h validatedSearchTerms)) ;;;
        js_return
      else
        doOutput config headingMarker p termsToMatchStr paraTypeFilterArg (destinationArg a)
          destination resultSet
  end.

(** Lines 68-272: [try { ... } catch (err) { logError(pluginJson, err.message) }]. *)
Definition searchPeriod (a : Args) : M unit :=
  tryCatch (searchPeriod_try a) (fun err => logError (message err)).

End SearchPeriod.

(** The promise returned by an [async] function whose body is [m], started
    on an empty history, together with the calls it made. *)
Inductive PromiseState := Fulfilled | Rejected (e : JsError).

Definition runAsync (m : M unit) : PromiseState * Trace :=
  match m [] with
  | (Thrown e, t) => (Rejected e, t)
  | (_, t) => (Fulfilled, t)
  end.

Definition invoke (h : Host) (a : Args) : PromiseState * Trace :=
  runAsync (searchPeriod h a).

(* ------------------------------------------------------------------ *)
(** ** The note store (for lines 210-222)

    [replaceSection] belongs to @helpers/note, which is not part of the
    sources.  It is written here from section 4.5 of the specification, on
    a note seen as its list of paragraphs.  Two things that the
    specification leaves to the note store are kept as parameters: when a
    heading counts as the heading asked for, and how an inserted text is
    cut into paragraphs. *)

Module NoteStore.

Section ReplaceSection.

(** [headingMatches headingText wanted]: the store takes the heading
    [headingText] for the section [wanted]. *)
Variable headingMatches : string -> string -> bool.

(** The paragraphs that a text becomes once inserted. *)
Variable paragraphsOf : string -> list Paragraph.

Definition isSectionHeading (wanted : string) (p : Paragraph) : bool :=
  match paraType p with
  | Title => headingMatches (content p) wanted
  | TextPara => false
  end.

Definition countHeadings (wanted : string) (ps : list Paragraph) : nat :=
  List.length (filter (isSectionHeading wanted) ps).

(** What follows the body of a section whose heading has the given level:
    the body ends before the next heading of the same or of a higher
    level. *)
Fixpoint afterSection (level : nat) (ps : list Paragraph) : list Paragraph :=
  match ps with
  | [] => []
  | p :: rest =>
      match paraType p with
      | Title => if Nat.leb (paraLevel p) level then ps else afterSection level rest
      | TextPara => afterSection level rest
      end
  end.

(** Replace the first section whose heading matches by [block]; append
    [block] when there is none. *)
Fixpoint replaceIn (wanted : string) (block ps : list Paragraph) : list Paragraph :=
  match ps with
  | [] => block
  | p :: rest =>
      if isSectionHeading wanted p then (block ++ afterSection (paraLevel p) rest)%list
      else p :: replaceIn wanted block rest
  end.

(** Modelled from the spec: [replaceSection] is a function of
    @helpers/note, which is not part of the sources; section 4.5: "for the
    exact heading matching the search-terms representation, replace its
    existing body if present, else append a new heading+body block at the
    end of the note". *)
Definition replaceSection (note : TNote) (headingToRemove newHeading : string)
    (level : nat) (newContent : string) : TNote :=
  mkNote (filename note)
         (replaceIn headingToRemove
            (mkPara Title level newHeading :: paragraphsOf newContent)
            (paragraphs note)).

(** Lines 206 and 218-220: the write of the 'current' case. *)
Definition writeToCurrentNote (config : Config) (resultSet : ResultSet)
    (periodAndPartStr : string) (resultOutputLines : list string) (currentNote : TNote)
  : TNote :=
  replaceSection currentNote (searchTermsRepStr resultSet)
    (thisResultHeading resultSet periodAndPartStr) (headingLevel config)
    (Js.join Js.LF resultOutputLines).


End ReplaceSection.

(** A store that takes a heading for a section when the heading starts
    with the text asked for, and one that wants the two equal. *)
Definition byPrefix (headingText wanted : string) : bool := Js.startsWith headingText wanted.

Definition byEquality (headingText wanted : string) : bool := headingText =? wanted.

(** A store that makes one text paragraph of an inserted text. *)
Definition asOneParagraph (s : string) : list Paragraph := [mkPara TextPara 0 s].

End NoteStore.

(* ------------------------------------------------------------------ *)
(** ** Concrete collaborators

    A family of hosts on which the function can be run.  The helpers that
    are not part of the sources are written from the specification. *)

Module Scenario.

Definition isDigit (c : ascii) : bool :=
  ((48 <=? nat_of_ascii c)%nat && (nat_of_ascii c <=? 57)%nat).

Definition isHyphen (c : ascii) : bool := Ascii.eqb c "-".

(** Modelled from the spec: [RE_ISO_DATE] is a constant of
    @helpers/dateTime, which is not part of the sources; sections 4.1 and
    6 accept the form YYYY-MM-DD. *)
Definition matchIsoDate (s : string) : bool :=
  match list_ascii_of_string s with
  | [y1; y2; y3; y4; s1; m1; m2; s2; d1; d2] =>
      forallb isDigit [y1; y2; y3; y4; m1; m2; d1; d2] && isHyphen s1 && isHyphen s2
  | _ => false
  end.

(** Modelled from the spec: [RE_YYYYMMDD_DATE] is a constant of
    @helpers/dateTime, which is not part of the sources; sections 4.1 and
    6 accept the form YYYYMMDD. *)
Definition matchCompactDate (s : string) : bool :=
  match list_ascii_of_string s with
  | [y1; y2; y3; y4; m1; m2; d1; d2] => forallb isDigit [y1; y2; y3; y4; m1; m2; d1; d2]
  | _ => false
  end.

(** Modelled from the spec: [unhyphenateString] is a helper of
    @helpers/dateTime, which is not part of the sources; it turns the ISO
    form into the compact form of section 4.1. *)
Fixpoint stripHyphens (s : string) : string :=
  match s with
  | EmptyString => EmptyString
  | String c rest => if isHyphen c then stripHyphens rest else String c (stripHyphens rest)
  end.

(** Tokens of a search expression: cut at commas and spaces. *)
Fixpoint tokens (s : string) (cur : string) : list string :=
  match s with
  | EmptyString => [cur]
  | String c rest =>
      if Ascii.eqb c "," || Ascii.eqb c " " then cur :: tokens rest ""
      else tokens rest (cur ++ String c "")
  end.

Definition typeToken (alone : bool) (tok : string) : option SearchTerm :=
  match tok with
  | EmptyString => None
  | String c rest =>
      if Ascii.eqb c "+" then
        (if rest =? "" then None else Some (mkTerm rest true false))
      else if Ascii.eqb c "-" || Ascii.eqb c "!" then
        (if rest =? "" then None else Some (mkTerm rest false true))
      else Some (mkTerm tok alone false)
  end.

Fixpoint keepSome {A : Type} (l : list (option A)) : list A :=
  match l with
  | [] => []
  | Some x :: r => x :: keepSome r
  | None :: r => keepSome r
  end.

(** Modelled from the spec: [validateAndTypeSearchTerms] is a function of
    searchHelpers, which is not part of the sources; section 4.2 gives
    its policy: tokens are cut at commas and white space, a leading [+]
    marks a required term, a leading [-] or [!] an excluded one, a token
    that is empty once its sigil is removed is dropped, and no remaining
    term is a failure. *)
Definition validate (s : string) : option (list SearchTerm) :=
  let toks := filter (fun tok => negb (tok =? "")) (tokens s "") in
  let alone := Nat.eqb (List.length toks) 1 in
  match keepSome (map (typeToken alone) toks) with
  | [] => None
  | l => Some l
  end.

Definition termsRep (l : list SearchTerm) : string :=
  "[" ++ Js.join " " (map text l) ++ "]".

Definition callbackUrl (pluginID command : string) (args : list string) : string :=
  "noteplan://x-callback-url/runPlugin?pluginID=" ++ pluginID ++ "&command=" ++ command
  ++ "&args=" ++ Js.join "," args.

Definition settings : Config :=
  mkConfig 2 ["#idea"] ["@Archive"] false "Searches" "Search results".

Definition today : JsDate := 20240301%N.

Definition compactOfDate (d : JsDate) : string := NilZero.string_of_uint (N.to_uint d).

Definition thisMonth : PeriodChoice :=
  mkChoice (Some 20240201%N) (Some 20240229%N) "month" "Feb 2024" "".

(** A host that reads [settings], answers the prompts with [period],
    [typed] and [picked], finds [found], has [open] in the editor, and
    whose other calls succeed. *)
Definition host (period : PeriodChoice) (typed : string + bool) (picked : string)
    (found : Result ResultSet) (open : option TNote) : Host :=
  {| RE_ISO_DATE := matchIsoDate;
     RE_YYYYMMDD_DATE := matchCompactDate;
     unhyphenateString := stripHyphens;
     unhyphenatedDate := compactOfDate;
     getSearchTermsRep := termsRep;
     createRunPluginCallbackUrl := callbackUrl;
     getSearchSettings := fun _ => Ok settings;
     moment := fun _ chain =>
                 match chain with
                 | NowStartOfDay => Ok today
                 | NowStartOfDaySubtractDays n => Ok (today - N.of_nat n)%N
                 end;
     getPeriodStartEndDates := fun _ _ _ => Ok period;
     getInput := fun _ _ _ _ _ => Ok typed;
     validateAndTypeSearchTerms := fun _ s _ => Ok (validate s);
     showMessage := fun _ _ => Ok tt;
     showLoading := fun _ _ _ => Ok tt;
     onAsyncThread := fun _ => Ok tt;
     onMainThread := fun _ => Ok tt;
     resultsProm := fun _ => found;
     chooseOption := fun _ _ _ _ => Ok picked;
     createFormattedResultLines :=
       fun _ rs _ => Ok (map (fun r => "### " ++ r) (searchTermsRepArr rs));
     Editor_note := fun _ => open;
     replaceSection := fun _ _ _ _ _ _ => Ok tt;
     writeSearchResultsToNote := fun _ _ title _ _ _ => Ok (title ++ ".md");
     noteOpenInEditor := fun _ _ => Ok false;
     openNoteByFilename := fun _ _ _ _ _ _ => Ok tt |}.

Definition twoHits : ResultSet := mkResultSet 2 ["#project"].
Definition noHits : ResultSet := mkResultSet 0 ["#project"].

(** The host of a call through an x-callback URL: nobody answers. *)
Definition callbackHost (found : Result ResultSet) : Host :=
  host thisMonth (inr false) "cancel" found None.

End Scenario.

(* ------------------------------------------------------------------ *)
(** ** Observing a trace *)

Definition isRunSearchesV2 (e : Event) : bool :=
  match e with EvRunSearchesV2 _ _ _ _ _ _ _ _ => true | _ => false end.

Definition isShowMessage (e : Event) : bool :=
  match e with EvShowMessage _ _ => true | _ => false end.

Definition isChooseOption (e : Event) : bool :=
  match e with EvChooseOption _ _ _ _ => true | _ => false end.

Definition isValidation (e : Event) : bool :=
  match e with EvValidateAndTypeSearchTerms _ _ _ => true | _ => false end.

Definition isAwaitResults (e : Event) : bool :=
  match e with EvAwaitResults _ => true | _ => false end.

Definition isEditorNote (e : Event) : bool :=
  match e with EvEditorNote _ => true | _ => false end.

Definition isOnMainThread (e : Event) : bool :=
  match e with EvOnMainThread _ => true | _ => false end.

Definition isFormatterCall (e : Event) : bool :=
  match e with EvCreateFormattedResultLines _ _ _ => true | _ => false end.

(** A write to a note: [replaceSection] or [writeSearchResultsToNote]. *)
Definition isNoteWrite (e : Event) : bool :=
  match e with
  | EvReplaceSection _ _ _ _ _ _ => true
  | EvWriteSearchResultsToNote _ _ _ _ _ _ => true
  | _ => false
  end.

(** A write to the log sink: the [logInfo] lines of the 'log' case. *)
Definition isLogInfo (e : Event) : bool :=
  match e with EvLogInfo _ => true | _ => false end.

(** The exception a call was answered with, if any. *)
Definition thrownBy (e : Event) : option JsError :=
  match e with
  | EvGetSearchSettings (Err x) | EvMoment _ (Err x) | EvGetPeriodStartEndDates _ _ (Err x)
  | EvGetInput _ _ _ _ (Err x) | EvValidateAndTypeSearchTerms _ _ (Err x)
  | EvShowMessage _ (Err x) | EvShowLoading _ _ (Err x) | EvOnAsyncThread (Err x)
  | EvOnMainThread (Err x) | EvAwaitResults (Err x) | EvChooseOption _ _ _ (Err x)
  | EvCreateFormattedResultLines _ _ (Err x) | EvReplaceSection _ _ _ _ _ (Err x)
  | EvWriteSearchResultsToNote _ _ _ _ _ (Err x) | EvNoteOpenInEditor _ (Err x)
  | EvOpenNoteByFilename _ _ _ _ _ (Err x) => Some x
  | _ => None
  end.

Definition isThrow (e : Event) : bool :=
  match thrownBy e with Some _ => true | None => false end.

(** Does the trace contain a call of the given kind? *)
Definition calls (p : Event -> bool) (t : Trace) : bool := existsb p t.

(** The first call of the given kind, and the calls made after it. *)
Fixpoint after (p : Event -> bool) (t : Trace) : option (Event * Trace) :=
  match t with
  | [] => None
  | e :: rest => if p e then Some (e, rest) else after p rest
  end.

(** The messages of lines 150 and 199-200. *)
Definition invalidTermsMessage : string :=
  "These search terms aren't valid. Please see Plugin Console for details.".

Definition noResultsMessage (h : Host) (terms : list SearchTerm) : string :=
  "No results found for search " ++ getSearchTermsRep h terms.

(** The debug line of line 190, which names the destination chosen. *)
Definition destinationLog (destination : string) (destinationArg : option string) : string :=
  "destination = " ++ destination ++ ", started with destinationArg = "
  ++ Js.nullish destinationArg "undefined".

(** What the [catch] of line 269 adds after a call answered [r]. *)
Definition caught {A : Type} (r : Result A) : Trace :=
  match r with
  | Ok _ => []
  | Err e => [EvLogError (message e)]
  end.

(** The typed terms that validation answered with. *)
Definition validatedTerms (t : Trace) : option (list SearchTerm) :=
  match after isValidation t with
  | Some (EvValidateAndTypeSearchTerms _ _ (Ok v), _) => v
  | _ => None
  end.

(** The calls made once the search has been issued and the main thread
    is back. *)
Definition afterMainThread (t : Trace) : Trace :=
  match after isOnMainThread t with
  | Some (_, post) => post
  | None => []
  end.

(** The calls of the period block: it consults [moment] or asks for a
    period, and may log that the dates could not be parsed. *)
Definition isPeriodEvent (e : Event) : bool :=
  match e with
  | EvMoment _ _ | EvGetPeriodStartEndDates _ _ _ | EvLogError _ => true
  | _ => false
  end.


(** A call of [replaceSection] made for the result set [rs]: the section
    asked for is the representation of line 206, the new heading is the
    one of line 218, the text is the formatted lines joined by line
    feeds. *)
Definition writesBlockOf (config : Config) (rs : ResultSet) (periodAndPartStr : string)
    (e : Event) : Prop :=
  match e with
  | EvReplaceSection _ headingToRemove newHeading level newContent _ =>
      headingToRemove = searchTermsRepStr rs
      /\ newHeading = thisResultHeading rs periodAndPartStr
      /\ level = headingLevel config
      /\ exists resultOutputLines, newContent = Js.join Js.LF resultOutputLines
  | _ => True
  end.

(** A date argument that is neither the sentinel nor of an accepted form. *)
Definition badDate (h : Host) (dateArg : string) : bool :=
  negb (dateArg =? "default")
  && negb (RE_ISO_DATE h dateArg) && negb (RE_YYYYMMDD_DATE h dateArg).

(* ------------------------------------------------------------------ *)
(** ** Three sentences of the specification, as they are written *)

(** Sections 4.1 and 7: in non-interactive mode a bad date argument is
    reported in a dialog and no search is issued. *)
Definition badDateRejected (h : Host) (a : Args) : Prop :=
  searchTermsArg a <> None ->
  badDate h (Js.nullish (fromDateArg a) "default")
  || badDate h (Js.nullish (toDateArg a) "default") = true ->
  calls isShowMessage (snd (invoke h a)) = true
  /\ calls isRunSearchesV2 (snd (invoke h a)) = false.

(** Section 7: with no note open for the 'current' destination, the
    failure is shown to the user in a dialog. *)
Definition missingNoteShownInDialog (h : Host) (a : Args) : Prop :=
  forall post : Trace,
    after isEditorNote (snd (invoke h a)) = Some (EvEditorNote None, post) ->
    calls isShowMessage post = true.


(* ------------------------------------------------------------------ *)
(** ** Runs used as instances *)

(** An interactive invocation: no argument at all. *)
Definition interactively : Args := mkArgs None None None None None.

(** A call through the callback URL that asks for the 'current'
    destination. *)
Definition viaCallback : Args :=
  mkArgs (Some "#project") (Some "20240101") (Some "20240131") None (Some "current").

(** An interactive run whose user picks 'current' while no note is open. *)
Definition currentWithoutNote : Host :=
  Scenario.host Scenario.thisMonth (inl "#project") "current" (Ok Scenario.twoHits) None.

(** An interactive run whose user picks the log. *)
Definition pickingLog : Host :=
  Scenario.host Scenario.thisMonth (inl "#project") "log" (Ok Scenario.twoHits) None.

Definition searchFailure : JsError := mkError "Error" "search failed".

Definition dailyNote : TNote :=
  mkNote (Some "20240301.md")
         [mkPara Title 1 "Friday"; mkPara TextPara 0 "Call the #project team"].

(** The write of the 'current' case for the two hits of the scenario, on
    a store that matches headings by their beginning and on one that
    wants them equal. *)
Definition writeTwoHits (headingMatches : string -> string -> bool) : TNote -> TNote :=
  NoteStore.writeToCurrentNote headingMatches NoteStore.asOneParagraph
    Scenario.settings Scenario.twoHits "Feb 2024" ["### #project"].

(* ------------------------------------------------------------------ *)
(** ** Further observations of a trace *)

Definition isGetInput (e : Event) : bool :=
  match e with EvGetInput _ _ _ _ _ => true | _ => false end.

Definition isGetPeriod (e : Event) : bool :=
  match e with EvGetPeriodStartEndDates _ _ _ => true | _ => false end.

Definition isOnAsyncThread (e : Event) : bool :=
  match e with EvOnAsyncThread _ => true | _ => false end.

(** [CommandBar.showLoading(true, ...)] and [CommandBar.showLoading(false)]. *)
Definition isLoadingOn (e : Event) : bool :=
  match e with EvShowLoading true _ _ => true | _ => false end.

Definition isLoadingOff (e : Event) : bool :=
  match e with EvShowLoading false _ _ => true | _ => false end.

Definition isWriteResults (e : Event) : bool :=
  match e with EvWriteSearchResultsToNote _ _ _ _ _ _ => true | _ => false end.

Definition isOpenNote (e : Event) : bool :=
  match e with EvOpenNoteByFilename _ _ _ _ _ _ => true | _ => false end.

(** The calls made before the first call of the given kind. *)
Fixpoint before (p : Event -> bool) (t : Trace) : Trace :=
  match t with
  | [] => []
  | e :: rest => if p e then [] else e :: before p rest
  end.

(** The number of calls of the given kind. *)
Definition count (p : Event -> bool) (t : Trace) : nat := List.length (filter p t).

(** The settings that the invocation read. *)
Definition settingsOf (t : Trace) : option Config :=
  match t with
  | EvGetSearchSettings (Ok config) :: _ => Some config
  | _ => None
  end.

(** The result set that the search promise resolved to. *)
Definition awaited (t : Trace) : option ResultSet :=
  match after isAwaitResults t with
  | Some (EvAwaitResults (Ok rs), _) => Some rs
  | _ => None
  end.

(** The call that issues the search: its terms are the validated ones and
    there is at least one, the notes searched are the calendar notes, no
    folder is asked for, the folders left out are the configured ones, the
    paragraph types are those of line 156. *)
Definition searchCallOk (a : Args) (t : Trace) (e : Event) : Prop :=
  match e with
  | EvRunSearchesV2 terms noteTypes foldersToInclude foldersToExcl config paraTypes _ _ =>
      validatedTerms t = Some terms /\ terms <> []
      /\ noteTypes = ["calendar"] /\ foldersToInclude = []
      /\ settingsOf t = Some config /\ foldersToExcl = foldersToExclude config
      /\ paraTypes = paraTypesOf (Js.nullish (paraTypeFilterArg a) "")
  | _ => True
  end.

(** A call of the formatter: it is given the awaited result set, which
    holds at least one result, and the settings. *)
Definition formatterCallOk (t : Trace) (e : Event) : Prop :=
  match e with
  | EvCreateFormattedResultLines rs config _ =>
      awaited t = Some rs /\ resultCount rs <> 0 /\ settingsOf t = Some config
  | _ => True
  end.

(* ------------------------------------------------------------------ *)
(** ** What a run of [searchPeriod] may look like

    Each definition states one fact about a run: the arguments [a], the
    state [fst r] of the promise returned and the calls [snd r] made.
    Part II proves them of [invoke h a] for every host and all arguments. *)

Definition Run : Type := (PromiseState * Trace)%type.

(** Lines 147-166: at most one search is issued, with the arguments of
    [searchCallOk]. *)
Definition issuesOneSearch (a : Args) (r : Run) : Prop :=
  Forall (searchCallOk a (snd r)) (snd r)
  /\ count isRunSearchesV2 (snd r) <= 1.

(** Lines 166-195: the destination prompt, when there is one, comes after
    the search has been issued and before its result is awaited. *)
Definition promptsWhileSearching (r : Run) : Prop :=
  calls isChooseOption (snd r) = true ->
  calls isRunSearchesV2 (before isChooseOption (snd r)) = true
  /\ calls isAwaitResults (before isChooseOption (snd r)) = false.

(** Lines 198-250: at most one note is written, and only when the search
    has resolved to a result set with at least one result. *)
Definition writesAtMostOnce (r : Run) : Prop :=
  count isNoteWrite (snd r) <= 1
  /\ (calls isNoteWrite (snd r) = true ->
      exists rs, awaited (snd r) = Some rs /\ resultCount rs <> 0).

(** Lines 162-196: in a run where no call throws, the loading indicator
    is switched off if and only if it was switched on; when a thread
    switch, the prompt or the search promise fails, the indicator has
    been switched on and is never switched off. *)
Definition leavesLoadingOnFailure (r : Run) : Prop :=
  (calls isThrow (snd r) = false ->
   calls isLoadingOn (snd r) = calls isLoadingOff (snd r))
  /\ (forall (ev : Event) (post : Trace),
        after isThrow (snd r) = Some (ev, post) ->
        isOnAsyncThread ev || isOnMainThread ev || isChooseOption ev || isAwaitResults ev = true ->
        calls isLoadingOn (snd r) = true
        /\ calls isLoadingOff (snd r) = false).

(** Lines 133-144: the user is asked for search terms only in interactive
    mode, with the configured default terms joined by ", " as the default
    answer; when the answer is a boolean (the user cancelled) the run
    logs it and ends: nothing is validated, searched or shown. *)
Definition asksForTerms (a : Args) (r : Run) : Prop :=
  (forall (question okLabel dialogTitle defaultValue : string) (answer : Result (string + bool))
          (post : Trace),
      after isGetInput (snd r)
      = Some (EvGetInput question okLabel dialogTitle defaultValue answer, post) ->
      searchTermsArg a = None
      /\ exists config, settingsOf (snd r) = Some config
                        /\ defaultValue = Js.join ", " (defaultSearchTerms config))
  /\ (forall (question okLabel dialogTitle defaultValue : string) (b : bool) (post : Trace),
        after isGetInput (snd r)
        = Some (EvGetInput question okLabel dialogTitle defaultValue (Ok (inr b)), post) ->
        post = [EvLogInfo "User has cancelled operation."]
        /\ calls isValidation (snd r) = false
        /\ calls isRunSearchesV2 (snd r) = false
        /\ calls isShowMessage (snd r) = false
        /\ fst r = Fulfilled).

(** Lines 110-114: when the period chosen comes without a start or
    without an end date, the run logs that the dates could not be parsed
    and ends, before the user is asked for search terms. *)
Definition unparsedPeriodStops (r : Run) : Prop :=
  forall (question : string) (excludeToday : bool) (c : PeriodChoice) (post : Trace),
    after isGetPeriod (snd r)
    = Some (EvGetPeriodStartEndDates question excludeToday (Ok c), post) ->
    chosenFromDate c = None \/ chosenToDate c = None ->
    post = [EvLogError "dates could not be parsed for requested time period"]
    /\ calls isGetInput (snd r) = false
    /\ fst r = Fulfilled.

(** Lines 230-247: the title asked for is the title to match followed by
    " for " and a period; once the note is written, the function asks
    whether it is open in an editor: if so nothing is opened, if not the
    note is opened in a split view. *)
Definition opensWrittenNote (r : Run) : Prop :=
  forall (rs : ResultSet) (requestedTitle titleToMatch : string) (config : Config)
         (xCallbackLink noteFilename : string) (post : Trace),
    after isWriteResults (snd r)
    = Some (EvWriteSearchResultsToNote rs requestedTitle titleToMatch config xCallbackLink
              (Ok noteFilename), post) ->
    (exists period, requestedTitle = titleToMatch ++ " for " ++ period)
    /\ ((exists e,
           post = [EvLogDebug ("- filename to open in split: " ++ noteFilename);
                   EvNoteOpenInEditor noteFilename (Err e);
                   EvLogError (message e)])
        \/ post = [EvLogDebug ("- filename to open in split: " ++ noteFilename);
                   EvNoteOpenInEditor noteFilename (Ok true);
                   EvLogDebug ("- note " ++ noteFilename ++ " already open in an editor window")]
        \/ (exists answer,
              post = (EvLogDebug ("- filename to open in split: " ++ noteFilename)
                      :: EvNoteOpenInEditor noteFilename (Ok false)
                      :: EvOpenNoteByFilename noteFilename false 0 0 true answer
                      :: caught answer))).

(** Lines 209-268: when the user's answer to the destination prompt is
    neither 'current' nor 'newnote', no note is written, the editor is
    not asked for its note, and no note is opened. *)
Definition otherDestinationsDoNotWrite (r : Run) : Prop :=
  forall (question : string) (options : list ChoiceOption) (defaultValue destination : string)
         (post : Trace),
    after isChooseOption (snd r)
    = Some (EvChooseOption question options defaultValue (Ok destination), post) ->
    destination <> "current" -> destination <> "newnote" ->
    calls isNoteWrite (snd r) = false
    /\ calls isEditorNote (snd r) = false
    /\ calls isOpenNote (snd r) = false.

(** Lines 198-253: the formatter is only called with the awaited result
    set, which then holds at least one result, and at most twice. *)
Definition formatsOnlyResults (r : Run) : Prop :=
  Forall (formatterCallOk (snd r)) (snd r)
  /\ count isFormatterCall (snd r) <= 2.

(** Does the string hold the character? *)
Fixpoint hasChar (c : ascii) (s : string) : bool :=
  match s with
  | EmptyString => false
  | String x rest => Ascii.eqb x c || hasChar c rest
  end.

(** A host for a further run: the user picks a period without dates. *)
Definition withoutDates : Host :=
  Scenario.host (mkChoice None None "" "" "") (inl "#project") "newnote"
    (Ok Scenario.twoHits) None.

(** The calls that follow the write of the new note in the run of
    [viaCallback]: the note is not open and is opened in a split view. *)
Definition openedInSplit : Trace :=
  [EvLogDebug "- filename to open in split: #project Search results for 20240101 - 20240131.md";
   EvNoteOpenInEditor "#project Search results for 20240101 - 20240131.md" (Ok false);
   EvOpenNoteByFilename "#project Search results for 20240101 - 20240131.md"
     false 0 0 true (Ok tt)].
(* ------------------------------------------------------------------ *)
(** ** The QuickCapture functions (lines 273-867 of the same file)

    [getQuickCaptureSettings], [getNoteFromParamOrUser] and the commands
    that add a task to a project note, to a calendar note, or below a
    heading of a note.  They are
    embedded like [searchPeriod]: every call into the host is recorded
    with its answer, and the host answers from the calls made before.
    Here a statement yields the calls it adds to the history, so that a
    function can be run from any history, and a [return] carries a
    value. *)

Module QuickCapture.

(** The settings ([QCConfigType], lines 307-315). *)
Record QCConfigType := mkQCConfig {
  inboxLocation : string;
  inboxTitle : string;
  textToAppendToTasks : string;
  addInboxPosition : string;
  journalHeading : string;
  shouldAppend : bool;
  logLevel : string
}.

(** What [DataStore.loadJSON] answers: null or undefined, an object
    without keys, or the settings. *)
Inductive LoadedJSON :=
| NullSettings
| EmptySettings
| LoadedSettings (config : QCConfigType).

(** The first argument of the log helpers: [pluginJson] or the name of a
    function. *)
Inductive LogTag :=
| pluginJson
| from (functionName : string).

(** An entry of [relativeDates] (line 317), as far as it is read. *)
Record RelativeDate := mkRelativeDate {
  relName : string;
  relNote : option TNote
}.

(** The answer of [CommandBar.showOptions]. *)
Record Chosen := mkChosen {
  index : nat;
  chosenValue : string
}.

(** Prepending or appending: the two commands of each pair differ in
    their texts and in the helper that writes. *)
Inductive Position := Prepend | Append.

Inductive Event :=
| EvLoadJSON (path : string) (r : Result LoadedJSON)
| EvShowMessage (msg : string) (r : Result unit)
| EvLogError (tag : LogTag) (msg : string)
| EvLogWarn (tag : LogTag) (msg : string)
| EvLogDebug (tag : LogTag) (msg : string)
| EvAllNotesSortedByChanged (r : Result (list TNote))
| EvCalendarNotesSortedByChanged (r : Result (list TNote))
| EvProjectNotesSortedByChanged (r : Result (list TNote))
| EvShowOptions (options : list string) (prompt : string) (r : Result Chosen)
| EvShowInput (placeholder submitText : string) (r : Result string)
| EvProjectNoteByTitle (title : string) (caseInsensitive searchAllFolders : bool)
    (r : Result (option (list TNote)))
| EvCalendarNoteByDateString (dateStr : string) (r : Result (option TNote))
| EvSmartPara (position : Position) (note : option TNote) (paraText paraType : string)
    (r : Result unit)
| EvChooseHeading (note : TNote) (optionAddAtBottom optionCreateNew includeArchive : bool)
    (r : Result string)
| EvAddTodoBelowHeadingTitle (note : TNote) (title headingTitle : string)
    (shouldAppend shouldCreate : bool) (r : Result unit)
| EvInsertTodo (note : TNote) (title : string) (lineIndex : N) (r : Result unit)
| EvAddParagraphBelowHeadingTitle (note : TNote) (content paragraphType headingTitle : string)
    (shouldAppend shouldCreate : bool) (r : Result unit)
| EvInsertParagraph (note : TNote) (content : string) (lineIndex : N) (paragraphType : string)
    (r : Result unit).

Definition Trace := list Event.

(** The collaborators.  [RE_ISO_DATE], [unhyphenateString],
    [displayTitleWithRelDate] (with its second argument, when given),
    [getDateStringFromCalendarFilename], [findHeadingStartsWith] and
    [findEndOfActivePartOfNote] are helpers that compute a value from
    their arguments and may throw; [typeErrorOnUndefined p] is the
    TypeError that the engine throws when property [p] of [undefined] is
    read.  Every other field answers one call, given the calls made
    before it. *)
Record Host := mkHost {
  RE_ISO_DATE : string -> bool;
  unhyphenateString : string -> string;
  relativeDates : list RelativeDate;
  displayTitleWithRelDate : option TNote -> option bool -> Result string;
  getDateStringFromCalendarFilename : option string -> Result string;
  typeErrorOnUndefined : string -> JsError;
  findHeadingStartsWith : TNote -> string -> Result string;
  findEndOfActivePartOfNote : TNote -> Result N;

  loadJSON : Trace -> string -> Result LoadedJSON;
  showMessage : Trace -> string -> Result unit;
  allNotesSortedByChanged : Trace -> Result (list TNote);
  calendarNotesSortedByChanged : Trace -> Result (list TNote);
  projectNotesSortedByChanged : Trace -> Result (list TNote);
  showOptions : Trace -> list string -> string -> Result Chosen;
  showInput : Trace -> string -> string -> Result string;
  projectNoteByTitle : Trace -> string -> bool -> bool -> Result (option (list TNote));
  calendarNoteByDateString : Trace -> string -> Result (option TNote);
  smartPara : Trace -> Position -> option TNote -> string -> string -> Result unit;
  chooseHeading : Trace -> TNote -> bool -> bool -> bool -> Result string;
  addTodoBelowHeadingTitle : Trace -> TNote -> string -> string -> bool -> bool -> Result unit;
  insertTodo : Trace -> TNote -> string -> N -> Result unit;
  addParagraphBelowHeadingTitle :
    Trace -> TNote -> string -> string -> string -> bool -> bool -> Result unit;
  insertParagraph : Trace -> TNote -> string -> N -> string -> Result unit
}.

(** A statement runs on the history and continues with a value, returns
    from the function with a value, or throws; it yields the calls it
    made. *)
Inductive Step (R A : Type) : Type :=
| Next (a : A)
| Return (v : R)
| Throw (e : JsError).
Arguments Next {R A} a.
Arguments Return {R A} v.
Arguments Throw {R A} e.

Definition M (R A : Type) : Type := Trace -> Step R A * Trace.

Definition next {R A : Type} (a : A) : M R A := fun _ => (Next a, []).

Definition ret {R A : Type} (v : R) : M R A := fun _ => (Return v, []).

Definition throw {R A : Type} (e : JsError) : M R A := fun _ => (Throw e, []).

Definition bind {R A B : Type} (m : M R A) (k : A -> M R B) : M R B :=
  fun t =>
    match m t with
    | (Next a, evs) =>
        match k a (t ++ evs)%list with
        | (s, evs') => (s, (evs ++ evs')%list)
        end
    | (Return v, evs) => (Return v, evs)
    | (Throw e, evs) => (Throw e, evs)
    end.

Notation "x <~ m ;; k" := (bind m (fun x => k))
  (at level 61, m at next level, right associativity).
Notation "m ;;~ k" := (bind m (fun _ => k))
  (at level 61, right associativity).

Definition emit {R : Type} (e : Event) : M R unit := fun _ => (Next tt, [e]).

(** A call that the host answers with a value or an exception. *)
Definition call {R A : Type} (answer : Trace -> Result A) (ev : Result A -> Event) : M R A :=
  fun t =>
    match answer t with
    | Ok a => (Next a, [ev (Ok a)])
    | Err e => (Throw e, [ev (Err e)])
    end.

(** The value of a helper, or its exception. *)
Definition lift {R A : Type} (r : Result A) : M R A :=
  fun _ =>
    match r with
    | Ok a => (Next a, [])
    | Err e => (Throw e, [])
    end.

(** [try { body } catch (err) { handler }] *)
Definition tryCatch {R A : Type} (body : M R A) (handler : JsError -> M R A) : M R A :=
  fun t =>
    match body t with
    | (Throw e, evs) =>
        match handler e (t ++ evs)%list with
        | (s, evs') => (s, (evs ++ evs')%list)
        end
    | r => r
    end.

(** An [async] function: its body, and [undefined] for a body that ends
    without a [return].  The result is the state of its promise. *)
Definition function {R : Type} (undefined : R) (body : M R unit) : Trace -> Result R * Trace :=
  fun t =>
    match body t with
    | (Next _, evs) => (Ok undefined, evs)
    | (Return v, evs) => (Ok v, evs)
    | (Throw e, evs) => (Err e, evs)
    end.

(** [await f(...)] *)
Definition await {R A : Type} (f : Trace -> Result A * Trace) : M R A :=
  fun t =>
    match f t with
    | (Ok a, evs) => (Next a, evs)
    | (Err e, evs) => (Throw e, evs)
    end.

Definition logError {R : Type} (tag : LogTag) (msg : string) : M R unit :=
  emit (EvLogError tag msg).
Definition logWarn {R : Type} (tag : LogTag) (msg : string) : M R unit :=
  emit (EvLogWarn tag msg).
Definition logDebug {R : Type} (tag : LogTag) (msg : string) : M R unit :=
  emit (EvLogDebug tag msg).

(** White space below code unit 128, and [s.trimEnd()] for it. *)
Definition isWhiteSpace (c : ascii) : bool :=
  match nat_of_ascii c with
  | 9 | 10 | 11 | 12 | 13 | 32 => true
  | _ => false
  end.

Fixpoint trimEnd (s : string) : string :=
  match s with
  | EmptyString => EmptyString
  | String c rest =>
      match trimEnd rest with
      | EmptyString => if isWhiteSpace c then EmptyString else String c EmptyString
      | kept => String c kept
      end
  end.

(** White space only, and the last code unit of a string. *)
Fixpoint allWhiteSpace (s : string) : bool :=
  match s with
  | EmptyString => true
  | String c rest => isWhiteSpace c && allWhiteSpace rest
  end.


(** [arr.filter(Boolean)] on strings. *)
Definition filterBoolean (l : list string) : list string :=
  filter (fun s => negb (s =? "")) l.

(** [config.shouldAppend = b] *)
Definition setShouldAppend (config : QCConfigType) (b : bool) : QCConfigType :=
  mkQCConfig (inboxLocation config) (inboxTitle config) (textToAppendToTasks config)
    (addInboxPosition config) (journalHeading config) b (logLevel config).

Section Functions.

Variable h : Host.

(** [config.p] for a [config] that may be undefined. *)
Definition property {R A : Type} (config : option QCConfigType) (p : string)
    (read : QCConfigType -> A) : M R A :=
  match config with
  | Some c => next (read c)
  | None => throw (typeErrorOnUndefined h p)
  end.

(** [notes.map((n) => displayTitleWithRelDate(n, arg))] *)
Fixpoint mapTitles (arg : option bool) (notes : list TNote) : Result (list string) :=
  match notes with
  | [] => Ok []
  | n :: rest =>
      match displayTitleWithRelDate h (Some n) arg with
      | Err e => Err e
      | Ok title =>
          match mapTitles arg rest with
          | Err e => Err e
          | Ok titles => Ok (title :: titles)
          end
      end
  end.

(** [notes.filter((n) => displayTitleWithRelDate(n) === noteTitleToMatch)] *)
Fixpoint filterByTitle (noteTitleToMatch : string) (notes : list TNote)
  : Result (list TNote) :=
  match notes with
  | [] => Ok []
  | n :: rest =>
      match displayTitleWithRelDate h (Some n) None with
      | Err e => Err e
      | Ok title =>
          match filterByTitle noteTitleToMatch rest with
          | Err e => Err e
          | Ok wanted => Ok (if title =? noteTitleToMatch then n :: wanted else wanted)
          end
      end
  end.

(** Lines 373-375, 672-674 and 726-728: YYYY-MM-DD to YYYYMMDD, anything
    else unchanged. *)
Definition dateToMatch (arg : string) : string :=
  if RE_ISO_DATE h arg then unhyphenateString h arg else arg.

Definition settingsPath : string := "../jgclark.QuickCapture/settings.json".

Definition noSettingsMessage : string :=
  "Cannot find settings for the 'QuickCapture' plugin. Please make sure you have installed it from the Plugin Preferences pane.".

(** Lines 323-341. *)
Definition getQuickCaptureSettings : Trace -> Result (option QCConfigType) * Trace :=
  function None
    (tryCatch
       (config <~ call (fun t => loadJSON h t settingsPath) (EvLoadJSON settingsPath) ;;
        match config with
        | NullSettings | EmptySettings =>
            call (fun t => showMessage h t noSettingsMessage) (EvShowMessage noSettingsMessage) ;;~
            ret None
        | LoadedSettings config =>
            ret (Some (setShouldAppend config (addInboxPosition config =? "append")))
        end)
       (fun err =>
          logError pluginJson (name err ++ ": " ++ message err) ;;~
          call (fun t => showMessage h t (message err)) (EvShowMessage (message err)))).

(** Lines 363-368: the loop over [relativeDates]; a later entry of the
    same name replaces the note of an earlier one. *)
Fixpoint matchRelativeDates {R : Type} (noteTitleArg : string) (rds : list RelativeDate)
    (note : option TNote) : M R (option TNote) :=
  match rds with
  | [] => next note
  | rd :: rest =>
      if noteTitleArg =? relName rd then
        logDebug (from "getNoteFromParamOrUser") ("- Found match with " ++ relName rd) ;;~
        matchRelativeDates noteTitleArg rest (relNote rd)
      else
        matchRelativeDates noteTitleArg rest note
  end.

(** Lines 351-433. *)
Definition getNoteFromParamOrUser (purpose : string) (noteTitleArg : option string)
    (justCalendarNotes : bool) : Trace -> Result (option TNote) * Trace :=
  let noteTitleArg := Js.nullish noteTitleArg "" in
  let tag := from "getNoteFromParamOrUser" in
  function None
    (tryCatch
       (note <~ (if negb (noteTitleArg =? "") then
                   note <~ matchRelativeDates noteTitleArg (relativeDates h) None ;;
                   match note with
                   | Some _ => next note
                   | None =>
                       let noteTitleToMatch := dateToMatch noteTitleArg in
                       notes <~ call (allNotesSortedByChanged h) EvAllNotesSortedByChanged ;;
                       wantedNotes <~ lift (filterByTitle noteTitleToMatch notes) ;;
                       match wantedNotes with
                       | [] => next None
                       | first :: others =>
                           (if Nat.ltb 1 (List.length wantedNotes) then
                              logWarn tag ("Found " ++ Js.ofNat (List.length wantedNotes)
                                           ++ " matching notes with title '" ++ noteTitleArg
                                           ++ "'. Will use most recently changed note.")
                            else next tt) ;;~
                           next (Some first)
                       end
                   end
                 else next None) ;;
        note <~ (match note with
                 | Some _ => next note
                 | None =>
                     logWarn tag ("Couldn't find note with title '" ++ noteTitleArg
                                  ++ "'. Will prompt user instead.") ;;~
                     allNotes <~ call (allNotesSortedByChanged h) EvAllNotesSortedByChanged ;;
                     calendarNotes <~ call (calendarNotesSortedByChanged h)
                                           EvCalendarNotesSortedByChanged ;;
                     titles <~ lift (mapTitles (Some true)
                                       (if justCalendarNotes then calendarNotes else allNotes)) ;;
                     let notesList := filterBoolean titles in
                     res1 <~ call (fun t => showOptions h t notesList
                                              ("Select note for new " ++ purpose))
                                  (EvShowOptions notesList ("Select note for new " ++ purpose)) ;;
                     if Nat.ltb 0 (index res1) then
                       next (nth_error (if justCalendarNotes then calendarNotes else allNotes)
                                       (index res1))
                     else next None
                 end) ;;
        match note with
        | None => throw (mkError "Error" "Couldn't get note")
        | Some n =>
            title <~ lift (displayTitleWithRelDate h note None) ;;
            logDebug tag ("-> note '" ++ title ++ "'") ;;~
            ret note
        end)
       (fun error =>
          logError tag (message error) ;;~
          ret None)).

(** The texts in which the two commands of a pair differ. *)
Definition startingProject (p : Position) : string :=
  match p with Prepend => "starting /qpt" | Append => "starting /qat" end.

Definition functionProject (p : Position) : string :=
  match p with Prepend => "prependTaskToNote" | Append => "appendTaskToNote" end.

Definition verb (p : Position) : string :=
  match p with Prepend => "Prepend" | Append => "Append" end.

Definition verbing (p : Position) : string :=
  match p with Prepend => "Prepending" | Append => "Appending" end.

Definition selectProject (p : Position) : string :=
  match p with Prepend => "Select note to prepend" | Append => "Select note to append" end.

(** Lines 445-482 ([prependTaskToNote]) and 491-528 ([appendTaskToNote]).
    The two bodies are the same statement for statement up to the texts
    above and the helper called at the end; the first [logDebug] stands
    inside the [try] in one and before it in the other. *)
Definition taskToNote (p : Position) (noteTitleArg textArg : option string)
  : Trace -> Result unit * Trace :=
  let noteTitleArg := Js.nullish noteTitleArg "" in
  let textArg := Js.nullish textArg "" in
  function tt
    (tryCatch
       (logDebug pluginJson (startingProject p) ;;~
        config <~ await getQuickCaptureSettings ;;
        note <~ (if negb (noteTitleArg =? "") then
                   wantedNotes <~ call (fun t => projectNoteByTitle h t noteTitleArg true false)
                                       (EvProjectNoteByTitle noteTitleArg true false) ;;
                   match wantedNotes with
                   | Some (first :: _) => next (Some first)
                   | _ =>
                       logError (from (functionProject p))
                         ("- Couldn't find note '" ++ noteTitleArg
                          ++ "' from x-callback args. Stopping.") ;;~
                       ret tt
                   end
                 else
                   notes <~ call (projectNotesSortedByChanged h) EvProjectNotesSortedByChanged ;;
                   titles <~ lift (mapTitles None notes) ;;
                   re <~ call (fun t => showOptions h t (filterBoolean titles) (selectProject p))
                              (EvShowOptions (filterBoolean titles) (selectProject p)) ;;
                   next (nth_error notes (index re))) ;;
        taskText <~ (if negb (textArg =? "") then next textArg
                     else
                       suffix <~ property config "textToAppendToTasks" textToAppendToTasks ;;
                       call (fun t => showInput h t "Type the task"
                                        (verb p ++ " '%@' " ++ suffix))
                            (EvShowInput "Type the task" (verb p ++ " '%@' " ++ suffix))) ;;
        suffix <~ property config "textToAppendToTasks" textToAppendToTasks ;;
        let paraText := trimEnd (taskText ++ " " ++ suffix) in
        title <~ lift (displayTitleWithRelDate h note None) ;;
        logDebug (from (functionProject p))
          ("- " ++ verbing p ++ " task '" ++ paraText ++ "' to '" ++ title ++ "'") ;;~
        call (fun t => smartPara h t p note paraText "open") (EvSmartPara p note paraText "open"))
       (fun err =>
          logError pluginJson (functionProject p ++ ": " ++ name err ++ ": " ++ message err) ;;~
          call (fun t => showMessage h t (message err)) (EvShowMessage (message err)))).

Definition prependTaskToNote := taskToNote Prepend.
Definition appendTaskToNote := taskToNote Append.

Definition startingCalendar (p : Position) : string :=
  match p with Prepend => "starting /qpc" | Append => "starting /qac" end.

Definition functionCalendar (p : Position) : string :=
  match p with
  | Prepend => "prependTaskToCalendarNote"
  | Append => "appendTaskToCalendarNote"
  end.

(** Lines 654-699 ([prependTaskToCalendarNote]) and 708-753
    ([appendTaskToCalendarNote]); they differ in their texts, in the
    helper called at the end and in what the last error line names. *)
Definition taskToCalendarNote (p : Position) (dateArg textArg : option string)
  : Trace -> Result unit * Trace :=
  let dateArg := Js.nullish dateArg "" in
  let textArg := Js.nullish textArg "" in
  let tag := from (functionCalendar p) in
  function tt
    (logDebug pluginJson (startingCalendar p) ;;~
     tryCatch
       (config <~ await getQuickCaptureSettings ;;
        taskText <~ (if negb (textArg =? "") then next textArg
                     else
                       suffix <~ property config "textToAppendToTasks" textToAppendToTasks ;;
                       call (fun t => showInput h t "Type the task"
                                        ("Add task '%@' " ++ suffix))
                            (EvShowInput "Type the task" ("Add task '%@' " ++ suffix))) ;;
        note <~ (if negb (dateArg =? "") then
                   let dateArgToMatch := dateToMatch dateArg in
                   call (fun t => calendarNoteByDateString h t dateArgToMatch)
                        (EvCalendarNoteByDateString dateArgToMatch)
                 else next None) ;;
        found <~ (match note with
                  | Some _ =>
                      title <~ lift (displayTitleWithRelDate h note None) ;;
                      logDebug tag ("- from dateArg, daily note = '" ++ title ++ "'") ;;~
                      next (note, "")
                  | None =>
                      allCalNotes <~ call (calendarNotesSortedByChanged h)
                                          EvCalendarNotesSortedByChanged ;;
                      calendarNoteTitles <~ lift (mapTitles (Some true) allCalNotes) ;;
                      res <~ call (fun t => showOptions h t calendarNoteTitles
                                              "Select calendar note for new todo")
                                  (EvShowOptions calendarNoteTitles
                                     "Select calendar note for new todo") ;;
                      picked <~ (match nth_error allCalNotes (index res) with
                                 | Some n => next n
                                 | None => throw (typeErrorOnUndefined h "filename")
                                 end) ;;
                      dateStr <~ lift (getDateStringFromCalendarFilename h (filename picked)) ;;
                      note <~ call (fun t => calendarNoteByDateString h t dateStr)
                                   (EvCalendarNoteByDateString dateStr) ;;
                      next (note, dateStr)
                  end) ;;
        match fst found with
        | Some _ =>
            suffix <~ property config "textToAppendToTasks" textToAppendToTasks ;;
            let paraText := trimEnd (taskText ++ " " ++ suffix) in
            title <~ lift (displayTitleWithRelDate h (fst found) None) ;;
            logDebug tag
              (match p with
               | Prepend => "- Prepending task '" ++ paraText ++ "' to '" ++ title ++ "'"
               | Append => "- Appending task '" ++ paraText ++ "' to " ++ title
               end) ;;~
            call (fun t => smartPara h t p (fst found) paraText "open")
                 (EvSmartPara p (fst found) paraText "open")
        | None =>
            logError tag
              (match p with
               | Prepend => "- Can't get calendar note " ++ dateArg
               | Append => "- Can't get calendar note for " ++ snd found
               end)
        end)
       (fun err =>
          logError pluginJson (functionCalendar p ++ ": " ++ name err ++ ": " ++ message err) ;;~
          call (fun t => showMessage h t (message err)) (EvShowMessage (message err)))).

Definition prependTaskToCalendarNote := taskToCalendarNote Prepend.
Definition appendTaskToCalendarNote := taskToCalendarNote Append.

(** The two commands that add below a heading: /qath
    ([addTaskToNoteHeading]) and /qalh ([addTextToNoteHeading]). *)
Inductive HeadingCommand := TaskCommand | TextCommand.

Definition purposeOf (k : HeadingCommand) : string :=
  match k with TaskCommand => "task" | TextCommand => "text" end.

Definition functionHeading (k : HeadingCommand) : string :=
  match k with
  | TaskCommand => "addTaskToNoteHeading"
  | TextCommand => "addTextToNoteHeading"
  end.

(** Lines 546 and 606.  The parameters have the default [''], so that
    [textArg != null] holds for every argument that is a string or left
    out. *)
Definition startingHeading (k : HeadingCommand) (noteTitleArg headingArg : string) : string :=
  match k with TaskCommand => "starting /qath" | TextCommand => "starting /qalh" end
  ++ " with arg0 '" ++ noteTitleArg ++ "' arg1 '" ++ headingArg ++ "' arg2 "
  ++ "<text defined>".

(** Lines 540-585 ([addTaskToNoteHeading]) and 600-645
    ([addTextToNoteHeading]).  The first lists all notes and computes
    the text with the suffix (line 559) without using either; the two
    differ besides in their texts and in the methods of the note that
    they call. *)
Definition toNoteHeading (k : HeadingCommand) (noteTitleArg headingArg textArg : option string)
  : Trace -> Result unit * Trace :=
  let noteTitleArg := Js.nullish noteTitleArg "" in
  let headingArg := Js.nullish headingArg "" in
  let textArg := Js.nullish textArg "" in
  let tag := from (functionHeading k) in
  function tt
    (tryCatch
       (logDebug pluginJson (startingHeading k noteTitleArg headingArg) ;;~
        config <~ await getQuickCaptureSettings ;;
        match k with
        | TaskCommand =>
            call (allNotesSortedByChanged h) EvAllNotesSortedByChanged ;;~ next tt
        | TextCommand => next tt
        end ;;~
        note <~ await (getNoteFromParamOrUser (purposeOf k) (Some noteTitleArg) false) ;;
        match note with
        | None => ret tt
        | Some n =>
            taskText <~ (if negb (textArg =? "") then next textArg
                         else
                           suffix <~ property config "textToAppendToTasks" textToAppendToTasks ;;
                           match k with
                           | TaskCommand =>
                               call (fun t => showInput h t "Type the task"
                                                ("Add task '%@' " ++ suffix))
                                    (EvShowInput "Type the task" ("Add task '%@' " ++ suffix))
                           | TextCommand =>
                               call (fun t => showInput h t "Type the text to add"
                                                ("Add text '%@' " ++ suffix))
                                    (EvShowInput "Type the text to add"
                                       ("Add text '%@' " ++ suffix))
                           end) ;;
            match k with
            | TaskCommand =>
                suffix <~ property config "textToAppendToTasks" textToAppendToTasks ;;
                let text := trimEnd (taskText ++ " " ++ suffix) in
                next tt
            | TextCommand => next tt
            end ;;~
            heading <~ (if negb (headingArg =? "") then next headingArg
                        else call (fun t => chooseHeading h t n true true false)
                                  (EvChooseHeading n true true false)) ;;
            if negb (heading =? "") then
              matchedHeading <~ lift (findHeadingStartsWith h n heading) ;;
              title <~ lift (displayTitleWithRelDate h (Some n) None) ;;
              logDebug tag
                (match k with
                 | TaskCommand =>
                     "Adding task '" ++ taskText ++ "' to '" ++ title ++ "' below '"
                     ++ heading ++ "'"
                 | TextCommand =>
                     "Adding line '" ++ taskText ++ "' to '" ++ title
                     ++ "' below matchedHeading '" ++ matchedHeading
                     ++ "' (heading was '" ++ heading ++ "')"
                 end) ;;~
              let headingTitle :=
                if negb (matchedHeading =? "") then matchedHeading else heading in
              append <~ property config "shouldAppend" shouldAppend ;;
              match k with
              | TaskCommand =>
                  call (fun t => addTodoBelowHeadingTitle h t n taskText headingTitle append true)
                       (EvAddTodoBelowHeadingTitle n taskText headingTitle append true)
              | TextCommand =>
                  call (fun t => addParagraphBelowHeadingTitle h t n taskText "text"
                                   headingTitle append true)
                       (EvAddParagraphBelowHeadingTitle n taskText "text" headingTitle
                          append true)
              end
            else
              title <~ lift (displayTitleWithRelDate h (Some n) None) ;;
              logDebug tag
                (match k with
                 | TaskCommand => "Adding task '" ++ taskText ++ "' to end of '" ++ title ++ "'"
                 | TextCommand => "Adding line '" ++ taskText ++ "' to end of '" ++ title ++ "'"
                 end) ;;~
              lineIndex <~ lift (findEndOfActivePartOfNote h n) ;;
              match k with
              | TaskCommand =>
                  call (fun t => insertTodo h t n taskText lineIndex)
                       (EvInsertTodo n taskText lineIndex)
              | TextCommand =>
                  call (fun t => insertParagraph h t n taskText (lineIndex + 1)%N "text")
                       (EvInsertParagraph n taskText (lineIndex + 1)%N "text")
              end
        end)
       (fun err =>
          logError pluginJson
            (match k with
             | TaskCommand => name err ++ ": " ++ message err
             | TextCommand => "addTextToNoteHeading: " ++ name err ++ ": " ++ message err
             end) ;;~
          call (fun t => showMessage h t (message err)) (EvShowMessage (message err)))).

Definition addTaskToNoteHeading := toNoteHeading TaskCommand.
Definition addTextToNoteHeading := toNoteHeading TextCommand.

End Functions.

(** Observations of a trace. *)
Definition isShowMessage (e : Event) : bool :=
  match e with EvShowMessage _ _ => true | _ => false end.

Definition isShowOptions (e : Event) : bool :=
  match e with EvShowOptions _ _ _ => true | _ => false end.

Definition isShowInput (e : Event) : bool :=
  match e with EvShowInput _ _ _ => true | _ => false end.

Definition isLoadJSON (e : Event) : bool :=
  match e with EvLoadJSON _ _ => true | _ => false end.

Definition isListing (e : Event) : bool :=
  match e with
  | EvAllNotesSortedByChanged _ | EvCalendarNotesSortedByChanged _
  | EvProjectNotesSortedByChanged _ => true
  | _ => false
  end.

Definition isProjectNoteByTitle (e : Event) : bool :=
  match e with EvProjectNoteByTitle _ _ _ _ => true | _ => false end.

Definition isCalendarNoteByDateString (e : Event) : bool :=
  match e with EvCalendarNoteByDateString _ _ => true | _ => false end.

(** A write: [smartPrependPara] or [smartAppendPara]. *)
Definition isWrite (e : Event) : bool :=
  match e with EvSmartPara _ _ _ _ _ => true | _ => false end.

Definition calls (p : Event -> bool) (t : Trace) : bool := existsb p t.

Definition count (p : Event -> bool) (t : Trace) : nat := List.length (filter p t).

Fixpoint after (p : Event -> bool) (t : Trace) : option (Event * Trace) :=
  match t with
  | [] => None
  | e :: rest => if p e then Some (e, rest) else after p rest
  end.


(** The settings that were loaded, if any were. *)
Definition loadedSettings (t : Trace) : option QCConfigType :=
  match after isLoadJSON t with
  | Some (EvLoadJSON _ (Ok (LoadedSettings config)), _) => Some config
  | _ => None
  end.

(** The text of the task: the argument, or what the user typed. *)
Definition taskTextOf (textArg : option string) (t : Trace) : option string :=
  if negb (Js.nullish textArg "" =? "") then Some (Js.nullish textArg "")
  else match after isShowInput t with
       | Some (EvShowInput _ _ (Ok typed), _) => Some typed
       | _ => None
       end.

(** The entry that the user picked. *)
Definition pickedOf (t : Trace) : option Chosen :=
  match after isShowOptions t with
  | Some (EvShowOptions _ _ (Ok chosen), _) => Some chosen
  | _ => None
  end.

(** The project notes found by title, and the project notes listed. *)
Definition foundByTitle (t : Trace) : option (list TNote) :=
  match after isProjectNoteByTitle t with
  | Some (EvProjectNoteByTitle _ _ _ (Ok (Some notes)), _) => Some notes
  | _ => None
  end.

Definition isProjectListing (e : Event) : bool :=
  match e with EvProjectNotesSortedByChanged _ => true | _ => false end.

Definition listedProjectNotes (t : Trace) : option (list TNote) :=
  match after isProjectListing t with
  | Some (EvProjectNotesSortedByChanged (Ok notes), _) => Some notes
  | _ => None
  end.

(** The note that the loop of lines 363-368 leaves, and the lines it
    logs. *)
Definition relativeNote (noteTitleArg : string) (rds : list RelativeDate)
    (note : option TNote) : option TNote :=
  fold_left (fun found rd => if noteTitleArg =? relName rd then relNote rd else found)
    rds note.

Definition relativeLog (noteTitleArg : string) (rds : list RelativeDate) : Trace :=
  map (fun rd => EvLogDebug (from "getNoteFromParamOrUser")
                   ("- Found match with " ++ relName rd))
      (filter (fun rd => noteTitleArg =? relName rd) rds).

(** The listing that the prompt of [getNoteFromParamOrUser] indexes. *)
Definition listing (justCalendarNotes : bool) (notes : list TNote) : Event :=
  if justCalendarNotes then EvCalendarNotesSortedByChanged (Ok notes)
  else EvAllNotesSortedByChanged (Ok notes).

(** A write of the command for position [p] with the given text argument:
    it is made with the helper of that position, as an open task, with
    the typed or given text followed by the configured suffix and
    trimmed at its end. *)
Definition writeOk (p : Position) (textArg : option string) (t : Trace) (e : Event) : Prop :=
  match e with
  | EvSmartPara position _ paraText paraType _ =>
      position = p /\ paraType = "open"
      /\ exists config taskText,
           loadedSettings t = Some config /\ taskTextOf textArg t = Some taskText
           /\ paraText = trimEnd (taskText ++ " " ++ textToAppendToTasks config)
  | _ => True
  end.

Definition isCalendarListing (e : Event) : bool :=
  match e with EvCalendarNotesSortedByChanged _ => true | _ => false end.

Definition listedCalendarNotes (t : Trace) : option (list TNote) :=
  match after isCalendarListing t with
  | Some (EvCalendarNotesSortedByChanged (Ok notes), _) => Some notes
  | _ => None
  end.

(** A write goes to the note [n]. *)
Definition writesTo (n : TNote) (e : Event) : Prop :=
  match e with
  | EvSmartPara _ note _ _ _ => note = Some n
  | _ => True
  end.


(** Observations of the runs of the heading commands. *)
Definition isChooseHeading (e : Event) : bool :=
  match e with EvChooseHeading _ _ _ _ _ => true | _ => false end.

(** A write below a heading, and a write at the end of the note. *)
Definition isBelowHeadingWrite (e : Event) : bool :=
  match e with
  | EvAddTodoBelowHeadingTitle _ _ _ _ _ _
  | EvAddParagraphBelowHeadingTitle _ _ _ _ _ _ _ => true
  | _ => false
  end.

Definition isEndOfNoteWrite (e : Event) : bool :=
  match e with
  | EvInsertTodo _ _ _ _ | EvInsertParagraph _ _ _ _ _ => true
  | _ => false
  end.

Definition isHeadingWrite (e : Event) : bool := isBelowHeadingWrite e || isEndOfNoteWrite e.

(** The error line of [getNoteFromParamOrUser]. *)
Definition isNoteFailure (e : Event) : bool :=
  match e with
  | EvLogError (from functionName) _ => functionName =? "getNoteFromParamOrUser"
  | _ => false
  end.

(** What [getNoteFromParamOrUser] may call: the log helpers, the listings
    and [showOptions]. *)
Definition isNoteCall (e : Event) : bool :=
  match e with
  | EvLogError _ _ | EvLogWarn _ _ | EvLogDebug _ _
  | EvAllNotesSortedByChanged _ | EvCalendarNotesSortedByChanged _
  | EvShowOptions _ _ _ => true
  | _ => false
  end.

(** The heading that the command was given or that the user chose. *)
Definition headingOf (headingArg : option string) (t : Trace) : option string :=
  if negb (Js.nullish headingArg "" =? "") then Some (Js.nullish headingArg "")
  else match after isChooseHeading t with
       | Some (EvChooseHeading _ _ _ _ (Ok heading), _) => Some heading
       | _ => None
       end.

(** The heading written below: the heading of the note that starts with
    the one asked for, or else the one asked for. *)
Definition headingTitleOk (h : Host) (headingArg : option string) (t : Trace)
    (n : TNote) (headingTitle : string) : Prop :=
  exists heading matchedHeading,
    headingOf headingArg t = Some heading /\ heading <> ""
    /\ findHeadingStartsWith h n heading = Ok matchedHeading
    /\ headingTitle = if negb (matchedHeading =? "") then matchedHeading else heading.

(** The note of a write is the one that [getNoteFromParamOrUser] returned
    when it was called after the calls [pre] of the run. *)
Definition noteReturned (h : Host) (k : HeadingCommand) (noteTitleArg : option string)
    (t whole : Trace) (n : TNote) : Prop :=
  exists pre post,
    whole = (pre ++ post)%list
    /\ fst (getNoteFromParamOrUser h (purposeOf k) (Some (Js.nullish noteTitleArg "")) false
              (t ++ pre)%list) = Ok (Some n).

(** A write of a heading command [k] run from the history [t], [whole]
    being the calls of the run: the method is the one of the command, the
    note is the one returned, the text is the text of the task as given
    or typed (without the configured suffix); below a heading, the
    position is [shouldAppend] of the settings and the heading is created
    when missing; at the end of the note, the line is the end of the
    active part, for a task, and the line after it, for a text. *)
Definition headingWriteOk (h : Host) (k : HeadingCommand)
    (noteTitleArg headingArg textArg : option string) (t whole : Trace) (e : Event) : Prop :=
  match e with
  | EvAddTodoBelowHeadingTitle n title headingTitle append create _ =>
      k = TaskCommand /\ noteReturned h k noteTitleArg t whole n
      /\ taskTextOf textArg whole = Some title
      /\ headingTitleOk h headingArg whole n headingTitle
      /\ (exists config, loadedSettings whole = Some config
                         /\ append = (addInboxPosition config =? "append"))
      /\ create = true
  | EvAddParagraphBelowHeadingTitle n content paragraphType headingTitle append create _ =>
      k = TextCommand /\ noteReturned h k noteTitleArg t whole n
      /\ taskTextOf textArg whole = Some content /\ paragraphType = "text"
      /\ headingTitleOk h headingArg whole n headingTitle
      /\ (exists config, loadedSettings whole = Some config
                         /\ append = (addInboxPosition config =? "append"))
      /\ create = true
  | EvInsertTodo n title lineIndex _ =>
      k = TaskCommand /\ noteReturned h k noteTitleArg t whole n
      /\ taskTextOf textArg whole = Some title
      /\ headingOf headingArg whole = Some ""
      /\ findEndOfActivePartOfNote h n = Ok lineIndex
  | EvInsertParagraph n content lineIndex paragraphType _ =>
      k = TextCommand /\ noteReturned h k noteTitleArg t whole n
      /\ taskTextOf textArg whole = Some content /\ paragraphType = "text"
      /\ headingOf headingArg whole = Some ""
      /\ exists endOfActivePart,
           findEndOfActivePartOfNote h n = Ok endOfActivePart
           /\ lineIndex = (endOfActivePart + 1)%N
  | _ => True
  end.

(** A host for concrete runs: the settings file holds [settings], the
    store holds [notes], all of them project and calendar notes, titled
    by their filename; the user picks the entry [picked] and types
    [typed]. *)
Definition sampleSettings : QCConfigType :=
  mkQCConfig "Inbox" "Inbox" "@todo" "append" "Journal" false "INFO".

Definition titleOf (note : option TNote) : string :=
  match note with
  | Some n => Js.nullish (filename n) ""
  | None => ""
  end.

Definition sampleHost (loaded : LoadedJSON) (notes : list TNote) (picked : nat)
    (typed : string) : Host :=
  {| RE_ISO_DATE := Scenario.matchIsoDate;
     unhyphenateString := Scenario.stripHyphens;
     relativeDates := [mkRelativeDate "today" (hd_error notes)];
     displayTitleWithRelDate := fun note _ => Ok (titleOf note);
     getDateStringFromCalendarFilename := fun f => Ok (Js.nullish f "");
     typeErrorOnUndefined :=
       fun p => mkError "TypeError" ("undefined is not an object (reading '" ++ p ++ "')");
     findHeadingStartsWith := fun _ heading => Ok heading;
     findEndOfActivePartOfNote := fun n => Ok (N.of_nat (List.length (paragraphs n)));
     loadJSON := fun _ _ => Ok loaded;
     showMessage := fun _ _ => Ok tt;
     allNotesSortedByChanged := fun _ => Ok notes;
     calendarNotesSortedByChanged := fun _ => Ok notes;
     projectNotesSortedByChanged := fun _ => Ok notes;
     showOptions := fun _ options _ => Ok (mkChosen picked (nth picked options ""));
     showInput := fun _ _ _ => Ok typed;
     projectNoteByTitle :=
       fun _ title _ _ => Ok (Some (filter (fun n => titleOf (Some n) =? title) notes));
     calendarNoteByDateString :=
       fun _ dateStr => Ok (hd_error (filter (fun n => titleOf (Some n) =? dateStr) notes));
     smartPara := fun _ _ _ _ _ => Ok tt;
     chooseHeading := fun _ _ _ _ _ => Ok "";
     addTodoBelowHeadingTitle := fun _ _ _ _ _ _ => Ok tt;
     insertTodo := fun _ _ _ _ => Ok tt;
     addParagraphBelowHeadingTitle := fun _ _ _ _ _ _ _ => Ok tt;
     insertParagraph := fun _ _ _ _ _ => Ok tt |}.

(** The same host with a store that finds no calendar note by date. *)
Definition withoutCalendarNotes (h : Host) : Host :=
  {| RE_ISO_DATE := RE_ISO_DATE h;
     unhyphenateString := unhyphenateString h;
     relativeDates := relativeDates h;
     displayTitleWithRelDate := displayTitleWithRelDate h;
     getDateStringFromCalendarFilename := getDateStringFromCalendarFilename h;
     typeErrorOnUndefined := typeErrorOnUndefined h;
     findHeadingStartsWith := findHeadingStartsWith h;
     findEndOfActivePartOfNote := findEndOfActivePartOfNote h;
     loadJSON := loadJSON h;
     showMessage := showMessage h;
     allNotesSortedByChanged := allNotesSortedByChanged h;
     calendarNotesSortedByChanged := calendarNotesSortedByChanged h;
     projectNotesSortedByChanged := projectNotesSortedByChanged h;
     showOptions := showOptions h;
     showInput := showInput h;
     projectNoteByTitle := projectNoteByTitle h;
     calendarNoteByDateString := fun _ _ => Ok None;
     smartPara := smartPara h;
     chooseHeading := chooseHeading h;
     addTodoBelowHeadingTitle := addTodoBelowHeadingTitle h;
     insertTodo := insertTodo h;
     addParagraphBelowHeadingTitle := addParagraphBelowHeadingTitle h;
     insertParagraph := insertParagraph h |}.


Definition noteA : TNote := mkNote (Some "Alpha") [].
Definition noteB : TNote := mkNote (Some "Beta") [].
Definition note20240301 : TNote := mkNote (Some "20240301") [].

End QuickCapture.

(* ================================================================== *)
(** * Part II: theorems *)

(* ------------------------------------------------------------------ *)
(** ** Running the function on an arbitrary host *)

Arguments toCompactDate : simpl never.
Arguments paraTypesOf : simpl never.
Arguments searchTermsRepStr : simpl never.
Arguments thisResultHeading : simpl never.
Arguments Js.gt : simpl never.
Arguments Js.join : simpl never.
Arguments Js.ofNat : simpl never.
Arguments Js.split : simpl never.
Arguments Js.repeat : simpl never.

Ltac unfold_blocks :=
  unfold resolvePeriod, getTermsToMatchStr, chooseDestination, doOutput in *.

Ltac unfold_monad :=
  unfold bind, call, get, ret, js_return, logError, logDebug, logInfo, clo, emit in *.

Ltac unfold_run :=
  unfold invoke, runAsync, searchPeriod, tryCatch, searchPeriod_try in *;
  unfold_blocks; unfold_monad.

(** One step of a run: case analysis on the answer, or on the test, that
    the next statement depends on.  The equation is kept for a test and
    dropped for an answer, which the trace records anyway. *)
Ltac split_on x :=
  lazymatch x with
  | context [match _ with _ => _ end] => fail
  | _ =>
      let E := fresh "Htest" in
      destruct x eqn:E;
      lazymatch type of E with
      | @eq bool _ _ => idtac
      | _ => clear E
      end
  end.

Ltac split_next_in H :=
  match type of H with
  | context [match ?x with _ => _ end] => split_on x
  end.

Ltac run_in H := repeat (cbn in H; split_next_in H).

Ltac split_next :=
  match goal with
  | |- context [match ?x with _ => _ end] => split_on x
  end.

Ltac no_units := repeat match goal with u : unit |- _ => destruct u end.

Ltac answered :=
  first [ eexists (Ok _); reflexivity | eexists (Err _); reflexivity ].

Lemma append_assoc :
  forall a b c : string, (a ++ b) ++ c = a ++ (b ++ c).
Proof.
  induction a as [|x a IH]; intros b c; cbn; [reflexivity | rewrite IH; reflexivity].
Qed.

Lemma calls_app :
  forall (p : Event -> bool) (t1 t2 : Trace),
    calls p (t1 ++ t2)%list = calls p t1 || calls p t2.
Proof. intros. unfold calls. apply existsb_app. Qed.

Lemma calls_none_of :
  forall (p q : Event -> bool) (t : Trace),
    (forall e, q e = true -> p e = false) ->
    forallb q t = true -> calls p t = false.
Proof.
  intros p q t Hpq. unfold calls. induction t as [|e t IH]; cbn; intros H.
  - reflexivity.
  - apply andb_true_iff in H. destruct H as [He Ht].
    rewrite (Hpq e He), (IH Ht). reflexivity.
Qed.

(** The period block only adds calls of its own kind to the trace. *)
Lemma resolvePeriod_trace :
  forall (h : Host) (sa : option string) (f t : string) (t0 : Trace),
    exists evs, snd (resolvePeriod h sa f t t0) = (t0 ++ evs)%list
                /\ forallb isPeriodEvent evs = true.
Proof.
  intros h sa f t t0. unfold resolvePeriod. unfold_monad.
  destruct sa as [s|].
  - destruct (f =? "default").
    + destruct (moment h t0 _) as [d|e]; cbn.
      * destruct (moment h _ NowStartOfDay) as [d'|e']; cbn;
          rewrite <- app_assoc; eexists; split; reflexivity.
      * eexists; split; reflexivity.
    + cbn. exists []. rewrite app_nil_r. split; reflexivity.
  - destruct (getPeriodStartEndDates h t0 _ _) as [c|e]; cbn.
    + destruct (chosenFromDate c), (chosenToDate c); cbn;
        try rewrite <- app_assoc; eexists; split; reflexivity.
    + eexists; split; reflexivity.
Qed.

(** On every host: in non-interactive mode the end date is handled
    according to [fromDateArg] alone. *)
Lemma resolvePeriod_end_date_by_fromDateArg :
  forall (h : Host) (s fromDateArg toDateArg : string) (t : Trace),
    ((fromDateArg =? "default") = false ->
     resolvePeriod h (Some s) fromDateArg toDateArg t
     = (Normal (mkPeriod None (toCompactDate h fromDateArg) None (toCompactDate h toDateArg) ""
                  (toCompactDate h fromDateArg ++ " - " ++ toCompactDate h toDateArg)
                  (toCompactDate h fromDateArg ++ " - " ++ toCompactDate h toDateArg)), t))
    /\ ((fromDateArg =? "default") = true ->
        resolvePeriod h (Some s) fromDateArg toDateArg t
        = resolvePeriod h (Some s) fromDateArg "default" t).
Proof.
  intros h s f t0 t. split; intros Hf; unfold resolvePeriod; rewrite Hf; reflexivity.
Qed.

(** The call of [replaceSection] made by the output block has the
    arguments of [NoteStore.writeToCurrentNote]. *)
Lemma doOutput_writes_block :
  forall (h : Host) (config : Config) (headingMarker : string) (p : PeriodVars)
         (termsToMatchStr paraTypeFilterArg : string) (destinationArg : option string)
         (destination : string) (rs : ResultSet) (t : Trace),
    Forall (writesBlockOf config rs (periodAndPartStr p)) t ->
    Forall (writesBlockOf config rs (periodAndPartStr p))
      (snd (doOutput h config headingMarker p termsToMatchStr paraTypeFilterArg
              destinationArg destination rs t)).
Proof.
  intros h config headingMarker p termsToMatchStr paraTypeFilterArg destinationArg
         destination rs t Ht.
  unfold doOutput. unfold_monad.
  repeat (cbn; split_next).
  all: cbn [snd]; rewrite ?Forall_app; repeat split; try exact Ht.
  all: try (apply Forall_cons; [|apply Forall_nil]); try exact I.
  all: cbn; repeat split; eexists; reflexivity.
Qed.

(* ------------------------------------------------------------------ *)
(** ** The concrete collaborators on the scenarios of the specification *)

(** Scenario A: the period of two compact dates, and one required term. *)
Example scenario_A :
  resolvePeriod (Scenario.callbackHost (Ok Scenario.twoHits))
    (Some "#project") "20240101" "20240131" []
  = (Normal (mkPeriod None "20240101" None "20240131" ""
               "20240101 - 20240131" "20240101 - 20240131"), [])
  /\ Scenario.validate "#project" = Some [mkTerm "#project" true false].
Proof. split; reflexivity. Qed.

(** Scenario B: a required and an excluded term. *)
Example scenario_B :
  Scenario.validate "+urgent,-done"
  = Some [mkTerm "urgent" true false; mkTerm "done" false true].
Proof. reflexivity. Qed.

(** The boundary case of section 8: sigils, commas and spaces only. *)
Example scenario_only_sigils : Scenario.validate "+ , - ," = None.
Proof. reflexivity. Qed.

(* ------------------------------------------------------------------ *)
(** ** C1: the end date (lines 96-105) *)

(** C1.  The test of line 96, which decides whether the end date is
    defaulted or parsed, reads [fromDateArg].  With a from-date given and
    [toDateArg] equal to 'default', the end date is not defaulted to the
    current day ([moment] is not consulted, [toDate] stays undefined) and
    'default' itself is parsed as a date, giving the label "error"; with
    [fromDateArg] equal to 'default' and a to-date given, the to-date is
    not parsed and its label stays empty. *)
Theorem C1_end_date_follows_fromDateArg :
  resolvePeriod (Scenario.callbackHost (Ok Scenario.twoHits))
    (Some "#project") "20240101" "default" []
  = (Normal (mkPeriod None "20240101" None "error" ""
               "20240101 - error" "20240101 - error"), [])
  /\ resolvePeriod (Scenario.callbackHost (Ok Scenario.twoHits))
       (Some "#project") "default" "20240131" []
     = (Normal (mkPeriod (Some 20240210%N) "" (Some Scenario.today) "" "" " - " " - "),
        [EvMoment (NowStartOfDaySubtractDays 91) (Ok 20240210%N);
         EvMoment NowStartOfDay (Ok Scenario.today)]).
Proof. split; vm_compute; reflexivity. Qed.

(* ------------------------------------------------------------------ *)
(** ** C2: date arguments of no accepted form (lines 86-124) *)

(** C2, as the specification states it, fails twice: a bad from-date stops
    the invocation but only a log line reports it, and a bad to-date does
    not stop it. *)
Lemma C2_counterexample :
  ~ badDateRejected (Scenario.callbackHost (Ok Scenario.twoHits))
      (mkArgs (Some "#project") (Some "2024/01/01") (Some "20240131") None None)
  /\ ~ badDateRejected (Scenario.callbackHost (Ok Scenario.twoHits))
         (mkArgs (Some "#project") (Some "20240101") (Some "2024/01/31") None None).
Proof.
  split; intros H.
  - destruct H as [Hshown _]; [discriminate | vm_compute; reflexivity |].
    vm_compute in Hshown. discriminate Hshown.
  - destruct H as [_ Hnone]; [discriminate | vm_compute; reflexivity |].
    vm_compute in Hnone. discriminate Hnone.
Qed.

(** C2, amended.  In non-interactive mode with [fromDateArg] other than
    'default', a date argument that is neither 'default' nor of an
    accepted form resolves to the compact label "error"; and whenever the
    from label then sorts after the to label, the invocation consists of
    reading the settings and logging the ordering error: no dialog is
    shown, no search is issued, the promise is fulfilled. *)
Theorem C2_bad_date_becomes_error_label :
  forall (h : Host) (a : Args) (s : string) (config : Config),
    searchTermsArg a = Some s ->
    getSearchSettings h [] = Ok config ->
    (Js.nullish (fromDateArg a) "default" =? "default") = false ->
    let fromLabel := toCompactDate h (Js.nullish (fromDateArg a) "default") in
    let toLabel := toCompactDate h (Js.nullish (toDateArg a) "default") in
    (forall dateArg : string, badDate h dateArg = true -> toCompactDate h dateArg = "error")
    /\ (forall t : Trace,
          resolvePeriod h (Some s) (Js.nullish (fromDateArg a) "default")
            (Js.nullish (toDateArg a) "default") t
          = (Normal (mkPeriod None fromLabel None toLabel ""
                       (fromLabel ++ " - " ++ toLabel) (fromLabel ++ " - " ++ toLabel)), t))
    /\ (Js.gt fromLabel toLabel = true ->
          invoke h a =
            (Fulfilled,
             [EvGetSearchSettings (Ok config);
              EvLogError ("Stopping: fromDate " ++ fromLabel ++ " is after toDate " ++ toLabel)])
          /\ calls isShowMessage (snd (invoke h a)) = false
          /\ calls isRunSearchesV2 (snd (invoke h a)) = false).
Proof.
  intros h [sa fa ta pa da] s config Hsa Hcfg Hfrom fromLabel toLabel.
  cbn [searchTermsArg fromDateArg toDateArg] in *. subst sa.
  assert (Hbad : forall d, badDate h d = true -> toCompactDate h d = "error").
  { intros d Hd. unfold badDate in Hd. unfold toCompactDate.
    apply andb_true_iff in Hd. destruct Hd as [Hd Hc].
    apply andb_true_iff in Hd. destruct Hd as [_ Hi].
    apply negb_true_iff in Hi, Hc. rewrite Hi, Hc. reflexivity. }
  assert (Hp : forall t : Trace,
             resolvePeriod h (Some s) (Js.nullish fa "default") (Js.nullish ta "default") t
             = (Normal (mkPeriod None fromLabel None toLabel ""
                          (fromLabel ++ " - " ++ toLabel) (fromLabel ++ " - " ++ toLabel)), t)).
  { intros t. unfold resolvePeriod. rewrite Hfrom. reflexivity. }
  split; [exact Hbad | split; [exact Hp|]].
  intros Hgt.
  assert (E : invoke h (mkArgs (Some s) fa ta pa da) =
            (Fulfilled,
             [EvGetSearchSettings (Ok config);
              EvLogError ("Stopping: fromDate " ++ fromLabel ++ " is after toDate " ++ toLabel)])).
  { unfold invoke, runAsync, searchPeriod, tryCatch, searchPeriod_try.
    unfold bind at 1. unfold call at 1. rewrite Hcfg. cbn [app].
    unfold bind at 1. cbn [searchTermsArg fromDateArg toDateArg].
    rewrite Hp. cbn [fromDateStr toDateStr]. rewrite Hgt.
    unfold_monad. reflexivity. }
  rewrite E. repeat split.
Qed.

(** An instance of C2: a from-date written with slashes. *)
Lemma C2_witness :
  toCompactDate (Scenario.callbackHost (Ok Scenario.twoHits)) "2024/01/01" = "error"
  /\ resolvePeriod (Scenario.callbackHost (Ok Scenario.twoHits))
       (Some "#project") "2024/01/01" "20240131" []
     = (Normal (mkPeriod None "error" None "20240131" ""
                  "error - 20240131" "error - 20240131"), [])
  /\ invoke (Scenario.callbackHost (Ok Scenario.twoHits))
       (mkArgs (Some "#project") (Some "2024/01/01") (Some "20240131") None None)
     = (Fulfilled,
        [EvGetSearchSettings (Ok Scenario.settings);
         EvLogError "Stopping: fromDate error is after toDate 20240131"])
  /\ calls isShowMessage
       (snd (invoke (Scenario.callbackHost (Ok Scenario.twoHits))
               (mkArgs (Some "#project") (Some "2024/01/01") (Some "20240131") None None)))
     = false
  /\ calls isRunSearchesV2
       (snd (invoke (Scenario.callbackHost (Ok Scenario.twoHits))
               (mkArgs (Some "#project") (Some "2024/01/01") (Some "20240131") None None)))
     = false.
Proof.
  destruct (C2_bad_date_becomes_error_label (Scenario.callbackHost (Ok Scenario.twoHits))
              (mkArgs (Some "#project") (Some "2024/01/01") (Some "20240131") None None)
              "#project" Scenario.settings eq_refl eq_refl eq_refl)
    as [Hbad [Hp Hstop]].
  split; [exact (Hbad "2024/01/01" eq_refl) | split; [exact (Hp []) | exact (Hstop eq_refl)]].
Defined.

(* ------------------------------------------------------------------ *)
(** ** C3: choosing the destination (lines 169-190) *)

(** C3.  The destination block returns 'newnote' without any call when the
    invocation is non-interactive or [config.autoSave] is set.  In a whole
    invocation: if [searchTermsArg] is defined or [config.autoSave] is
    true, [chooseOption] is never called and, once the search has been
    issued, the destination logged is 'newnote', whatever [destinationArg]
    is; otherwise, once the search has been issued, the next call is
    [chooseOption] with the four options newnote, current, log, cancel in
    this order and 'newnote' as the default, and the destination logged is
    the user's answer. *)
Theorem C3_destination_policy :
  forall (h : Host) (a : Args) (config : Config),
    getSearchSettings h [] = Ok config ->
    (forall (calledNonInteractively : bool) (periodString : string) (t : Trace),
        calledNonInteractively || autoSave config = true ->
        chooseDestination h config calledNonInteractively periodString t
        = (Normal "newnote", t))
    /\ (searchTermsArg a <> None \/ autoSave config = true ->
        calls isChooseOption (snd (invoke h a)) = false
        /\ forall post : Trace,
             after isOnMainThread (snd (invoke h a)) = Some (EvOnMainThread (Ok tt), post) ->
             exists rest,
               post = EvLogDebug (destinationLog "newnote" (destinationArg a)) :: rest)
    /\ (searchTermsArg a = None -> autoSave config = false ->
        forall post : Trace,
          after isOnMainThread (snd (invoke h a)) = Some (EvOnMainThread (Ok tt), post) ->
          exists question options r rest,
            post = EvChooseOption question options "newnote" r :: rest
            /\ map value options = ["newnote"; "current"; "log"; "cancel"]
            /\ match r with
               | Ok destination =>
                   exists rest',
                     rest = EvLogDebug (destinationLog destination (destinationArg a)) :: rest'
               | Err e => rest = [EvLogError (message e)]
               end).
Proof.
  intros h [sa fa ta pa da] config Hcfg.
  split.
  { intros ni ps t Hforced. unfold chooseDestination. rewrite Hforced. reflexivity. }
  remember (invoke h (mkArgs sa fa ta pa da)) as run eqn:Hrun.
  unfold_run. rewrite Hcfg in Hrun. run_in Hrun.
  all: subst run; cbn [snd searchTermsArg destinationArg]; no_units.
  all: split; [ intros Hforced | intros Hsa Hauto ].
  all: try discriminate Hsa.
  all: try congruence.
  all: try (exfalso; destruct Hforced as [Hf|Hf]; [apply Hf; reflexivity | congruence]).
  all: try (split; [reflexivity|]).
  all: intros post Hafter; cbn in Hafter; try discriminate Hafter.
  all: injection Hafter as ?; subst.
  all: try (eexists; reflexivity).
  all: do 4 eexists; (split; [reflexivity | split; [reflexivity|]]).
  all: cbn; first [reflexivity | eexists; reflexivity].
Qed.

(** An instance of C3: a callback that asks for 'current' is sent to
    'newnote'; an interactive run is prompted. *)
Lemma C3_witness :
  (calls isChooseOption
     (snd (invoke (Scenario.callbackHost (Ok Scenario.twoHits)) viaCallback)) = false
   /\ exists rest,
        afterMainThread (snd (invoke (Scenario.callbackHost (Ok Scenario.twoHits)) viaCallback))
        = EvLogDebug "destination = newnote, started with destinationArg = current" :: rest)
  /\ exists question options r rest,
       afterMainThread (snd (invoke pickingLog interactively))
       = EvChooseOption question options "newnote" r :: rest
       /\ map value options = ["newnote"; "current"; "log"; "cancel"]
       /\ match r with
          | Ok destination =>
              exists rest',
                rest = EvLogDebug (destinationLog destination (destinationArg interactively))
                       :: rest'
          | Err e => rest = [EvLogError (message e)]
          end.
Proof.
  split.
  - destruct (C3_destination_policy (Scenario.callbackHost (Ok Scenario.twoHits)) viaCallback
                Scenario.settings eq_refl) as [_ [Hforced _]].
    destruct Hforced as [Hnone Hlog].
    + left. discriminate.
    + split; [exact Hnone|].
      apply (Hlog (afterMainThread
                     (snd (invoke (Scenario.callbackHost (Ok Scenario.twoHits)) viaCallback)))).
      vm_compute. reflexivity.
  - destruct (C3_destination_policy pickingLog interactively Scenario.settings eq_refl)
      as [_ [_ Hprompt]].
    apply (Hprompt eq_refl eq_refl (afterMainThread (snd (invoke pickingLog interactively)))).
    vm_compute. reflexivity.
Defined.

(* ------------------------------------------------------------------ *)
(** ** C4: writing twice to the current note (lines 210-222) *)

Section ReplaceSectionFacts.

Variable headingMatches : string -> string -> bool.
Variable paragraphsOf : string -> list Paragraph.

Local Abbreviation countHeadings := (NoteStore.countHeadings headingMatches).
Local Abbreviation isSectionHeading := (NoteStore.isSectionHeading headingMatches).
Local Abbreviation replaceIn := (NoteStore.replaceIn headingMatches).

Lemma countHeadings_app :
  forall wanted ps qs,
    countHeadings wanted (ps ++ qs)%list = countHeadings wanted ps + countHeadings wanted qs.
Proof.
  intros. unfold NoteStore.countHeadings.
  rewrite filter_app, length_app. reflexivity.
Qed.

Lemma countHeadings_cons :
  forall wanted p ps,
    countHeadings wanted (p :: ps)
    = (if isSectionHeading wanted p then 1 else 0) + countHeadings wanted ps.
Proof.
  intros. unfold NoteStore.countHeadings. cbn.
  destruct (isSectionHeading wanted p); reflexivity.
Qed.

(** What follows a section holds no more headings than what was there. *)
Lemma afterSection_count :
  forall wanted level ps,
    countHeadings wanted (NoteStore.afterSection level ps) <= countHeadings wanted ps.
Proof.
  intros wanted level ps. induction ps as [|p rest IH]; cbn [NoteStore.afterSection].
  - apply le_n.
  - rewrite (countHeadings_cons wanted p rest).
    destruct (paraType p); [destruct (Nat.leb (paraLevel p) level)|].
    + rewrite countHeadings_cons. apply le_n.
    + lia.
    + lia.
Qed.


(** A write leaves one heading for the section when the note had at most
    one and the block brings exactly one. *)
Lemma replaceIn_one :
  forall wanted block ps,
    countHeadings wanted block = 1 ->
    countHeadings wanted ps <= 1 ->
    countHeadings wanted (replaceIn wanted block ps) = 1.
Proof.
  intros wanted block ps Hblock.
  induction ps as [|p rest IH]; cbn [NoteStore.replaceIn]; intros Hps.
  - exact Hblock.
  - rewrite countHeadings_cons in Hps.
    destruct (isSectionHeading wanted p) eqn:Hp.
    + rewrite countHeadings_app, Hblock.
      pose proof (afterSection_count wanted (paraLevel p) rest). lia.
    + rewrite countHeadings_cons, Hp. apply IH. exact Hps.
Qed.

(** A write never adds a heading for the section to a note that has one. *)
Lemma replaceIn_no_duplicate :
  forall wanted block ps,
    countHeadings wanted block = 1 ->
    1 <= countHeadings wanted ps ->
    countHeadings wanted (replaceIn wanted block ps) <= countHeadings wanted ps.
Proof.
  intros wanted block ps Hblock.
  induction ps as [|p rest IH]; cbn [NoteStore.replaceIn]; intros Hps.
  - cbn in Hps. lia.
  - rewrite countHeadings_cons in *.
    destruct (isSectionHeading wanted p) eqn:Hp.
    + rewrite countHeadings_app, Hblock.
      pose proof (afterSection_count wanted (paraLevel p) rest). lia.
    + rewrite countHeadings_cons, Hp.
      destruct (Nat.eq_dec (countHeadings wanted rest) 0) as [Hnone|Hsome].
      * pose proof (replaceIn_one wanted block rest Hblock) as Hone.
        lia.
      * apply IH. lia.
Qed.




End ReplaceSectionFacts.




(** The hypothesis on the store is needed: a store that wants the heading
    equal to the text asked for does not find the heading of line 218,
    and the second write appends a second block. *)
Example equality_store_appends :
  NoteStore.countHeadings NoteStore.byPrefix "[#project]"
    (paragraphs (writeTwoHits NoteStore.byEquality
                   (writeTwoHits NoteStore.byEquality dailyNote))) = 2.
Proof. reflexivity. Qed.

(* ------------------------------------------------------------------ *)
(** ** C5: search terms that do not validate (lines 147-152) *)

(** C5.  Whenever [validateAndTypeSearchTerms] answers null or an empty
    list, the very next call is [showMessage] with the "search terms
    aren't valid" text, nothing follows it (but the log line of the
    [catch] if the dialog itself throws), [runSearchesV2] is never called
    in the invocation, and the promise is fulfilled. *)
Theorem C5_invalid_terms_abort :
  forall (h : Host) (a : Args) (termsStr : string) (b : bool)
         (v : option (list SearchTerm)) (post : Trace),
    after isValidation (snd (invoke h a)) =
      Some (EvValidateAndTypeSearchTerms termsStr b (Ok v), post) ->
    v = None \/ v = Some [] ->
    (exists r, post = EvShowMessage invalidTermsMessage r :: caught r)
    /\ calls isRunSearchesV2 (snd (invoke h a)) = false
    /\ fst (invoke h a) = Fulfilled.
Proof.
  intros h [sa fa ta pa da] termsStr b v post Hafter Hv.
  remember (invoke h (mkArgs sa fa ta pa da)) as run eqn:Hrun.
  unfold_run. run_in Hrun.
  all: subst run; cbn in Hafter; try discriminate Hafter.
  all: injection Hafter as ? ? ? ?; subst.
  all: try (destruct Hv; discriminate).
  all: (split; [answered | split; reflexivity]).
Qed.

(** An instance of C5: the expression of section 8 of the specification,
    made of sigils, commas and spaces only. *)
Lemma C5_witness :
  (exists r, [EvShowMessage invalidTermsMessage (Ok tt)]
             = EvShowMessage invalidTermsMessage r :: caught r)
  /\ calls isRunSearchesV2
       (snd (invoke (Scenario.callbackHost (Ok Scenario.twoHits))
               (mkArgs (Some "+ , - ,") (Some "20240101") (Some "20240131") None None)))
     = false
  /\ fst (invoke (Scenario.callbackHost (Ok Scenario.twoHits))
            (mkArgs (Some "+ , - ,") (Some "20240101") (Some "20240131") None None))
     = Fulfilled.
Proof.
  apply (C5_invalid_terms_abort (Scenario.callbackHost (Ok Scenario.twoHits))
           (mkArgs (Some "+ , - ,") (Some "20240101") (Some "20240131") None None)
           "+ , - ," true None [EvShowMessage invalidTermsMessage (Ok tt)]).
  - vm_compute. reflexivity.
  - left. reflexivity.
Defined.


(* ------------------------------------------------------------------ *)
(** ** C6: an empty result set (lines 195-202) *)

(** C6.  Whenever the search promise resolves to a result set whose
    [resultCount] is 0, the promise of the invocation is fulfilled, the
    formatter [createFormattedResultLines] is never called, no note is
    written ([replaceSection], [writeSearchResultsToNote]) and nothing is
    written to the log sink ([logInfo]); after the loading indicator is
    switched off, the calls that remain are the debug line and the dialog
    "No results found for search ..." for the validated terms. *)
Theorem C6_no_results_short_circuit :
  forall (h : Host) (a : Args) (rs : ResultSet) (post : Trace),
    after isAwaitResults (snd (invoke h a)) = Some (EvAwaitResults (Ok rs), post) ->
    resultCount rs = 0 ->
    fst (invoke h a) = Fulfilled
    /\ calls isFormatterCall (snd (invoke h a)) = false
    /\ calls isNoteWrite (snd (invoke h a)) = false
    /\ calls isLogInfo (snd (invoke h a)) = false
    /\ exists terms,
         validatedTerms (snd (invoke h a)) = Some terms
         /\ ((exists e, post = [EvShowLoading false None (Err e); EvLogError (message e)])
             \/ (exists r, post = EvShowLoading false None (Ok tt)
                                  :: EvLogDebug (noResultsMessage h terms)
                                  :: EvShowMessage (noResultsMessage h terms) r
                                  :: caught r)).
Proof.
  intros h [sa fa ta pa da] rs post Hafter Hcount.
  remember (invoke h (mkArgs sa fa ta pa da)) as run eqn:Hrun.
  unfold_run. run_in Hrun.
  all: subst run; cbn in Hafter; try discriminate Hafter.
  all: injection Hafter as ? ?; subst.
  all: try match goal with
           | Ht : Nat.eqb (resultCount ?x) 0 = false |- _ =>
               rewrite Hcount in Ht; discriminate Ht
           end.
  all: no_units.
  all: repeat (split; [reflexivity|]).
  all: eexists; (split; [reflexivity|]).
  all: first [ left; eexists; reflexivity | right; unfold noResultsMessage; answered ].
Qed.

(** An instance of C6: scenario C of the specification. *)
Lemma C6_witness :
  fst (invoke (Scenario.callbackHost (Ok Scenario.noHits))
         (mkArgs (Some "#project") (Some "20240101") (Some "20240131") None None))
    = Fulfilled
  /\ calls isFormatterCall
       (snd (invoke (Scenario.callbackHost (Ok Scenario.noHits))
               (mkArgs (Some "#project") (Some "20240101") (Some "20240131") None None)))
     = false
  /\ calls isNoteWrite
       (snd (invoke (Scenario.callbackHost (Ok Scenario.noHits))
               (mkArgs (Some "#project") (Some "20240101") (Some "20240131") None None)))
     = false
  /\ calls isLogInfo
       (snd (invoke (Scenario.callbackHost (Ok Scenario.noHits))
               (mkArgs (Some "#project") (Some "20240101") (Some "20240131") None None)))
     = false
  /\ exists terms,
       validatedTerms
         (snd (invoke (Scenario.callbackHost (Ok Scenario.noHits))
                 (mkArgs (Some "#project") (Some "20240101") (Some "20240131") None None)))
       = Some terms
       /\ ((exists e,
              [EvShowLoading false None (Ok tt);
               EvLogDebug "No results found for search [#project]";
               EvShowMessage "No results found for search [#project]" (Ok tt)]
              = [EvShowLoading false None (Err e); EvLogError (message e)])
           \/ (exists r,
                 [EvShowLoading false None (Ok tt);
                  EvLogDebug "No results found for search [#project]";
                  EvShowMessage "No results found for search [#project]" (Ok tt)]
                 = EvShowLoading false None (Ok tt)
                   :: EvLogDebug
                        (noResultsMessage (Scenario.callbackHost (Ok Scenario.noHits)) terms)
                   :: EvShowMessage
                        (noResultsMessage (Scenario.callbackHost (Ok Scenario.noHits)) terms) r
                   :: caught r)).
Proof.
  apply (C6_no_results_short_circuit (Scenario.callbackHost (Ok Scenario.noHits))
           (mkArgs (Some "#project") (Some "20240101") (Some "20240131") None None)
           Scenario.noHits
           [EvShowLoading false None (Ok tt);
            EvLogDebug "No results found for search [#project]";
            EvShowMessage "No results found for search [#project]" (Ok tt)]).
  - vm_compute. reflexivity.
  - reflexivity.
Defined.


(* ------------------------------------------------------------------ *)
(** ** C7: the ordering check (lines 121-124) *)

(** C7.  Whenever the period block has resolved a compact from-date label
    that sorts after the compact to-date label, [searchPeriod] logs the
    ordering error "Stopping: fromDate ... is after toDate ..." and returns:
    that log line is the last call of the invocation, and [runSearchesV2]
    is never called. *)
Theorem C7_from_after_to_stops :
  forall (h : Host) (a : Args) (config : Config) (p : PeriodVars) (t1 : Trace),
    getSearchSettings h [] = Ok config ->
    resolvePeriod h (searchTermsArg a)
      (Js.nullish (fromDateArg a) "default") (Js.nullish (toDateArg a) "default")
      [EvGetSearchSettings (Ok config)] = (Normal p, t1) ->
    Js.gt (fromDateStr p) (toDateStr p) = true ->
    invoke h a =
      (Fulfilled,
       (t1 ++ [EvLogError ("Stopping: fromDate " ++ fromDateStr p
                           ++ " is after toDate " ++ toDateStr p)])%list)
    /\ calls isRunSearchesV2 (snd (invoke h a)) = false.
Proof.
  intros h a config p t1 Hcfg Hp Hgt.
  assert (E : invoke h a =
      (Fulfilled,
       (t1 ++ [EvLogError ("Stopping: fromDate " ++ fromDateStr p
                           ++ " is after toDate " ++ toDateStr p)])%list)).
  { unfold invoke, runAsync, searchPeriod, tryCatch, searchPeriod_try.
    unfold bind at 1. unfold call at 1. rewrite Hcfg. cbn [app].
    unfold bind at 1. rewrite Hp. rewrite Hgt.
    unfold_monad. reflexivity. }
  split; [exact E|].
  rewrite E. cbn [snd].
  destruct (resolvePeriod_trace h (searchTermsArg a)
              (Js.nullish (fromDateArg a) "default") (Js.nullish (toDateArg a) "default")
              [EvGetSearchSettings (Ok config)]) as [evs [Ht Hevs]].
  rewrite Hp in Ht. cbn [snd] in Ht. subst t1.
  rewrite !calls_app. cbn.
  rewrite (calls_none_of isRunSearchesV2 isPeriodEvent evs); [reflexivity| |exact Hevs].
  intros [] He; cbn in *; congruence.
Qed.

(** An instance of C7: a call through the callback URL with the from-date
    after the to-date. *)
Lemma C7_witness :
  invoke (Scenario.callbackHost (Ok Scenario.twoHits))
         (mkArgs (Some "#project") (Some "20240131") (Some "2024-01-01") None None) =
    (Fulfilled,
     [EvGetSearchSettings (Ok Scenario.settings);
      EvLogError "Stopping: fromDate 20240131 is after toDate 20240101"])
  /\ calls isRunSearchesV2
       (snd (invoke (Scenario.callbackHost (Ok Scenario.twoHits))
               (mkArgs (Some "#project") (Some "20240131") (Some "2024-01-01") None None)))
     = false.
Proof.
  apply (C7_from_after_to_stops (Scenario.callbackHost (Ok Scenario.twoHits))
           (mkArgs (Some "#project") (Some "20240131") (Some "2024-01-01") None None)
           Scenario.settings
           (mkPeriod None "20240131" None "20240101" ""
                     "20240131 - 20240101" "20240131 - 20240101")
           [EvGetSearchSettings (Ok Scenario.settings)]);
    reflexivity.
Defined.


(* ------------------------------------------------------------------ *)
(** ** C8: the 'current' destination without an open note (lines 210-216) *)

(** C8, as the specification states it, fails: with no note open the
    function logs the error and shows no dialog. *)
Lemma C8_counterexample : ~ missingNoteShownInDialog currentWithoutNote interactively.
Proof.
  intros H. specialize (H [EvLogError "No note is open"]).
  vm_compute in H. discriminate (H eq_refl).
Qed.

(** C8, amended.  Whenever the invocation reaches the 'current' case and
    [Editor.note] is null, the only call that follows is
    [logError "No note is open"]; no note is written in the invocation, no
    dialog is shown, and the promise is fulfilled. *)
Theorem C8_missing_note_is_logged :
  forall (h : Host) (a : Args) (post : Trace),
    after isEditorNote (snd (invoke h a)) = Some (EvEditorNote None, post) ->
    post = [EvLogError "No note is open"]
    /\ calls isNoteWrite (snd (invoke h a)) = false
    /\ calls isShowMessage (snd (invoke h a)) = false
    /\ fst (invoke h a) = Fulfilled.
Proof.
  intros h [sa fa ta pa da] post Hafter.
  remember (invoke h (mkArgs sa fa ta pa da)) as run eqn:Hrun.
  unfold_run. run_in Hrun.
  all: subst run; cbn in Hafter; try discriminate Hafter.
  all: injection Hafter as ?; subst.
  all: repeat split; reflexivity.
Qed.

Lemma C8_witness :
  [EvLogError "No note is open"] = [EvLogError "No note is open"]
  /\ calls isNoteWrite (snd (invoke currentWithoutNote interactively)) = false
  /\ calls isShowMessage (snd (invoke currentWithoutNote interactively)) = false
  /\ fst (invoke currentWithoutNote interactively) = Fulfilled.
Proof.
  apply (C8_missing_note_is_logged currentWithoutNote interactively
           [EvLogError "No note is open"]).
  vm_compute. reflexivity.
Defined.


(* ------------------------------------------------------------------ *)
(** ** C9: exceptions (lines 68 and 269-271) *)





(* ------------------------------------------------------------------ *)
(** ** C10: the sentinel as from-date (lines 77-107 and 162-166) *)


(* ------------------------------------------------------------------ *)
(** ** Further facts about every run of [searchPeriod] *)

(** As [split_on], with the equation kept unless it is about an answer. *)
Ltac split_keeping x :=
  lazymatch x with
  | context [match _ with _ => _ end] => fail
  | _ =>
      let E := fresh "Hcase" in
      destruct x eqn:E;
      lazymatch type of E with
      | @eq (Result _) _ _ => clear E
      | _ => idtac
      end
  end.

Ltac split_next_keeping_in H :=
  match type of H with
  | context [match ?x with _ => _ end] => split_keeping x
  end.

Ltac run_keeping_in H := repeat (cbn in H; split_next_keeping_in H).

Ltac forall_events :=
  repeat (apply Forall_cons; [cbn; try exact I|]); try apply Forall_nil.

Ltac known_destination :=
  match goal with
  | Ht : (?d =? "current") = true, Hd : ?d <> "current" |- _ =>
      apply String.eqb_eq in Ht; contradiction
  | Ht : (?d =? "newnote") = true, Hd : ?d <> "newnote" |- _ =>
      apply String.eqb_eq in Ht; contradiction
  end.

(** All the facts at once, by one case analysis of the run. *)
Lemma searchPeriod_runs :
  forall (h : Host) (a : Args),
    issuesOneSearch a (invoke h a) /\ promptsWhileSearching (invoke h a)
    /\ writesAtMostOnce (invoke h a) /\ leavesLoadingOnFailure (invoke h a)
    /\ asksForTerms a (invoke h a) /\ unparsedPeriodStops (invoke h a)
    /\ opensWrittenNote (invoke h a) /\ otherDestinationsDoNotWrite (invoke h a)
    /\ formatsOnlyResults (invoke h a).
Proof.
  intros h [sa fa ta pa da].
  remember (invoke h (mkArgs sa fa ta pa da)) as run eqn:Hrun.
  unfold_run. run_keeping_in Hrun.
  all: no_units; subst run.
  all: split;
    [ unfold issuesOneSearch; cbn [snd]; split;
      [ forall_events; repeat split; try reflexivity; discriminate
      | cbn; repeat constructor ] |].
  all: split;
    [ unfold promptsWhileSearching; cbn; intros Hc; try discriminate Hc; split; reflexivity |].
  all: split;
    [ unfold writesAtMostOnce; cbn [snd]; split;
      [ cbn; repeat constructor
      | cbn; intros Hc; try discriminate Hc;
        eexists; (split; [reflexivity | apply Nat.eqb_neq; assumption]) ] |].
  all: split;
    [ unfold leavesLoadingOnFailure; cbn [snd]; split;
      [ cbn; intros Hc; try discriminate Hc; reflexivity
      | intros ? ? Hafter Hkind; cbn in Hafter; try discriminate Hafter;
        injection Hafter as ? ?; subst; cbn in Hkind; try discriminate Hkind;
        split; reflexivity ] |].
  all: split;
    [ unfold asksForTerms; cbn [snd fst searchTermsArg]; split;
      [ intros ? ? ? ? ? ? Hafter; cbn in Hafter; try discriminate Hafter;
        injection Hafter as ? ? ? ? ? ?; subst;
        (split; [reflexivity | eexists; split; reflexivity])
      | intros ? ? ? ? ? ? Hafter; cbn in Hafter; try discriminate Hafter;
        injection Hafter as ? ? ? ? ? ?; subst; repeat split; reflexivity ] |].
  all: split;
    [ unfold unparsedPeriodStops; cbn [snd fst];
      intros ? ? ? ? Hafter Hnone; cbn in Hafter; try discriminate Hafter;
      injection Hafter as ? ? ? ?; subst;
      first [ solve [repeat split; reflexivity]
            | exfalso; destruct Hnone as [Hnone|Hnone]; congruence ] |].
  all: split;
    [ unfold opensWrittenNote; cbn [snd];
      intros ? ? ? ? ? ? ? Hafter; cbn in Hafter; try discriminate Hafter;
      injection Hafter as ? ? ? ? ? ? ?; subst;
      (split;
       [ eexists; rewrite ?append_assoc; reflexivity
       | first [ left; eexists; reflexivity
               | right; left; reflexivity
               | right; right; answered ] ]) |].
  all: split;
    [ unfold otherDestinationsDoNotWrite; cbn [snd];
      intros ? ? ? ? ? Hafter Hcurrent Hnewnote; cbn in Hafter; try discriminate Hafter;
      injection Hafter as ? ? ? ? ?; subst;
      first [ solve [repeat split; reflexivity] | exfalso; known_destination ] |].
  all: unfold formatsOnlyResults; cbn [snd]; split;
    [ forall_events; repeat split; try reflexivity; apply Nat.eqb_neq; assumption
    | cbn; repeat constructor ].
Qed.

(** X1.  In every run at most one search is issued; the call is given the
    validated terms, of which there is at least one, the note type
    'calendar', no folder to include, the configured folders to exclude
    and the paragraph types of line 156. *)
Theorem X1_one_search_with_validated_terms :
  forall (h : Host) (a : Args), issuesOneSearch a (invoke h a).
Proof. intros h a. apply (searchPeriod_runs h a). Qed.

(** X2.  In every run the destination prompt, when there is one, comes
    after the search has been issued and before its result is awaited. *)
Theorem X2_prompt_while_searching :
  forall (h : Host) (a : Args), promptsWhileSearching (invoke h a).
Proof. intros h a. apply (searchPeriod_runs h a). Qed.

Lemma X2_witness :
  calls isRunSearchesV2 (before isChooseOption (snd (invoke pickingLog interactively))) = true
  /\ calls isAwaitResults (before isChooseOption (snd (invoke pickingLog interactively)))
     = false.
Proof. apply (X2_prompt_while_searching pickingLog interactively). reflexivity. Defined.

(** X3.  In every run at most one note is written ([replaceSection] or
    [writeSearchResultsToNote]), and only after the search has resolved
    to a result set with at least one result. *)
Theorem X3_at_most_one_note_write :
  forall (h : Host) (a : Args), writesAtMostOnce (invoke h a).
Proof. intros h a. apply (searchPeriod_runs h a). Qed.

Lemma X3_witness :
  count isNoteWrite (snd (invoke (Scenario.callbackHost (Ok Scenario.twoHits)) viaCallback)) <= 1
  /\ exists rs,
       awaited (snd (invoke (Scenario.callbackHost (Ok Scenario.twoHits)) viaCallback)) = Some rs
       /\ resultCount rs <> 0.
Proof.
  destruct (X3_at_most_one_note_write (Scenario.callbackHost (Ok Scenario.twoHits)) viaCallback)
    as [Hcount Hwrite].
  split; [exact Hcount | apply Hwrite; reflexivity].
Defined.

(** X4.  In a run where no call throws, the loading indicator is switched
    off exactly when it was switched on.  When [onAsyncThread],
    [onMainThread], [chooseOption] or the awaited search promise fails,
    the indicator has been switched on and [showLoading(false)] is never
    called: the [catch] only logs. *)
Theorem X4_loading_indicator_left_on_failure :
  forall (h : Host) (a : Args), leavesLoadingOnFailure (invoke h a).
Proof. intros h a. apply (searchPeriod_runs h a). Qed.

Lemma X4_witness :
  calls isLoadingOn (snd (invoke (Scenario.callbackHost (Err searchFailure)) viaCallback)) = true
  /\ calls isLoadingOff (snd (invoke (Scenario.callbackHost (Err searchFailure)) viaCallback))
     = false.
Proof.
  destruct (X4_loading_indicator_left_on_failure (Scenario.callbackHost (Err searchFailure))
              viaCallback) as [_ Hfail].
  apply (Hfail (EvAwaitResults (Err searchFailure)) [EvLogError "search failed"]);
    reflexivity.
Defined.

(** X5.  The user is asked for search terms only when [searchTermsArg] is
    undefined, and the default answer offered is the configured default
    terms joined by ", ".  When the answer is a boolean (the user
    cancelled), the run logs "User has cancelled operation." and ends:
    no validation, no search, no dialog, and the promise is fulfilled. *)
Theorem X5_terms_prompt_and_cancel :
  forall (h : Host) (a : Args), asksForTerms a (invoke h a).
Proof. intros h a. apply (searchPeriod_runs h a). Qed.

Lemma X5_witness :
  (searchTermsArg interactively = None
   /\ exists config,
        settingsOf (snd (invoke (Scenario.callbackHost (Ok Scenario.twoHits)) interactively))
        = Some config
        /\ "#idea" = Js.join ", " (defaultSearchTerms config))
  /\ [EvLogInfo "User has cancelled operation."] = [EvLogInfo "User has cancelled operation."]
  /\ calls isValidation
       (snd (invoke (Scenario.callbackHost (Ok Scenario.twoHits)) interactively)) = false
  /\ calls isRunSearchesV2
       (snd (invoke (Scenario.callbackHost (Ok Scenario.twoHits)) interactively)) = false
  /\ calls isShowMessage
       (snd (invoke (Scenario.callbackHost (Ok Scenario.twoHits)) interactively)) = false
  /\ fst (invoke (Scenario.callbackHost (Ok Scenario.twoHits)) interactively) = Fulfilled.
Proof.
  destruct (X5_terms_prompt_and_cancel (Scenario.callbackHost (Ok Scenario.twoHits))
              interactively) as [Hasked Hcancel].
  split.
  - apply (Hasked
             "Enter search term(s) separated by spaces or commas. (You can use + term, -term and !term as well.)"
             "OK" "Search" "#idea" (Ok (inr false))
             [EvLogInfo "User has cancelled operation."]).
    reflexivity.
  - apply (Hcancel
             "Enter search term(s) separated by spaces or commas. (You can use + term, -term and !term as well.)"
             "OK" "Search" "#idea" false).
    reflexivity.
Defined.

(** X6.  When the period that the user chose comes without a start date
    or without an end date, the run logs "dates could not be parsed for
    requested time period" and ends before the user is asked for search
    terms; the promise is fulfilled. *)
Theorem X6_unparsed_period_stops :
  forall (h : Host) (a : Args), unparsedPeriodStops (invoke h a).
Proof. intros h a. apply (searchPeriod_runs h a). Qed.

Lemma X6_witness :
  [EvLogError "dates could not be parsed for requested time period"]
  = [EvLogError "dates could not be parsed for requested time period"]
  /\ calls isGetInput (snd (invoke withoutDates interactively)) = false
  /\ fst (invoke withoutDates interactively) = Fulfilled.
Proof.
  apply (X6_unparsed_period_stops withoutDates interactively
           "What period shall I search over?" false (mkChoice None None "" "" "")).
  - reflexivity.
  - left. reflexivity.
Defined.

(** X7.  Whenever [writeSearchResultsToNote] returns a filename: the
    title it was asked for is the title to match followed by " for " and
    a period label; the next calls are the debug line and
    [noteOpenInEditor]; if the note is open nothing is opened, if it is
    not the note is opened with [openNoteByFilename(filename, false, 0,
    0, true)], and nothing else follows. *)
Theorem X7_written_note_is_opened_unless_open :
  forall (h : Host) (a : Args), opensWrittenNote (invoke h a).
Proof. intros h a. apply (searchPeriod_runs h a). Qed.

Lemma X7_witness :
  (exists period,
      "#project Search results for 20240101 - 20240131"
      = "#project Search results" ++ " for " ++ period)
  /\ ((exists e,
         openedInSplit
         = [EvLogDebug ("- filename to open in split: "
                        ++ "#project Search results for 20240101 - 20240131.md");
            EvNoteOpenInEditor "#project Search results for 20240101 - 20240131.md" (Err e);
            EvLogError (message e)])
      \/ openedInSplit
         = [EvLogDebug ("- filename to open in split: "
                        ++ "#project Search results for 20240101 - 20240131.md");
            EvNoteOpenInEditor "#project Search results for 20240101 - 20240131.md" (Ok true);
            EvLogDebug ("- note " ++ "#project Search results for 20240101 - 20240131.md"
                        ++ " already open in an editor window")]
      \/ (exists answer,
            openedInSplit
            = (EvLogDebug ("- filename to open in split: "
                           ++ "#project Search results for 20240101 - 20240131.md")
               :: EvNoteOpenInEditor "#project Search results for 20240101 - 20240131.md"
                    (Ok false)
               :: EvOpenNoteByFilename "#project Search results for 20240101 - 20240131.md"
                    false 0 0 true answer
               :: caught answer))).
Proof.
  apply (X7_written_note_is_opened_unless_open
           (Scenario.callbackHost (Ok Scenario.twoHits)) viaCallback
           Scenario.twoHits "#project Search results for 20240101 - 20240131"
           "#project Search results" Scenario.settings
           "noteplan://x-callback-url/runPlugin?pluginID=jgclark.SearchExtensions&command=searchInPeriod&args=#project,20240101,20240131,,current"
           "#project Search results for 20240101 - 20240131.md" openedInSplit).
  reflexivity.
Defined.

(** X8.  When the user's answer to the destination prompt is neither
    'current' nor 'newnote' (so also for 'log', 'cancel' and an unknown
    answer), the run writes no note, does not read [Editor.note] and
    opens no note. *)
Theorem X8_other_destinations_do_not_write :
  forall (h : Host) (a : Args), otherDestinationsDoNotWrite (invoke h a).
Proof. intros h a. apply (searchPeriod_runs h a). Qed.

Lemma X8_witness :
  calls isNoteWrite (snd (invoke pickingLog interactively)) = false
  /\ calls isEditorNote (snd (invoke pickingLog interactively)) = false
  /\ calls isOpenNote (snd (invoke pickingLog interactively)) = false.
Proof.
  apply (X8_other_destinations_do_not_write pickingLog interactively
           "Where should I save the search results for Feb 2024?"
           (destinationOptions Scenario.settings "Feb 2024") "newnote" "log"
           (tl (afterMainThread (snd (invoke pickingLog interactively))))).
  - reflexivity.
  - discriminate.
  - discriminate.
Defined.

(** X9.  The formatter [createFormattedResultLines] is only ever called
    with the result set that the search resolved to, which then holds at
    least one result, and with the settings read; it is called at most
    twice in a run. *)
Theorem X9_formatter_only_with_results :
  forall (h : Host) (a : Args), formatsOnlyResults (invoke h a).
Proof. intros h a. apply (searchPeriod_runs h a). Qed.

(* ------------------------------------------------------------------ *)
(** ** The paragraph types (line 156) *)

Lemma split_cons :
  forall (sep c : ascii) (rest : string),
    Js.split sep (String c rest)
    = if Ascii.eqb c sep then EmptyString :: Js.split sep rest
      else match Js.split sep rest with
           | [] => [String c EmptyString]
           | x :: xs => String c x :: xs
           end.
Proof. reflexivity. Qed.

Lemma split_not_empty : forall (sep : ascii) (s : string), Js.split sep s <> [].
Proof.
  intros sep s. destruct s as [|c rest].
  - discriminate.
  - rewrite split_cons. destruct (Ascii.eqb c sep); [discriminate|].
    destruct (Js.split sep rest); discriminate.
Qed.

Lemma join_split :
  forall (sep : ascii) (s : string), Js.join (String sep "") (Js.split sep s) = s.
Proof.
  intros sep s. unfold Js.join. induction s as [|c rest IH].
  - reflexivity.
  - rewrite split_cons. pose proof (split_not_empty sep rest) as Hne.
    destruct (Js.split sep rest) as [|x xs] eqn:E; [contradiction Hne; reflexivity|].
    destruct (Ascii.eqb_spec c sep) as [Hc|Hc]; [subst c|]; destruct xs as [|y ys];
      cbn [String.concat append] in *; rewrite IH; reflexivity.
Qed.

Lemma split_without_separator :
  forall (sep : ascii) (s : string),
    Forall (fun piece => hasChar sep piece = false) (Js.split sep s).
Proof.
  intros sep s. induction s as [|c rest IH].
  - repeat constructor.
  - rewrite split_cons. destruct (Ascii.eqb c sep) eqn:Hc.
    + constructor; [reflexivity | exact IH].
    + destruct (Js.split sep rest) as [|x xs].
      * repeat constructor. cbn. rewrite Hc. reflexivity.
      * inversion IH as [|? ? Hx Hxs]; subst.
        constructor; [cbn; rewrite Hc, Hx; reflexivity | exact Hxs].
Qed.

(** X10.  The paragraph types handed to the search, joined again by
    commas, are [paraTypeFilterArg]; none of them holds a comma; and the
    list is empty exactly when the argument is the empty string. *)
Theorem X10_paragraph_types_round_trip :
  forall paraTypeFilterArg : string,
    Js.join "," (paraTypesOf paraTypeFilterArg) = paraTypeFilterArg
    /\ Forall (fun paraType => hasChar "," paraType = false) (paraTypesOf paraTypeFilterArg)
    /\ (paraTypesOf paraTypeFilterArg = [] <-> paraTypeFilterArg = "").
Proof.
  intros s. unfold paraTypesOf. destruct (String.eqb_spec s "") as [Hs|Hs]; cbn [negb].
  - subst s. repeat split; constructor.
  - split; [apply (join_split "," s) | split; [apply split_without_separator|]].
    split; intros H; [exfalso; apply (split_not_empty "," s); exact H | contradiction].
Qed.
(* ------------------------------------------------------------------ *)
(** ** The QuickCapture functions *)

Module QuickCaptureFacts.

Import QuickCapture.

(** The loop over [relativeDates] only logs, and leaves the note of the
    last entry of that name. *)
Lemma matchRelativeDates_runs :
  forall (R : Type) (noteTitleArg : string) (rds : list RelativeDate)
         (note : option TNote) (t : Trace),
    @matchRelativeDates R noteTitleArg rds note t
    = (Next (relativeNote noteTitleArg rds note), relativeLog noteTitleArg rds).
Proof.
  intros R title rds. induction rds as [|rd rest IH]; intros note t.
  - reflexivity.
  - unfold relativeNote, relativeLog in *. cbn [matchRelativeDates fold_left filter map].
    destruct (title =? relName rd).
    + unfold bind, logDebug, emit. rewrite IH. reflexivity.
    + apply IH.
Qed.

Ltac unfold_steps :=
  unfold function, tryCatch, await, bind, call, lift, property, next, ret, throw,
    logError, logWarn, logDebug, emit in *.

(** One case for each way in which the calls of a run can be answered.
    The equation of a case is kept, unless it only says how the host
    answered after some history; a case in which a test has two outcomes
    is dropped. *)
Ltac impossible :=
  match goal with
  | H : false = true |- _ => discriminate H
  | H : true = false |- _ => discriminate H
  end.

Ltac case_on x :=
  lazymatch x with
  | context [match _ with _ => _ end] => fail
  | _ =>
      let E := fresh "Hcase" in
      destruct x eqn:E; try impossible;
      lazymatch type of E with
      | context [getNoteFromParamOrUser] => idtac
      | context [(_ ++ _)%list] => clear E
      | _ => idtac
      end
  end.

Ltac case_next_in H :=
  match type of H with
  | context [match ?x with _ => _ end] => case_on x
  end.

Ltac step_in H := repeat (cbn in H; case_next_in H).

Lemma relativeLog_only_logs :
  forall (p : Event -> bool) (noteTitleArg : string) (rds : list RelativeDate),
    (forall tag msg, p (EvLogDebug tag msg) = false) ->
    forall t, after p (relativeLog noteTitleArg rds ++ t)%list = after p t
              /\ calls p (relativeLog noteTitleArg rds ++ t)%list = calls p t
              /\ count p (relativeLog noteTitleArg rds ++ t)%list = count p t.
Proof.
  intros p title rds Hp t. unfold relativeLog.
  induction (filter (fun rd => title =? relName rd) rds) as [|rd rest IH]; cbn.
  - repeat split; reflexivity.
  - unfold count in *. cbn. rewrite Hp. exact IH.
Qed.





(** [filterByTitle] keeps, in their order, the notes whose display title
    is the wanted one: its first result is the first such note. *)
Lemma filterByTitle_first :
  forall (h : Host) (wantedTitle : string) (notes : list TNote) (n : TNote)
         (others : list TNote),
    filterByTitle h wantedTitle notes = Ok (n :: others) ->
    exists earlier later,
      notes = (earlier ++ n :: later)%list
      /\ displayTitleWithRelDate h (Some n) None = Ok wantedTitle
      /\ Forall (fun m => displayTitleWithRelDate h (Some m) None <> Ok wantedTitle) earlier.
Proof.
  intros h wanted notes. induction notes as [|m rest IH]; intros n others H.
  - discriminate H.
  - cbn [filterByTitle] in H.
    destruct (displayTitleWithRelDate h (Some m) None) as [title|e] eqn:Ht; [|discriminate H].
    destruct (filterByTitle h wanted rest) as [found|e] eqn:Hf; [|discriminate H].
    destruct (title =? wanted) eqn:Hw.
    + apply String.eqb_eq in Hw. subst title. injection H as H1 H2. subst m found.
      exists [], rest. repeat split; [assumption | constructor].
    + injection H as H. subst found.
      destruct (IH n others eq_refl) as (earlier & later & Hn & Hd & Hall).
      exists (m :: earlier), later. subst rest. repeat split; [assumption|].
      constructor; [|assumption].
      rewrite Ht. intros Heq. injection Heq as Heq. subst title.
      rewrite String.eqb_refl in Hw. discriminate Hw.
Qed.

(** The titles are those of the notes, position by position. *)
Lemma mapTitles_nth :
  forall (h : Host) (arg : option bool) (notes : list TNote) (titles : list string),
    mapTitles h arg notes = Ok titles ->
    List.length titles = List.length notes
    /\ forall i n, nth_error notes i = Some n ->
                   exists title, nth_error titles i = Some title
                                 /\ displayTitleWithRelDate h (Some n) arg = Ok title.
Proof.
  intros h arg notes. induction notes as [|m rest IH]; intros titles H.
  - injection H as H. subst titles. split; [reflexivity|]. intros [|i] n Hn; cbn in Hn; discriminate Hn.
  - cbn [mapTitles] in H.
    destruct (displayTitleWithRelDate h (Some m) arg) as [title|e] eqn:Ht; [|discriminate H].
    destruct (mapTitles h arg rest) as [more|e] eqn:Hm; [|discriminate H].
    injection H as H. subst titles. destruct (IH more eq_refl) as [Hlen Hnth].
    split; [cbn; rewrite Hlen; reflexivity|].
    intros [|i] n Hn.
    + injection Hn as Hn. subst m. exists title. split; [reflexivity | assumption].
    + apply Hnth. exact Hn.
Qed.

Lemma filterBoolean_all :
  forall titles : list string,
    Forall (fun s => s <> "") titles -> filterBoolean titles = titles.
Proof.
  intros titles H. unfold filterBoolean. induction H as [|s rest Hs _ IH]; [reflexivity|].
  cbn. destruct (s =? "") eqn:E.
  - apply String.eqb_eq in E. contradiction.
  - cbn. rewrite IH. reflexivity.
Qed.

(** [s.trimEnd()] drops white space from the end of [s] and nothing
    else. *)
Lemma trimEnd_empty_iff :
  forall s, trimEnd s = "" <-> allWhiteSpace s = true.
Proof.
  induction s as [|c rest IH]; cbn.
  - split; reflexivity.
  - destruct (trimEnd rest) as [|d kept] eqn:E.
    + destruct (isWhiteSpace c); cbn.
      * split; [intros _; apply IH; reflexivity | reflexivity].
      * split; discriminate.
    + split; [discriminate|]. intros H. apply andb_true_iff in H as [_ H].
      apply IH in H. discriminate H.
Qed.


Lemma trimEnd_drops_white :
  forall s, exists ws, s = trimEnd s ++ ws /\ allWhiteSpace ws = true.
Proof.
  induction s as [|c rest IH].
  - exists "". split; reflexivity.
  - destruct IH as (ws & Hs & Hws). cbn.
    destruct (trimEnd rest) as [|d kept] eqn:E.
    + destruct (isWhiteSpace c) eqn:Hc.
      * exists (String c rest). split; [reflexivity|]. cbn. rewrite Hc. cbn.
        apply trimEnd_empty_iff. exact E.
      * exists ws. cbn. rewrite Hs at 1. split; [reflexivity | exact Hws].
    + exists ws. cbn. rewrite Hs at 1. split; [reflexivity | exact Hws].
Qed.


Arguments mapTitles : simpl never.
Arguments filterByTitle : simpl never.
Arguments matchRelativeDates : simpl never.
Arguments relativeNote : simpl never.
Arguments relativeLog : simpl never.
Arguments trimEnd : simpl never.
Arguments filterBoolean : simpl never.
Arguments dateToMatch : simpl never.
Arguments Nat.ltb : simpl never.
Arguments nth_error : simpl never.



Ltac note_steps_in H :=
  repeat (cbn in H; rewrite ?matchRelativeDates_runs in H; case_next_in H).

Ltac skip_relative_log :=
  repeat match goal with
    | H : context [after ?p (relativeLog ?a ?b ++ ?t)%list] |- _ =>
        rewrite (proj1 (relativeLog_only_logs p a b (fun _ _ => eq_refl) t)) in H
    | H : context [calls ?p (relativeLog ?a ?b ++ ?t)%list] |- _ =>
        rewrite (proj1 (proj2 (relativeLog_only_logs p a b (fun _ _ => eq_refl) t))) in H
    | |- context [after ?p (relativeLog ?a ?b ++ ?t)%list] =>
        rewrite (proj1 (relativeLog_only_logs p a b (fun _ _ => eq_refl) t))
    | |- context [calls ?p (relativeLog ?a ?b ++ ?t)%list] =>
        rewrite (proj1 (proj2 (relativeLog_only_logs p a b (fun _ _ => eq_refl) t)))
    | |- context [count ?p (relativeLog ?a ?b ++ ?t)%list] =>
        rewrite (proj2 (proj2 (relativeLog_only_logs p a b (fun _ _ => eq_refl) t)))
    end.

(** The cases of a run of [getNoteFromParamOrUser]. *)
Ltac note_run h purpose titleArg jc t :=
  let r := fresh "r" in
  let Hr := fresh "Hr" in
  remember (getNoteFromParamOrUser h purpose titleArg jc t) as r eqn:Hr;
  unfold getNoteFromParamOrUser in Hr; unfold_steps; note_steps_in Hr;
  subst r; cbn [fst snd] in *; rewrite <- ?app_assoc in *; cbn [app] in *;
  skip_relative_log.



(** X13.  The prompt of [getNoteFromParamOrUser] is 'Select note for new '
    followed by the purpose, and the first entry of the list cannot be
    picked: an answer with index 0 is taken for no answer, the function
    logs "Couldn't get note" and returns null. *)
Theorem X13_first_entry_cannot_be_picked :
  forall (h : Host) (purpose : string) (noteTitleArg : option string)
         (justCalendarNotes : bool) (t : Trace)
         (options : list string) (prompt : string) (chosen : Chosen) (post : Trace),
    after isShowOptions (snd (getNoteFromParamOrUser h purpose noteTitleArg justCalendarNotes t))
    = Some (EvShowOptions options prompt (Ok chosen), post) ->
    prompt = "Select note for new " ++ purpose
    /\ (index chosen = 0 ->
        fst (getNoteFromParamOrUser h purpose noteTitleArg justCalendarNotes t) = Ok None
        /\ post = [EvLogError (from "getNoteFromParamOrUser") "Couldn't get note"]).
Proof.
  intros h purpose titleArg jc t options prompt chosen post Hafter.
  note_run h purpose titleArg jc t.
  all: cbn in Hafter; try discriminate Hafter.
  all: injection Hafter as ? ? ? ?; subst.
  all: split; [reflexivity|].
  all: intros Hzero.
  all: try (split; reflexivity).
  all: match goal with
       | H : (0 <? index _)%nat = true |- _ => apply Nat.ltb_lt in H; lia
       end.
Qed.

Lemma X13_witness :
  fst (getNoteFromParamOrUser (sampleHost NullSettings [noteA; noteB] 0 "") "task" None false [])
  = Ok None.
Proof.
  apply (X13_first_entry_cannot_be_picked (sampleHost NullSettings [noteA; noteB] 0 "")
           "task" None false [] ["Alpha"; "Beta"] "Select note for new task"
           (mkChosen 0 "Alpha")
           [EvLogError (from "getNoteFromParamOrUser") "Couldn't get note"]);
    reflexivity.
Defined.

(** X14.  When the user was prompted and a note is returned, the note
    stands at the picked position of the listing (calendar notes or all
    notes) whose titles, without the empty ones, were shown.  If no title
    is empty, the entry shown at the picked position is the title of the
    returned note. *)
Theorem X14_picked_note_is_at_picked_position :
  forall (h : Host) (purpose : string) (noteTitleArg : option string)
         (justCalendarNotes : bool) (t : Trace)
         (options : list string) (prompt : string) (chosen : Chosen) (post : Trace)
         (n : TNote),
    after isShowOptions (snd (getNoteFromParamOrUser h purpose noteTitleArg justCalendarNotes t))
    = Some (EvShowOptions options prompt (Ok chosen), post) ->
    fst (getNoteFromParamOrUser h purpose noteTitleArg justCalendarNotes t) = Ok (Some n) ->
    exists notes titles,
      In (listing justCalendarNotes notes)
         (snd (getNoteFromParamOrUser h purpose noteTitleArg justCalendarNotes t))
      /\ mapTitles h (Some true) notes = Ok titles
      /\ options = filterBoolean titles
      /\ nth_error notes (index chosen) = Some n
      /\ (Forall (fun s => s <> "") titles ->
          exists title,
            nth_error options (index chosen) = Some title
            /\ displayTitleWithRelDate h (Some n) (Some true) = Ok title).
Proof.
  intros h purpose titleArg jc t options prompt chosen post n Hafter Hnote.
  note_run h purpose titleArg jc t.
  all: cbn in Hafter; try discriminate Hafter; try discriminate Hnote.
  all: injection Hafter as ? ? ? ?; injection Hnote as ?; subst.
  all: match goal with
       | Hm : mapTitles _ (Some true) ?notes = Ok ?titles |- _ => exists notes, titles
       end.
  all: split; [try (apply in_or_app; right); cbn; repeat first [left; reflexivity | right] |].
  all: split; [eassumption|].
  all: split; [reflexivity|].
  all: split; [assumption|].
  all: intros Hall; rewrite (filterBoolean_all _ Hall).
  all: match goal with
       | Hm : mapTitles _ _ ?notes = Ok _, Hn : nth_error ?notes _ = Some _ |- _ =>
           exact (proj2 (mapTitles_nth _ _ _ _ Hm) _ _ Hn)
       end.
Qed.

Lemma X14_witness :
  nth_error [noteA; noteB] 1 = Some noteB
  /\ exists notes titles,
       In (listing false notes)
          (snd (getNoteFromParamOrUser (sampleHost NullSettings [noteA; noteB] 1 "")
                  "task" None false []))
       /\ mapTitles (sampleHost NullSettings [noteA; noteB] 1 "") (Some true) notes = Ok titles
       /\ ["Alpha"; "Beta"] = filterBoolean titles
       /\ nth_error notes (index (mkChosen 1 "Beta")) = Some noteB
       /\ (Forall (fun s => s <> "") titles ->
           exists title,
             nth_error ["Alpha"; "Beta"] (index (mkChosen 1 "Beta")) = Some title
             /\ displayTitleWithRelDate (sampleHost NullSettings [noteA; noteB] 1 "")
                  (Some noteB) (Some true) = Ok title).
Proof.
  split; [reflexivity|].
  apply (X14_picked_note_is_at_picked_position
           (sampleHost NullSettings [noteA; noteB] 1 "") "task" None false []
           ["Alpha"; "Beta"] "Select note for new task" (mkChosen 1 "Beta")
           [EvLogDebug (from "getNoteFromParamOrUser") "-> note 'Beta'"] noteB);
    reflexivity.
Defined.

(** X15.  When [getNoteFromParamOrUser] returns a note without having
    prompted, a title was given and the note is the one that the relative
    date of that name stands for, or else, no relative date having that
    name and a note, the first note of the listing whose display title is
    the title (without its hyphens, for a YYYY-MM-DD title).  A note found
    through a relative date is returned without listing any notes. *)
Theorem X15_note_found_by_title :
  forall (h : Host) (purpose : string) (noteTitleArg : option string)
         (justCalendarNotes : bool) (t : Trace) (n : TNote),
    calls isShowOptions (snd (getNoteFromParamOrUser h purpose noteTitleArg justCalendarNotes t))
    = false ->
    fst (getNoteFromParamOrUser h purpose noteTitleArg justCalendarNotes t) = Ok (Some n) ->
    Js.nullish noteTitleArg "" <> ""
    /\ ((relativeNote (Js.nullish noteTitleArg "") (relativeDates h) None = Some n
         /\ calls isListing
              (snd (getNoteFromParamOrUser h purpose noteTitleArg justCalendarNotes t)) = false)
        \/ (relativeNote (Js.nullish noteTitleArg "") (relativeDates h) None = None
            /\ exists earlier later,
                 In (EvAllNotesSortedByChanged (Ok (earlier ++ n :: later)%list))
                    (snd (getNoteFromParamOrUser h purpose noteTitleArg justCalendarNotes t))
                 /\ displayTitleWithRelDate h (Some n) None
                    = Ok (dateToMatch h (Js.nullish noteTitleArg ""))
                 /\ Forall (fun m => displayTitleWithRelDate h (Some m) None
                                     <> Ok (dateToMatch h (Js.nullish noteTitleArg "")))
                      earlier)).
Proof.
  intros h purpose titleArg jc t n Hprompt Hnote.
  note_run h purpose titleArg jc t.
  all: try discriminate Hnote; cbn in Hprompt; try discriminate Hprompt.
  all: injection Hnote as ?; subst.
  all: match goal with
       | H : negb (_ =? "") = true |- _ =>
           apply negb_true_iff, String.eqb_neq in H; split; [exact H|]
       end.
  all: try (left; split; reflexivity).
  all: right; split; [reflexivity|].
  all: match goal with
       | H : filterByTitle _ _ _ = Ok (_ :: _) |- _ =>
           destruct (filterByTitle_first _ _ _ _ _ H) as (earlier & later & Hn & Ht & Hall)
       end.
  all: exists earlier, later; subst.
  all: split; [try (apply in_or_app; right); cbn; repeat first [left; reflexivity | right] |].
  all: split; assumption.
Qed.

Lemma X15_witness :
  Js.nullish (Some "Beta") "" <> ""
  /\ ((relativeNote (Js.nullish (Some "Beta") "")
         (relativeDates (sampleHost NullSettings [noteA; noteB] 0 "")) None = Some noteB
       /\ calls isListing
            (snd (getNoteFromParamOrUser (sampleHost NullSettings [noteA; noteB] 0 "")
                    "task" (Some "Beta") false [])) = false)
      \/ (relativeNote (Js.nullish (Some "Beta") "")
            (relativeDates (sampleHost NullSettings [noteA; noteB] 0 "")) None = None
          /\ exists earlier later,
               In (EvAllNotesSortedByChanged (Ok (earlier ++ noteB :: later)%list))
                  (snd (getNoteFromParamOrUser (sampleHost NullSettings [noteA; noteB] 0 "")
                          "task" (Some "Beta") false []))
               /\ displayTitleWithRelDate (sampleHost NullSettings [noteA; noteB] 0 "")
                    (Some noteB) None
                  = Ok (dateToMatch (sampleHost NullSettings [noteA; noteB] 0 "")
                          (Js.nullish (Some "Beta") ""))
               /\ Forall (fun m => displayTitleWithRelDate
                                     (sampleHost NullSettings [noteA; noteB] 0 "") (Some m) None
                                   <> Ok (dateToMatch
                                            (sampleHost NullSettings [noteA; noteB] 0 "")
                                            (Js.nullish (Some "Beta") "")))
                    earlier)).
Proof.
  apply (X15_note_found_by_title (sampleHost NullSettings [noteA; noteB] 0 "")
           "task" (Some "Beta") false [] noteB); reflexivity.
Defined.

(** The cases of a run of [taskToNote] and of [taskToCalendarNote]. *)
Ltac task_run f :=
  let r := fresh "r" in
  let Hr := fresh "Hr" in
  match goal with
  | |- context [f ?h ?p ?a ?b ?t] =>
      remember (f h p a b t) as r eqn:Hr;
      unfold f, getQuickCaptureSettings in Hr; unfold_steps; step_in Hr;
      subst r; cbn [fst snd]
  end.

Ltac forall_calls :=
  repeat (apply Forall_cons; [cbn; try exact I|]); try apply Forall_nil.

Ltac by_tests :=
  repeat match goal with
    | H : negb ?x = _ |- context [negb ?x] => rewrite H
    end.

Ltac write_ok :=
  unfold taskTextOf; by_tests; cbn;
  repeat split; eexists; eexists; repeat split; reflexivity.

(** X16.  [prependTaskToNote] and [appendTaskToNote] look a given title
    up among the project notes, case-insensitively and not in all
    folders.  When the lookup answers null or an empty list, the command
    logs that it could not find the note and stops: nothing is asked and
    nothing is written. *)
Theorem X16_unknown_title_stops :
  forall (h : Host) (p : Position) (noteTitleArg textArg : option string) (t : Trace)
         (title : string) (caseInsensitive searchAllFolders : bool)
         (found : option (list TNote)) (post : Trace),
    after isProjectNoteByTitle (snd (taskToNote h p noteTitleArg textArg t))
    = Some (EvProjectNoteByTitle title caseInsensitive searchAllFolders (Ok found), post) ->
    (title = Js.nullish noteTitleArg "" /\ caseInsensitive = true /\ searchAllFolders = false)
    /\ (found = None \/ found = Some [] ->
        post = [EvLogError (from (functionProject p))
                  ("- Couldn't find note '" ++ title ++ "' from x-callback args. Stopping.")]
        /\ fst (taskToNote h p noteTitleArg textArg t) = Ok tt
        /\ calls isWrite (snd (taskToNote h p noteTitleArg textArg t)) = false
        /\ calls isShowInput (snd (taskToNote h p noteTitleArg textArg t)) = false
        /\ calls isShowOptions (snd (taskToNote h p noteTitleArg textArg t)) = false).
Proof.
  intros h p titleArg textArg t title ci sa found post Hafter.
  task_run taskToNote.
  all: cbn in Hafter; try discriminate Hafter.
  all: injection Hafter as ? ? ? ? ?; subst.
  all: split; [repeat split|].
  all: intros [H|H]; try discriminate H; repeat split; reflexivity.
Qed.

Lemma X16_witness :
  fst (taskToNote (sampleHost (LoadedSettings sampleSettings) [noteA] 0 "")
         Append (Some "Gamma") (Some "buy milk") []) = Ok tt
  /\ calls isWrite
       (snd (taskToNote (sampleHost (LoadedSettings sampleSettings) [noteA] 0 "")
               Append (Some "Gamma") (Some "buy milk") [])) = false.
Proof.
  pose proof (X16_unknown_title_stops
                (sampleHost (LoadedSettings sampleSettings) [noteA] 0 "")
                Append (Some "Gamma") (Some "buy milk") [] "Gamma" true false (Some [])
                [EvLogError (from "appendTaskToNote")
                   "- Couldn't find note 'Gamma' from x-callback args. Stopping."]
                eq_refl) as [_ H].
  destruct (H (or_intror eq_refl)) as (_ & Hok & Hw & _).
  split; assumption.
Defined.

(** The facts about the writes of [taskToNote], by one case analysis of
    its runs. *)
Lemma taskToNote_writes :
  forall (h : Host) (p : Position) (noteTitleArg textArg : option string) (t : Trace),
    Forall (writeOk p textArg (snd (taskToNote h p noteTitleArg textArg t)))
      (snd (taskToNote h p noteTitleArg textArg t))
    /\ count isWrite (snd (taskToNote h p noteTitleArg textArg t)) <= 1
    /\ (forall position note paraText paraType post,
          after isWrite (snd (taskToNote h p noteTitleArg textArg t))
          = Some (EvSmartPara position note paraText paraType (Ok tt), post) ->
          post = [] /\ fst (taskToNote h p noteTitleArg textArg t) = Ok tt).
Proof.
  intros h p titleArg textArg t.
  task_run taskToNote.
  all: split; [forall_calls; write_ok|].
  all: split; [cbn; repeat constructor|].
  all: intros ? ? ? ? ? Hafter; cbn in Hafter; try discriminate Hafter.
  all: injection Hafter as ? ? ? ? ?; subst; split; reflexivity.
Qed.

(** X17.  [prependTaskToNote] and [appendTaskToNote] write at most once,
    with the helper of their position, an open task whose text is the
    given text (or, none being given, what the user typed) followed by a
    space and the configured suffix, with white space dropped from its
    end; a write that succeeds is the last call of the run. *)
Theorem X17_one_write_of_the_task :
  forall (h : Host) (p : Position) (noteTitleArg textArg : option string) (t : Trace),
    Forall (writeOk p textArg (snd (taskToNote h p noteTitleArg textArg t)))
      (snd (taskToNote h p noteTitleArg textArg t))
    /\ count isWrite (snd (taskToNote h p noteTitleArg textArg t)) <= 1
    /\ (forall position note paraText paraType post,
          after isWrite (snd (taskToNote h p noteTitleArg textArg t))
          = Some (EvSmartPara position note paraText paraType (Ok tt), post) ->
          post = [] /\ fst (taskToNote h p noteTitleArg textArg t) = Ok tt).
Proof.
  exact taskToNote_writes.
Qed.

Lemma X17_witness :
  @nil Event = []
  /\ fst (taskToNote (sampleHost (LoadedSettings sampleSettings) [noteA; noteB] 1 "buy milk")
            Append None None []) = Ok tt.
Proof.
  apply (proj2 (proj2 (X17_one_write_of_the_task
                         (sampleHost (LoadedSettings sampleSettings) [noteA; noteB] 1 "buy milk")
                         Append None None []))
           Append (Some noteB) "buy milk @todo" "open" []).
  reflexivity.
Defined.

(** X18.  The note that [prependTaskToNote] and [appendTaskToNote] write
    to: with a title, the first of the notes found by that title; without
    one, the note at the picked position of the listing of project notes
    (undefined when there is none at that position). *)
Theorem X18_target_note :
  forall (h : Host) (p : Position) (noteTitleArg textArg : option string) (t : Trace)
         (position : Position) (note : option TNote) (paraText paraType : string)
         (answer : Result unit) (post : Trace),
    after isWrite (snd (taskToNote h p noteTitleArg textArg t))
    = Some (EvSmartPara position note paraText paraType answer, post) ->
    (Js.nullish noteTitleArg "" <> "" ->
     exists first others,
       foundByTitle (snd (taskToNote h p noteTitleArg textArg t)) = Some (first :: others)
       /\ note = Some first
       /\ calls isShowOptions (snd (taskToNote h p noteTitleArg textArg t)) = false)
    /\ (Js.nullish noteTitleArg "" = "" ->
        exists notes chosen,
          listedProjectNotes (snd (taskToNote h p noteTitleArg textArg t)) = Some notes
          /\ pickedOf (snd (taskToNote h p noteTitleArg textArg t)) = Some chosen
          /\ note = nth_error notes (index chosen)).
Proof.
  intros h p titleArg textArg t position note paraText paraType answer post Hafter.
  task_run taskToNote.
  all: cbn in Hafter; try discriminate Hafter.
  all: injection Hafter as ? ? ? ? ? ?; subst.
  all: repeat match goal with
         | H : negb (_ =? "") = true |- _ => apply negb_true_iff, String.eqb_neq in H
         | H : negb (_ =? "") = false |- _ => apply negb_false_iff, String.eqb_eq in H
         end.
  all: split; intros Ht; try contradiction; try congruence.
  all: eexists; eexists; repeat split; reflexivity.
Qed.

Lemma X18_witness :
  exists notes chosen,
    listedProjectNotes
      (snd (taskToNote (sampleHost (LoadedSettings sampleSettings) [noteA; noteB] 1 "buy milk")
              Append None None [])) = Some notes
    /\ pickedOf
         (snd (taskToNote (sampleHost (LoadedSettings sampleSettings) [noteA; noteB] 1 "buy milk")
                 Append None None [])) = Some chosen
    /\ Some noteB = nth_error notes (index chosen).
Proof.
  apply (proj2 (X18_target_note
                  (sampleHost (LoadedSettings sampleSettings) [noteA; noteB] 1 "buy milk")
                  Append None None [] Append (Some noteB) "buy milk @todo" "open" (Ok tt) []
                  eq_refl)).
  reflexivity.
Defined.
Ltac test_facts :=
  repeat match goal with
    | H : negb (_ =? "") = true |- _ => apply negb_true_iff, String.eqb_neq in H
    | H : negb (_ =? "") = false |- _ => apply negb_false_iff, String.eqb_eq in H
    end.

(** The facts about [taskToCalendarNote], by one case analysis of its
    runs. *)
Lemma taskToCalendarNote_runs :
  forall (h : Host) (p : Position) (dateArg textArg : option string) (t : Trace),
    (loadedSettings (snd (taskToCalendarNote h p dateArg textArg t)) = None ->
     calls isWrite (snd (taskToCalendarNote h p dateArg textArg t)) = false
     /\ calls isShowMessage (snd (taskToCalendarNote h p dateArg textArg t)) = true)
    /\ (forall dateStr answer post,
          Js.nullish dateArg "" <> "" ->
          after isCalendarNoteByDateString (snd (taskToCalendarNote h p dateArg textArg t))
          = Some (EvCalendarNoteByDateString dateStr answer, post) ->
          dateStr = dateToMatch h (Js.nullish dateArg "")
          /\ (forall n, answer = Ok (Some n) ->
                calls isShowOptions (snd (taskToCalendarNote h p dateArg textArg t)) = false
                /\ calls isListing (snd (taskToCalendarNote h p dateArg textArg t)) = false
                /\ count isCalendarNoteByDateString
                     (snd (taskToCalendarNote h p dateArg textArg t)) = 1
                /\ Forall (writesTo n) (snd (taskToCalendarNote h p dateArg textArg t))))
    /\ (forall options prompt chosen post,
          after isShowOptions (snd (taskToCalendarNote h p dateArg textArg t))
          = Some (EvShowOptions options prompt (Ok chosen), post) ->
          prompt = "Select calendar note for new todo"
          /\ exists notes,
               listedCalendarNotes (snd (taskToCalendarNote h p dateArg textArg t)) = Some notes
               /\ mapTitles h (Some true) notes = Ok options
               /\ (nth_error notes (index chosen) = None ->
                   calls isCalendarNoteByDateString post = false
                   /\ calls isWrite (snd (taskToCalendarNote h p dateArg textArg t)) = false
                   /\ calls isShowMessage post = true)
               /\ (forall picked dateStr n post',
                     nth_error notes (index chosen) = Some picked ->
                     after isCalendarNoteByDateString post
                     = Some (EvCalendarNoteByDateString dateStr (Ok (Some n)), post') ->
                     getDateStringFromCalendarFilename h (filename picked) = Ok dateStr
                     /\ Forall (writesTo n) (snd (taskToCalendarNote h p dateArg textArg t))))
    /\ (forall options prompt chosen post dateStr post',
          after isShowOptions (snd (taskToCalendarNote h p dateArg textArg t))
          = Some (EvShowOptions options prompt (Ok chosen), post) ->
          after isCalendarNoteByDateString post
          = Some (EvCalendarNoteByDateString dateStr (Ok None), post') ->
          post' = [EvLogError (from (functionCalendar p))
                     (match p with
                      | Prepend => "- Can't get calendar note " ++ Js.nullish dateArg ""
                      | Append => "- Can't get calendar note for " ++ dateStr
                      end)]
          /\ calls isWrite (snd (taskToCalendarNote h p dateArg textArg t)) = false
          /\ fst (taskToCalendarNote h p dateArg textArg t) = Ok tt)
    /\ (Forall (writeOk p textArg (snd (taskToCalendarNote h p dateArg textArg t)))
          (snd (taskToCalendarNote h p dateArg textArg t))
        /\ count isWrite (snd (taskToCalendarNote h p dateArg textArg t)) <= 1
        /\ count isShowInput (snd (taskToCalendarNote h p dateArg textArg t)) <= 1
        /\ (calls isShowInput (snd (taskToCalendarNote h p dateArg textArg t)) = true ->
            Js.nullish textArg "" = "")).
Proof.
  intros h p dateArg textArg t.
  task_run taskToCalendarNote.
  all: split;
    [ intros H; cbn in H; try discriminate H; split; reflexivity |].
  all: split;
    [ intros dateStr answer post Hdate Hafter;
      test_facts; try contradiction;
      cbn in Hafter; try discriminate Hafter;
      injection Hafter as ? ? ?; subst;
      (split; [reflexivity|]);
      intros ? Hn; try discriminate Hn; injection Hn as ?; subst;
      repeat split; try reflexivity;
      forall_calls; reflexivity |].
  all: split;
    [ intros options prompt chosen post Hafter;
      cbn in Hafter; try discriminate Hafter;
      injection Hafter as ? ? ? ?; subst;
      (split; [reflexivity|]);
      eexists; (split; [reflexivity|]);
      (split; [assumption|]);
      (split; [intros Hnone; try congruence; repeat split; reflexivity|]);
      intros picked dateStr n post' Hpicked Hlookup;
      cbn in Hlookup; try discriminate Hlookup; try congruence;
      injection Hlookup as ? ? ?; subst;
      (split; [congruence|]);
      forall_calls; reflexivity |].
  all: split;
    [ intros options prompt chosen post dateStr post' Hafter Hlookup;
      cbn in Hafter; try discriminate Hafter;
      injection Hafter as ? ? ? ?; subst;
      cbn in Hlookup; try discriminate Hlookup;
      injection Hlookup as ? ?; subst;
      repeat split; reflexivity |].
  all: split; [forall_calls; write_ok|].
  all: split; [cbn; repeat constructor|].
  all: split; [cbn; repeat constructor|].
  all: test_facts; intros H; cbn in H; try discriminate H; assumption.
Qed.

(** X19.  Without settings (the file is null or empty, or loading it
    throws) [prependTaskToNote], [appendTaskToNote],
    [prependTaskToCalendarNote] and [appendTaskToCalendarNote] write
    nothing, and a dialog has been opened. *)
Theorem X19_no_settings_no_write :
  forall (h : Host) (p : Position) (titleOrDateArg textArg : option string) (t : Trace),
    (loadedSettings (snd (taskToNote h p titleOrDateArg textArg t)) = None ->
     calls isWrite (snd (taskToNote h p titleOrDateArg textArg t)) = false
     /\ calls isShowMessage (snd (taskToNote h p titleOrDateArg textArg t)) = true)
    /\ (loadedSettings (snd (taskToCalendarNote h p titleOrDateArg textArg t)) = None ->
        calls isWrite (snd (taskToCalendarNote h p titleOrDateArg textArg t)) = false
        /\ calls isShowMessage (snd (taskToCalendarNote h p titleOrDateArg textArg t)) = true).
Proof.
  intros h p arg textArg t. split.
  - task_run taskToNote.
    all: intros H; cbn in H; try discriminate H; split; reflexivity.
  - apply (taskToCalendarNote_runs h p arg textArg t).
Qed.

Lemma X19_witness :
  calls isWrite
    (snd (taskToNote (sampleHost EmptySettings [noteA] 0 "") Prepend
            (Some "Alpha") (Some "buy milk") [])) = false
  /\ calls isShowMessage
       (snd (taskToNote (sampleHost EmptySettings [noteA] 0 "") Prepend
               (Some "Alpha") (Some "buy milk") [])) = true.
Proof.
  apply (X19_no_settings_no_write (sampleHost EmptySettings [noteA] 0 "") Prepend
           (Some "Alpha") (Some "buy milk") []).
  reflexivity.
Defined.

(** X20.  [prependTaskToCalendarNote] and [appendTaskToCalendarNote],
    given a date: the calendar note is looked up by the date without its
    hyphens (for a YYYY-MM-DD date) or as given; when the lookup finds a
    note, no list is shown, no second lookup is made and every write goes
    to that note. *)
Theorem X20_calendar_note_by_date :
  forall (h : Host) (p : Position) (dateArg textArg : option string) (t : Trace)
         (dateStr : string) (answer : Result (option TNote)) (post : Trace),
    Js.nullish dateArg "" <> "" ->
    after isCalendarNoteByDateString (snd (taskToCalendarNote h p dateArg textArg t))
    = Some (EvCalendarNoteByDateString dateStr answer, post) ->
    dateStr = dateToMatch h (Js.nullish dateArg "")
    /\ (forall n, answer = Ok (Some n) ->
          calls isShowOptions (snd (taskToCalendarNote h p dateArg textArg t)) = false
          /\ calls isListing (snd (taskToCalendarNote h p dateArg textArg t)) = false
          /\ count isCalendarNoteByDateString
               (snd (taskToCalendarNote h p dateArg textArg t)) = 1
          /\ Forall (writesTo n) (snd (taskToCalendarNote h p dateArg textArg t))).
Proof.
  intros h p dateArg textArg t.
  apply (taskToCalendarNote_runs h p dateArg textArg t).
Qed.

Lemma X20_witness :
  "20240301"
  = dateToMatch (sampleHost (LoadedSettings sampleSettings) [note20240301] 0 "")
      (Js.nullish (Some "2024-03-01") "")
  /\ Forall (writesTo note20240301)
       (snd (taskToCalendarNote (sampleHost (LoadedSettings sampleSettings) [note20240301] 0 "")
               Append (Some "2024-03-01") (Some "buy milk") [])).
Proof.
  destruct (X20_calendar_note_by_date
              (sampleHost (LoadedSettings sampleSettings) [note20240301] 0 "")
              Append (Some "2024-03-01") (Some "buy milk") [] "20240301"
              (Ok (Some note20240301))
              [EvLogDebug (from "appendTaskToCalendarNote")
                 "- from dateArg, daily note = '20240301'";
               EvLogDebug (from "appendTaskToCalendarNote")
                 "- Appending task 'buy milk @todo' to 20240301";
               EvSmartPara Append (Some note20240301) "buy milk @todo" "open" (Ok tt)])
    as [Hdate Hfound]; [discriminate | reflexivity |].
  split; [exact Hdate | apply (Hfound note20240301 eq_refl)].
Defined.

(** X21.  [prependTaskToCalendarNote] and [appendTaskToCalendarNote],
    when they prompt: the entries shown are the titles of the listed
    calendar notes, one for each note and in their order; the note at the
    picked position gives, by its filename, the date of the lookup that
    follows, and every write goes to the note which that lookup finds.
    When there is no note at the picked position, no lookup and no write
    follow and a dialog is opened. *)
Theorem X21_calendar_note_picked :
  forall (h : Host) (p : Position) (dateArg textArg : option string) (t : Trace)
         (options : list string) (prompt : string) (chosen : Chosen) (post : Trace),
    after isShowOptions (snd (taskToCalendarNote h p dateArg textArg t))
    = Some (EvShowOptions options prompt (Ok chosen), post) ->
    prompt = "Select calendar note for new todo"
    /\ exists notes,
         listedCalendarNotes (snd (taskToCalendarNote h p dateArg textArg t)) = Some notes
         /\ mapTitles h (Some true) notes = Ok options
         /\ (nth_error notes (index chosen) = None ->
             calls isCalendarNoteByDateString post = false
             /\ calls isWrite (snd (taskToCalendarNote h p dateArg textArg t)) = false
             /\ calls isShowMessage post = true)
         /\ (forall picked dateStr n post',
               nth_error notes (index chosen) = Some picked ->
               after isCalendarNoteByDateString post
               = Some (EvCalendarNoteByDateString dateStr (Ok (Some n)), post') ->
               getDateStringFromCalendarFilename h (filename picked) = Ok dateStr
               /\ Forall (writesTo n) (snd (taskToCalendarNote h p dateArg textArg t))).
Proof.
  intros h p dateArg textArg t.
  apply (taskToCalendarNote_runs h p dateArg textArg t).
Qed.

Lemma X21_witness :
  "Select calendar note for new todo" = "Select calendar note for new todo"
  /\ exists notes,
       listedCalendarNotes
         (snd (taskToCalendarNote
                 (sampleHost (LoadedSettings sampleSettings) [noteA; note20240301] 1 "")
                 Prepend None (Some "buy milk") [])) = Some notes
       /\ mapTitles (sampleHost (LoadedSettings sampleSettings) [noteA; note20240301] 1 "")
            (Some true) notes = Ok ["Alpha"; "20240301"]
       /\ (nth_error notes (index (mkChosen 1 "20240301")) = None ->
           calls isCalendarNoteByDateString
             [EvCalendarNoteByDateString "20240301" (Ok (Some note20240301));
              EvLogDebug (from "prependTaskToCalendarNote")
                "- Prepending task 'buy milk @todo' to '20240301'";
              EvSmartPara Prepend (Some note20240301) "buy milk @todo" "open" (Ok tt)] = false
           /\ calls isWrite
                (snd (taskToCalendarNote
                        (sampleHost (LoadedSettings sampleSettings) [noteA; note20240301] 1 "")
                        Prepend None (Some "buy milk") [])) = false
           /\ calls isShowMessage
                [EvCalendarNoteByDateString "20240301" (Ok (Some note20240301));
                 EvLogDebug (from "prependTaskToCalendarNote")
                   "- Prepending task 'buy milk @todo' to '20240301'";
                 EvSmartPara Prepend (Some note20240301) "buy milk @todo" "open" (Ok tt)] = true)
       /\ (forall picked dateStr n post',
             nth_error notes (index (mkChosen 1 "20240301")) = Some picked ->
             after isCalendarNoteByDateString
               [EvCalendarNoteByDateString "20240301" (Ok (Some note20240301));
                EvLogDebug (from "prependTaskToCalendarNote")
                  "- Prepending task 'buy milk @todo' to '20240301'";
                EvSmartPara Prepend (Some note20240301) "buy milk @todo" "open" (Ok tt)]
             = Some (EvCalendarNoteByDateString dateStr (Ok (Some n)), post') ->
             getDateStringFromCalendarFilename
               (sampleHost (LoadedSettings sampleSettings) [noteA; note20240301] 1 "")
               (filename picked) = Ok dateStr
             /\ Forall (writesTo n)
                  (snd (taskToCalendarNote
                          (sampleHost (LoadedSettings sampleSettings) [noteA; note20240301] 1 "")
                          Prepend None (Some "buy milk") []))).
Proof.
  apply (X21_calendar_note_picked
           (sampleHost (LoadedSettings sampleSettings) [noteA; note20240301] 1 "")
           Prepend None (Some "buy milk") [] ["Alpha"; "20240301"]
           "Select calendar note for new todo" (mkChosen 1 "20240301")).
  reflexivity.
Defined.

(** X22.  [prependTaskToCalendarNote] and [appendTaskToCalendarNote]:
    when the lookup that follows the prompt finds no note, the run ends
    with an error line, which names the date argument in the one and the
    date of the picked note in the other, and nothing is written. *)
Theorem X22_calendar_note_not_found :
  forall (h : Host) (p : Position) (dateArg textArg : option string) (t : Trace)
         (options : list string) (prompt : string) (chosen : Chosen) (post : Trace)
         (dateStr : string) (post' : Trace),
    after isShowOptions (snd (taskToCalendarNote h p dateArg textArg t))
    = Some (EvShowOptions options prompt (Ok chosen), post) ->
    after isCalendarNoteByDateString post
    = Some (EvCalendarNoteByDateString dateStr (Ok None), post') ->
    post' = [EvLogError (from (functionCalendar p))
               (match p with
                | Prepend => "- Can't get calendar note " ++ Js.nullish dateArg ""
                | Append => "- Can't get calendar note for " ++ dateStr
                end)]
    /\ calls isWrite (snd (taskToCalendarNote h p dateArg textArg t)) = false
    /\ fst (taskToCalendarNote h p dateArg textArg t) = Ok tt.
Proof.
  intros h p dateArg textArg t.
  apply (taskToCalendarNote_runs h p dateArg textArg t).
Qed.

(** X23.  [prependTaskToCalendarNote] and [appendTaskToCalendarNote]
    write at most once, with the helper of their position, an open task
    whose text is the given text (or what the user typed) followed by a
    space and the configured suffix, with white space dropped from its
    end; the user is asked for the text at most once, and only when none
    is given. *)
Theorem X23_one_write_to_the_calendar_note :
  forall (h : Host) (p : Position) (dateArg textArg : option string) (t : Trace),
    Forall (writeOk p textArg (snd (taskToCalendarNote h p dateArg textArg t)))
      (snd (taskToCalendarNote h p dateArg textArg t))
    /\ count isWrite (snd (taskToCalendarNote h p dateArg textArg t)) <= 1
    /\ count isShowInput (snd (taskToCalendarNote h p dateArg textArg t)) <= 1
    /\ (calls isShowInput (snd (taskToCalendarNote h p dateArg textArg t)) = true ->
        Js.nullish textArg "" = "").
Proof.
  intros h p dateArg textArg t.
  apply (taskToCalendarNote_runs h p dateArg textArg t).
Qed.

Lemma X22_witness :
  calls isWrite
    (snd (taskToCalendarNote
            (withoutCalendarNotes (sampleHost (LoadedSettings sampleSettings) [noteA] 0 ""))
            Append None (Some "buy milk") [])) = false
  /\ fst (taskToCalendarNote
            (withoutCalendarNotes (sampleHost (LoadedSettings sampleSettings) [noteA] 0 ""))
            Append None (Some "buy milk") []) = Ok tt.
Proof.
  apply (X22_calendar_note_not_found
           (withoutCalendarNotes (sampleHost (LoadedSettings sampleSettings) [noteA] 0 ""))
           Append None (Some "buy milk") [] ["Alpha"] "Select calendar note for new todo"
           (mkChosen 0 "Alpha")
           [EvCalendarNoteByDateString "Alpha" (Ok None);
            EvLogError (from "appendTaskToCalendarNote") "- Can't get calendar note for Alpha"]
           "Alpha"
           [EvLogError (from "appendTaskToCalendarNote") "- Can't get calendar note for Alpha"]);
    reflexivity.
Defined.

Lemma X23_witness :
  Js.nullish None "" = "".
Proof.
  apply (X23_one_write_to_the_calendar_note
           (sampleHost (LoadedSettings sampleSettings) [note20240301] 0 "buy milk")
           Append (Some "20240301") None []).
  reflexivity.
Defined.



(** *** The heading commands *)

Lemma calls_append :
  forall (p : Event -> bool) (l l' : Trace),
    calls p (l ++ l')%list = calls p l || calls p l'.
Proof. intros p l l'. apply existsb_app. Qed.

Lemma after_append :
  forall (p : Event -> bool) (l l' : Trace),
    calls p l = false -> after p (l ++ l')%list = after p l'.
Proof.
  intros p l l'. induction l as [|e rest IH]; cbn; intros H; [reflexivity|].
  apply orb_false_iff in H as [He Hrest]. rewrite He. exact (IH Hrest).
Qed.

Lemma count_append :
  forall (p : Event -> bool) (l l' : Trace),
    count p (l ++ l')%list = count p l + count p l'.
Proof. intros p l l'. unfold count. rewrite filter_app. apply length_app. Qed.

Lemma count_none :
  forall (p : Event -> bool) (l : Trace), calls p l = false -> count p l = 0.
Proof.
  intros p l. unfold count. induction l as [|e rest IH]; cbn; intros H; [reflexivity|].
  apply orb_false_iff in H as [He Hrest]. rewrite He. exact (IH Hrest).
Qed.

Lemma relativeLog_noteCalls :
  forall (noteTitleArg : string) (rds : list RelativeDate),
    Forall (fun e => isNoteCall e = true) (relativeLog noteTitleArg rds).
Proof.
  intros title rds. unfold relativeLog. apply Forall_forall. intros e He.
  apply in_map_iff in He as (rd & <- & _). reflexivity.
Qed.

(** What a call of [getNoteFromParamOrUser] adds to a run. *)
Lemma getNoteFromParamOrUser_calls :
  forall (h : Host) (purpose : string) (noteTitleArg : option string)
         (justCalendarNotes : bool) (t : Trace),
    (forall e, fst (getNoteFromParamOrUser h purpose noteTitleArg justCalendarNotes t) <> Err e)
    /\ Forall (fun e => isNoteCall e = true)
         (snd (getNoteFromParamOrUser h purpose noteTitleArg justCalendarNotes t))
    /\ (fst (getNoteFromParamOrUser h purpose noteTitleArg justCalendarNotes t) = Ok None ->
        exists msg,
          after isNoteFailure
            (snd (getNoteFromParamOrUser h purpose noteTitleArg justCalendarNotes t))
          = Some (EvLogError (from "getNoteFromParamOrUser") msg, []))
    /\ (forall n,
          fst (getNoteFromParamOrUser h purpose noteTitleArg justCalendarNotes t) = Ok (Some n) ->
          calls isNoteFailure
            (snd (getNoteFromParamOrUser h purpose noteTitleArg justCalendarNotes t)) = false).
Proof.
  intros h purpose titleArg jc t.
  note_run h purpose titleArg jc t.
  all: split; [intros ? H; discriminate H|].
  all: split; [try (apply Forall_app; split; [apply relativeLog_noteCalls|]);
               forall_calls; reflexivity|].
  all: split; [intros H; try discriminate H; eexists; skip_relative_log; reflexivity|].
  all: intros ? H; try discriminate H; skip_relative_log; reflexivity.
Qed.

Lemma noteCalls_quiet :
  forall (p : Event -> bool) (l : Trace),
    (forall e, isNoteCall e = true -> p e = false) ->
    Forall (fun e => isNoteCall e = true) l -> calls p l = false.
Proof.
  intros p l Hp H. induction H as [|e rest He _ IH]; [reflexivity|].
  cbn. rewrite (Hp e He). exact IH.
Qed.

Arguments startingHeading : simpl never.

(** The cases of a run of a heading command; the call of
    [getNoteFromParamOrUser] is not opened, what is known of it is put
    among the hypotheses. *)
Ltac note_facts :=
  match goal with
  | Hc : getNoteFromParamOrUser ?h ?pu ?ti ?jc ?hist = (_, _) |- _ =>
      let Hn := fresh "Hnote" in
      let Hreject := fresh "Hreject" in
      let Hquiet := fresh "Hquiet" in
      let Hnull := fresh "Hnull" in
      let Hsome := fresh "Hsome" in
      pose proof (getNoteFromParamOrUser_calls h pu ti jc hist) as Hn;
      rewrite Hc in Hn; cbn [fst snd] in Hn;
      rewrite <- ?app_assoc in Hc; cbn [app] in Hc;
      destruct Hn as (Hreject & Hquiet & Hnull & Hsome)
  | _ => idtac
  end.

Ltac never_rejects :=
  match goal with
  | H : forall e, Err ?x <> Err e |- _ => exfalso; exact (H x eq_refl)
  end.

(** The calls of [getNoteFromParamOrUser] are no writes, no input boxes,
    no heading prompts and no loading of settings. *)
Lemma noteCalls_are_quiet :
  forall l : Trace,
    Forall (fun e => isNoteCall e = true) l ->
    calls isHeadingWrite l = false /\ calls isBelowHeadingWrite l = false
    /\ calls isShowInput l = false /\ calls isChooseHeading l = false
    /\ calls isLoadJSON l = false.
Proof.
  intros l H.
  repeat split; apply noteCalls_quiet; try exact H;
    intros [] He; first [reflexivity | discriminate He].
Qed.

Lemma noteCalls_headingWriteOk :
  forall (h : Host) (k : HeadingCommand) (noteTitleArg headingArg textArg : option string)
         (t whole l : Trace),
    Forall (fun e => isNoteCall e = true) l ->
    Forall (headingWriteOk h k noteTitleArg headingArg textArg t whole) l.
Proof.
  intros h k a b c t whole l H. eapply Forall_impl; [|exact H].
  intros [] He; first [exact I | discriminate He].
Qed.

Ltac quiet :=
  match goal with
  | H : Forall (fun e => isNoteCall e = true) ?evs |- _ =>
      destruct (noteCalls_are_quiet evs H) as (? & ? & ? & ? & ?)
  | _ => idtac
  end.

Ltac heading_run :=
  let r := fresh "r" in
  let Hr := fresh "Hr" in
  match goal with
  | |- context [toNoteHeading ?h ?k ?a ?b ?c ?t] =>
      remember (toNoteHeading h k a b c t) as r eqn:Hr;
      unfold toNoteHeading, getQuickCaptureSettings in Hr; unfold_steps; step_in Hr;
      rewrite ?app_nil_r in Hr; rewrite <- ?app_assoc in Hr; cbn [app] in Hr;
      note_facts; try never_rejects; quiet;
      subst r; cbn [fst snd]
  end.

Ltac after_note_calls H :=
  cbn in H;
  try match type of H with
      | context [after ?p (?evs ++ ?rest)%list] =>
          rewrite (after_append p evs rest) in H by assumption; cbn in H
      end.

Ltac calls_of_note :=
  cbn;
  repeat match goal with
    | |- context [existsb ?p (?evs ++ ?rest)%list] =>
        rewrite (existsb_app p evs rest)
    | Hq : calls ?p ?evs = false |- context [existsb ?p ?evs] =>
        change (existsb p evs) with (calls p evs); rewrite Hq
    end;
  cbn.

(** The observers of a run, past the calls of [getNoteFromParamOrUser]. *)
Ltac past_note_calls :=
  cbn;
  repeat match goal with
    | Hq : calls ?p ?evs = false |- context [after ?p (?evs ++ ?rest)%list] =>
        rewrite (after_append p evs rest Hq)
    end;
  cbn.

Ltac forall_heading_calls :=
  repeat first
    [ apply Forall_nil
    | apply Forall_cons; [cbn; try exact I|]
    | apply Forall_app; split; [apply noteCalls_headingWriteOk; assumption|]
    | apply noteCalls_headingWriteOk; assumption ].

Ltac note_returned :=
  match goal with
  | Hc : getNoteFromParamOrUser _ _ _ _ (_ ++ ?pre)%list = (_, ?evs) |- _ =>
      unfold noteReturned; exists pre; eexists;
      split; [reflexivity | cbn [purposeOf]; rewrite Hc; reflexivity]
  end.

Ltac task_text := unfold taskTextOf; by_tests; past_note_calls; reflexivity.

Ltac heading_title :=
  eexists; eexists;
  split; [unfold headingOf; by_tests; past_note_calls; reflexivity|];
  split; [apply String.eqb_neq, negb_true_iff; assumption|];
  split; [eassumption | by_tests; reflexivity].

Ltac loaded_settings := eexists; split; reflexivity.

Ltac empty_heading :=
  repeat match goal with
    | H : negb (?x =? "") = false |- _ =>
        is_var x; apply negb_false_iff, String.eqb_eq in H; subst x
    end.

Ltac write_obligation :=
  empty_heading;
  repeat split;
  first
    [ reflexivity
    | assumption
    | note_returned
    | task_text
    | solve [unfold headingOf; by_tests; past_note_calls; reflexivity]
    | solve [eexists; split; [eassumption | reflexivity]]
    | solve [heading_title]
    | solve [loaded_settings] ].

Lemma count_past :
  forall (p : Event -> bool) (l l' : Trace),
    calls p l = false -> count p (l ++ l')%list = count p l'.
Proof. intros p l l' H. rewrite count_append, (count_none p l H). reflexivity. Qed.

Ltac count_of_note :=
  cbn;
  try match goal with
    | Hq : calls ?p ?evs = false |- context [List.length (filter ?p (?evs ++ ?rest)%list)] =>
        change (List.length (filter p (evs ++ rest)%list)) with (count p (evs ++ rest)%list);
        rewrite (count_past p evs rest Hq)
    | Hq : calls ?p ?evs = false |- context [List.length (filter ?p ?evs)] =>
        change (List.length (filter p evs)) with (count p evs);
        rewrite (count_none p evs Hq)
    end;
  cbn; repeat constructor.

(** The facts about the heading commands, by one case analysis of their
    runs. *)
Lemma toNoteHeading_runs :
  forall (h : Host) (k : HeadingCommand) (noteTitleArg headingArg textArg : option string)
         (t : Trace),
    (forall msg post,
        after isNoteFailure (snd (toNoteHeading h k noteTitleArg headingArg textArg t))
        = Some (EvLogError (from "getNoteFromParamOrUser") msg, post) ->
        post = []
        /\ fst (toNoteHeading h k noteTitleArg headingArg textArg t) = Ok tt
        /\ calls isHeadingWrite (snd (toNoteHeading h k noteTitleArg headingArg textArg t)) = false
        /\ calls isShowInput (snd (toNoteHeading h k noteTitleArg headingArg textArg t)) = false
        /\ calls isChooseHeading (snd (toNoteHeading h k noteTitleArg headingArg textArg t))
           = false)
    /\ (loadedSettings (snd (toNoteHeading h k noteTitleArg headingArg textArg t)) = None ->
        calls isBelowHeadingWrite (snd (toNoteHeading h k noteTitleArg headingArg textArg t))
        = false
        /\ (k = TaskCommand ->
            calls isHeadingWrite (snd (toNoteHeading h k noteTitleArg headingArg textArg t))
            = false))
    /\ Forall (headingWriteOk h k noteTitleArg headingArg textArg t
                 (snd (toNoteHeading h k noteTitleArg headingArg textArg t)))
         (snd (toNoteHeading h k noteTitleArg headingArg textArg t))
    /\ count isHeadingWrite (snd (toNoteHeading h k noteTitleArg headingArg textArg t)) <= 1.
Proof.
  intros h k titleArg headingArg textArg t.
  heading_run.
  all: split;
    [ intros msg post Hafter;
      try (specialize (Hsome _ eq_refl));
      try (destruct (Hnull eq_refl) as [msg' Hlast]);
      after_note_calls Hafter; try discriminate Hafter;
      rewrite Hlast in Hafter; injection Hafter as ? ?; subst;
      repeat split; try reflexivity; calls_of_note; reflexivity |].
  all: split;
    [ intros Hnone; cbn in Hnone; try discriminate Hnone;
      (split; [calls_of_note; reflexivity|]);
      intros Hk; try discriminate Hk; calls_of_note; reflexivity |].
  all: split; [|count_of_note].
  all: forall_heading_calls.
  all: write_obligation.
Qed.

(** X25.  [addTaskToNoteHeading] and [addTextToNoteHeading]: when
    [getNoteFromParamOrUser] fails (its error line is among the calls),
    that line is the last call of the run: the user is not asked for a
    text or a heading, nothing is written, and the promise is
    fulfilled. *)
Theorem X25_heading_commands_stop_without_note :
  forall (h : Host) (k : HeadingCommand) (noteTitleArg headingArg textArg : option string)
         (t : Trace) (msg : string) (post : Trace),
    after isNoteFailure (snd (toNoteHeading h k noteTitleArg headingArg textArg t))
    = Some (EvLogError (from "getNoteFromParamOrUser") msg, post) ->
    post = []
    /\ fst (toNoteHeading h k noteTitleArg headingArg textArg t) = Ok tt
    /\ calls isHeadingWrite (snd (toNoteHeading h k noteTitleArg headingArg textArg t)) = false
    /\ calls isShowInput (snd (toNoteHeading h k noteTitleArg headingArg textArg t)) = false
    /\ calls isChooseHeading (snd (toNoteHeading h k noteTitleArg headingArg textArg t)) = false.
Proof.
  intros h k noteTitleArg headingArg textArg t.
  apply (toNoteHeading_runs h k noteTitleArg headingArg textArg t).
Qed.

Lemma X25_witness :
  fst (toNoteHeading (sampleHost (LoadedSettings sampleSettings) [noteA; noteB] 0 "")
         TaskCommand None (Some "Actions") (Some "buy milk") []) = Ok tt
  /\ calls isHeadingWrite
       (snd (toNoteHeading (sampleHost (LoadedSettings sampleSettings) [noteA; noteB] 0 "")
               TaskCommand None (Some "Actions") (Some "buy milk") [])) = false.
Proof.
  destruct (X25_heading_commands_stop_without_note
              (sampleHost (LoadedSettings sampleSettings) [noteA; noteB] 0 "")
              TaskCommand None (Some "Actions") (Some "buy milk") []
              "Couldn't get note" [] eq_refl) as (_ & Hok & Hwrite & _).
  split; assumption.
Defined.

(** X26.  [addTaskToNoteHeading] and [addTextToNoteHeading] write at most
    once.  The note written to is the one that [getNoteFromParamOrUser]
    returned; the text is the text given or typed, and the suffix of the
    settings is not added to it.  A write below a heading names the
    heading of the note that starts with the one given or chosen, or
    else the one given or chosen, asks for the heading to be created, and
    takes its position from [shouldAppend], that is from whether
    [addInboxPosition] is 'append'.  With the empty heading chosen, a
    task is inserted at the end of the active part of the note and a
    text on the line after it. *)
Theorem X26_heading_writes :
  forall (h : Host) (k : HeadingCommand) (noteTitleArg headingArg textArg : option string)
         (t : Trace),
    Forall (headingWriteOk h k noteTitleArg headingArg textArg t
              (snd (toNoteHeading h k noteTitleArg headingArg textArg t)))
      (snd (toNoteHeading h k noteTitleArg headingArg textArg t))
    /\ count isHeadingWrite (snd (toNoteHeading h k noteTitleArg headingArg textArg t)) <= 1.
Proof.
  intros h k noteTitleArg headingArg textArg t.
  apply (toNoteHeading_runs h k noteTitleArg headingArg textArg t).
Qed.

Lemma X26_witness :
  headingWriteOk (sampleHost (LoadedSettings sampleSettings) [noteA; noteB] 0 "")
    TaskCommand (Some "Beta") (Some "Actions") (Some "buy milk") []
    (snd (toNoteHeading (sampleHost (LoadedSettings sampleSettings) [noteA; noteB] 0 "")
            TaskCommand (Some "Beta") (Some "Actions") (Some "buy milk") []))
    (EvAddTodoBelowHeadingTitle noteB "buy milk" "Actions" true true (Ok tt)).
Proof.
  apply (proj1 (Forall_forall _ _)
           (proj1 (X26_heading_writes
                     (sampleHost (LoadedSettings sampleSettings) [noteA; noteB] 0 "")
                     TaskCommand (Some "Beta") (Some "Actions") (Some "buy milk") []))).
  vm_compute. tauto.
Defined.

(** X27.  Without settings, [addTaskToNoteHeading] and
    [addTextToNoteHeading] never write below a heading, and
    [addTaskToNoteHeading] does not write at all (it reads the suffix
    from the settings even when the text is given). *)
Theorem X27_heading_commands_without_settings :
  forall (h : Host) (k : HeadingCommand) (noteTitleArg headingArg textArg : option string)
         (t : Trace),
    loadedSettings (snd (toNoteHeading h k noteTitleArg headingArg textArg t)) = None ->
    calls isBelowHeadingWrite (snd (toNoteHeading h k noteTitleArg headingArg textArg t)) = false
    /\ (k = TaskCommand ->
        calls isHeadingWrite (snd (toNoteHeading h k noteTitleArg headingArg textArg t)) = false).
Proof.
  intros h k noteTitleArg headingArg textArg t.
  apply (toNoteHeading_runs h k noteTitleArg headingArg textArg t).
Qed.

Lemma X27_witness :
  calls isBelowHeadingWrite
    (snd (toNoteHeading (sampleHost EmptySettings [noteA; noteB] 0 "")
            TaskCommand (Some "Beta") (Some "Actions") (Some "buy milk") [])) = false
  /\ calls isHeadingWrite
       (snd (toNoteHeading (sampleHost EmptySettings [noteA; noteB] 0 "")
               TaskCommand (Some "Beta") (Some "Actions") (Some "buy milk") [])) = false.
Proof.
  destruct (X27_heading_commands_without_settings
              (sampleHost EmptySettings [noteA; noteB] 0 "")
              TaskCommand (Some "Beta") (Some "Actions") (Some "buy milk") [] eq_refl)
    as [Hbelow Hany].
  split; [exact Hbelow | exact (Hany eq_refl)].
Defined.

(** Without settings [addTextToNoteHeading] still writes at the end of
    the note, when the text is given and the empty heading is chosen. *)
Example text_added_without_settings :
  snd (toNoteHeading (sampleHost EmptySettings [noteA; noteB] 0 "")
         TextCommand (Some "Beta") None (Some "remember") [])
  = [EvLogDebug pluginJson "starting /qalh with arg0 'Beta' arg1 '' arg2 <text defined>";
     EvLoadJSON settingsPath (Ok EmptySettings);
     EvShowMessage noSettingsMessage (Ok tt);
     EvAllNotesSortedByChanged (Ok [noteA; noteB]);
     EvLogDebug (from "getNoteFromParamOrUser") "-> note 'Beta'";
     EvChooseHeading noteB true true false (Ok "");
     EvLogDebug (from "addTextToNoteHeading") "Adding line 'remember' to end of 'Beta'";
     EvInsertParagraph noteB "remember" 1 "text" (Ok tt)].
Proof. reflexivity. Qed.
End QuickCaptureFacts.
